(** * experimentor: declarative properties, camera model and relay

    A shallow embedding of the parts of the [experimentor] package that
    the specification makes checkable statements about:

    - [experimentor/models/feature.py] and
      [experimentor/models/model_properties.py]: the [Feature] and
      [ModelProp] descriptors ([__get__], [__set__], [__set_name__]);
    - [experimentor/models/models.py]: [Model._collect_properties];
    - [experimentor/models/devices/cameras/basler/basler.py]: the
      [BaslerCamera] model;
    - [experimentor/core/publisher.py]: the serve loop of [Publisher.run].

    Python objects that are mutated in place (class registries, the
    camera instance, the vendor driver handle) are modelled by explicit
    state passing; a call that may raise returns a [Res] next to the
    state reached when the exception left the function. *)

From Stdlib Require Import ZArith List String Bool Lia.
From Stdlib Require QArith.
From stdpp Require Import base gmap strings list.

Open Scope string_scope.
Open Scope list_scope.

(** ** Python values, exceptions and the state-and-exception monad *)

Abbreviation Q := QArith_base.Q.

(** Units of the time quantities the camera handles ([Q_('us')],
    [m_as('ms')], [m_as('s')]). *)
Inductive TimeUnit : Type := us | ms | sec.

(** Modelled from the spec: the three acquisition-mode constants of
    [BaseCamera] (the class is not part of the sources at hand); the
    spec lists them as three named constants of one enumeration. *)
Inductive Mode : Type := MODE_SINGLE_SHOT | MODE_CONTINUOUS | MODE_LAST.

(** The Python values that flow through descriptors and the camera.
    A float is represented by the rational it denotes. *)
Inductive PyVal : Type :=
| VNone
| VBool (b : bool)
| VInt (n : Z)
| VFloat (x : Q)
| VStr (s : string)
| VQuantity (m : Q) (u : TimeUnit)
| VMode (m : Mode).

#[global] Instance Q_eq_dec : EqDecision Q.
Proof. intros [a b] [c d]. unfold Decision. decide equality; [apply Pos.eq_dec | apply Z.eq_dec]. Defined.
#[global] Instance TimeUnit_eq_dec : EqDecision TimeUnit.
Proof. solve_decision. Defined.
#[global] Instance Mode_eq_dec : EqDecision Mode.
Proof. solve_decision. Defined.
#[global] Instance PyVal_eq_dec : EqDecision PyVal.
Proof. solve_decision. Defined.

(** The length of one unit in microseconds. *)
Definition microseconds (u : TimeUnit) : Q :=
  match u with
  | us => QArith_base.inject_Z 1
  | ms => QArith_base.inject_Z 1000
  | sec => QArith_base.inject_Z 1000000
  end.

(** The number a value denotes when it is a [bool], an [int] or a
    [float]: [False] and [True] are the integers 0 and 1. *)
Definition numeric (v : PyVal) : option Q :=
  match v with
  | VBool b => Some (QArith_base.inject_Z (if b then 1 else 0))
  | VInt n => Some (QArith_base.inject_Z n)
  | VFloat x => Some x
  | _ => None
  end.

(** Python's [a == b] on the values above. Numbers are compared by the
    number they denote, across [bool], [int] and [float] ([0 == False],
    [0 == 0.0], [1 == True]); [None] equals only [None]; strings are
    compared character by character; a mode constant equals only
    itself. Modelled (the units library is not part of the sources at
    hand): two quantities are equal when they denote the same duration,
    and a quantity equals no value that is not a quantity. Values of
    different kinds are unequal. *)
Definition py_eq (a b : PyVal) : bool :=
  match numeric a, numeric b with
  | Some x, Some y => QArith_base.Qeq_bool x y
  | None, None =>
      match a, b with
      | VNone, VNone => true
      | VStr s, VStr t => String.eqb s t
      | VQuantity m u, VQuantity m' u' =>
          QArith_base.Qeq_bool (QArith_base.Qmult m (microseconds u))
                               (QArith_base.Qmult m' (microseconds u'))
      | VMode m, VMode m' => bool_decide (m = m')
      | _, _ => false
      end
  | _, _ => false
  end.

(** Python's [a != b]. *)
Definition py_ne (a b : PyVal) : bool := negb (py_eq a b).

(** Python's [a is b] where [b] is one of the singletons [None], [True]
    and [False]: the same object, whatever compares equal to it. *)
Definition py_is (a b : PyVal) : bool := bool_decide (a = b).

Inductive Exn : Type :=
| AttributeError (msg : string)
| TypeError (msg : string)
| KeyError (key : string)
| ValueError (msg : string)
| CameraNotFound (msg : string)
| WrongCameraState (msg : string)
| CameraException (msg : string)
| TimeoutException.

Inductive Res (A : Type) : Type :=
| Ok (a : A)
| Raise (e : Exn).
Arguments Ok {A} a.
Arguments Raise {A} e.

(** A method acting on a mutable object of type [S]: the state it leaves
    is returned also when it raises. *)
Definition M (S A : Type) : Type := S -> Res A * S.

Definition ret {S A} (a : A) : M S A := fun s => (Ok a, s).
Definition raise {S A} (e : Exn) : M S A := fun s => (Raise e, s).
Definition bind {S A B} (m : M S A) (k : A -> M S B) : M S B :=
  fun s => match m s with
           | (Ok a, s') => k a s'
           | (Raise e, s') => (Raise e, s')
           end.
Definition gets {S A} (f : S -> A) : M S A := fun s => (Ok (f s), s).
Definition modify {S} (f : S -> S) : M S unit := fun s => (Ok tt, f s).

Notation "x <- m ;; k" := (bind m (fun x => k))
  (at level 100, m at next level, right associativity).
Notation "m ;;; k" := (bind m (fun _ => k))
  (at level 100, right associativity).

(** A record handed to a logger. Of an f-string message the fixed text is
    kept; an interpolated object whose rendering is not modelled (the
    camera itself, a mode, a number) is left out. *)
Inductive LogRecord : Type :=
| Debug (msg : string)
| DebugValue (v : PyVal)
| Info (msg : string)
| Warning (msg : string)
| Error (msg : string).

(** ** The per-class property registry ([__set_name__]) *)

Module Registry.

Section WithDescriptor.

(** The descriptor objects stored in a registry. *)
Variable Descr : Type.

(** A registry object ([_model_props]): a mapping from attribute name
    to descriptor that also carries the [model_name] attribute
    [__set_name__] tags it with ([None] while the attribute is unset). *)
Record PropertyRegistry : Type := mkRegistry {
  model_name : option string;
  items : gmap string Descr
}.

(** A class object: its method resolution order (itself first) and the
    [_model_props] entry of its own namespace, a reference to a
    registry object. *)
Record ClassObj : Type := mkClass {
  mro : list string;
  own_model_props : option nat
}.

Record Heap : Type := mkHeap {
  registries : gmap nat PropertyRegistry;
  classes : gmap string ClassObj;
  next_ref : nat
}.

(** [owner._model_props]: the first class on the MRO whose namespace
    holds the attribute. *)
Fixpoint first_own (h : Heap) (order : list string) : option nat :=
  match order with
  | [] => None
  | c :: rest =>
      match classes h !! c with
      | Some (mkClass _ (Some r)) => Some r
      | _ => first_own h rest
      end
  end.

Definition getattr_model_props (h : Heap) (owner : string) : option nat :=
  match classes h !! owner with
  | Some c => first_own h (mro c)
  | None => None
  end.

(** [object.__qualname__]: inside [__set_name__] the name [object] is
    the builtin, not the [owner] parameter. *)
Definition object_qualname : string := "object".

(** [owner._model_props = model_props] *)
Definition setattr_model_props (owner : string) (r : nat) (h : Heap) : Heap :=
  match classes h !! owner with
  | Some c => mkHeap (registries h) (<[owner := mkClass (mro c) (Some r)]> (classes h)) (next_ref h)
  | None => h
  end.

(** [owner._model_props[name] = self] *)
Definition setitem_model_props (owner name : string) (d : Descr) : M Heap unit :=
  fun h =>
    match getattr_model_props h owner with
    | None => (Raise (AttributeError "_model_props"), h)
    | Some r =>
        match registries h !! r with
        | None => (Raise (AttributeError "_model_props"), h)
        | Some reg =>
            (Ok tt, mkHeap (<[r := mkRegistry (model_name reg) (<[name := d]> (items reg))]> (registries h))
                           (classes h) (next_ref h))
        end
    end.

(** [Feature.__set_name__] and [ModelProp.__set_name__] (the two bodies
    are the same). *)
Definition set_name (d : Descr) (owner name : string) : M Heap unit :=
  fun h =>
    match getattr_model_props h owner with
    | None => (Raise (AttributeError "_model_props"), h)
    | Some r =>
        match registries h !! r with
        | None => (Raise (AttributeError "_model_props"), h)
        | Some reg =>
            if bool_decide (model_name reg <> Some object_qualname) then
              (* model_props.__class__( **model_props ), tagged and
                 stored on the owner *)
              let r' := next_ref h in
              let copy := mkRegistry (Some object_qualname) (items reg) in
              let h1 := mkHeap (<[r' := copy]> (registries h)) (classes h) (S r') in
              setitem_model_props owner name d (setattr_model_props owner r' h1)
            else
              setitem_model_props owner name d h
        end
    end.

(** A [class name(parent): ...] statement whose body binds the given
    descriptors: the class object is created, then [__set_name__] runs
    for each descriptor of the body, in order. *)
Fixpoint bind_all (owner : string) (body : list (string * Descr)) : M Heap unit :=
  match body with
  | [] => ret tt
  | (name, d) :: rest => set_name d owner name ;;; bind_all owner rest
  end.

Definition define_class (name parent : string) (body : list (string * Descr)) : M Heap unit :=
  fun h =>
    match classes h !! parent with
    | None => (Raise (TypeError "unknown base class"), h)
    | Some p =>
        bind_all name body
          (mkHeap (registries h) (<[name := mkClass (name :: mro p) None]> (classes h)) (next_ref h))
    end.

(** The registry a class sees, as a mapping. *)
Definition model_props_of (h : Heap) (c : string) : option (gmap string Descr) :=
  r ← getattr_model_props h c; reg ← registries h !! r; Some (items reg).

(** A root class holding a registry with the given tag and content. *)
Definition root_heap (root : string) (tag : option string) (props : gmap string Descr) : Heap :=
  mkHeap {[ 0%nat := mkRegistry tag props ]} {[ root := mkClass [root] (Some 0%nat) ]} 1.

(** Base class [A] with one property, then two subclasses [B] and [C]
    of [A], each with one more property. *)
Definition three_classes (da db dc : Descr) : M Heap unit :=
  define_class "A" "Model" [("a", da)] ;;;
  define_class "B" "A" [("b", db)] ;;;
  define_class "C" "A" [("c", dc)].

End WithDescriptor.

Arguments mkRegistry {Descr} _ _.
Arguments model_name {Descr} _.
Arguments items {Descr} _.
Arguments registries {Descr} _.
Arguments classes {Descr} _.
Arguments next_ref {Descr} _.
Arguments mkHeap {Descr} _ _ _.
Arguments getattr_model_props {Descr} _ _.
Arguments set_name {Descr} _ _ _ _.
Arguments define_class {Descr} _ _ _ _.
Arguments model_props_of {Descr} _ _.
Arguments root_heap {Descr} _ _ _.
Arguments three_classes {Descr} _ _ _ _.

End Registry.


(** ** The descriptors [Feature] and [ModelProp] *)

Module Props.

(** Modelled from the spec: the [ConfigurationStore] held by every model
    instance as [config] (its class is not part of the sources at hand),
    "a mapping from property name to last-known value". *)
Abbreviation Config := (gmap string PyVal).

(** Modelled from the spec: [ConfigurationStore.upgrade], "merge one or
    more name->value pairs into the store, optionally forcing overwrite
    of cached entries". *)
Definition upgrade (values : list (string * PyVal)) (force : bool) (c : Config) : Config :=
  fold_left (fun acc kv =>
               match acc !! kv.1 with
               | Some _ => if force then <[kv.1 := kv.2]> acc else acc
               | None => <[kv.1 := kv.2]> acc
               end) values c.

(** Modelled from the spec: [config[key]], the lookup of a mapping. *)
Definition config_getitem (c : Config) (key : string) : Res PyVal :=
  match c !! key with
  | Some v => Ok v
  | None => Raise (KeyError key)
  end.

Section Descriptors.

(** The model instance a descriptor is read or written on, with its
    [config] attribute. *)
Variable Inst : Type.
Variable config : Inst -> Config.
Variable set_config : Config -> Inst -> Inst.

(** [instance.config.upgrade({key: val}, force=True)] *)
Definition mirror (key : string) (val : PyVal) : M Inst unit :=
  modify (fun i => set_config (upgrade [(key, val)] true (config i)) i).

(** The keyword arguments the constructors read. *)
Record Kwargs : Type := mkKwargs {
  kw_setting : option bool;
  kw_force_update_arg : option PyVal
}.

Definition no_kwargs : Kwargs := mkKwargs None None.

(** The class attribute [name = ''], which an instance reads as long as
    nothing assigns [self.name]. *)
Definition class_name_default : string := "".

(** *** ModelProp *)

Record ModelProp : Type := mkModelProp {
  mp_fget : option (M Inst PyVal);
  mp_fset : option (PyVal -> M Inst unit);
  mp_kwargs : Kwargs;
  mp_name : string
}.

(** [ModelProp.__init__] *)
Definition ModelProp_init (fget : option (M Inst PyVal)) (fset : option (PyVal -> M Inst unit))
    (kwargs : Kwargs) : ModelProp :=
  mkModelProp fget fset kwargs class_name_default.

(** [ModelProp.__get__] on an instance (the method also keeps the
    instance in [self.instance], which nothing reads). *)
Definition ModelProp_get (p : ModelProp) : M Inst PyVal :=
  match mp_fget p with
  | None => raise (AttributeError "unreadable attribute")
  | Some g => val <- g ;; mirror (mp_name p) val ;;; ret val
  end.

(** [ModelProp.__set__] *)
Definition ModelProp_set (p : ModelProp) (value : PyVal) : M Inst unit :=
  match mp_fset p with
  | None => raise (AttributeError "can't set attribute")
  | Some s => s value ;;; mirror (mp_name p) value
  end.

(** [ModelProp.getter], [ModelProp.setter] and [ModelProp.__call__]:
    each builds a new descriptor with [type(self)(...)]. *)
Definition ModelProp_getter (p : ModelProp) (fget : M Inst PyVal) : ModelProp :=
  ModelProp_init (Some fget) (mp_fset p) (mp_kwargs p).
Definition ModelProp_setter (p : ModelProp) (fset : PyVal -> M Inst unit) : ModelProp :=
  ModelProp_init (mp_fget p) (Some fset) (mp_kwargs p).

(** *** Feature *)

Record Feature : Type := mkFeature {
  fget : option (M Inst PyVal);
  fset : option (PyVal -> M Inst unit);
  kwargs : Kwargs;
  name : string;
  is_setting : bool;
  force_update : PyVal;
  value : PyVal
}.

(** [Feature.__init__] *)
Definition Feature_init (fget : option (M Inst PyVal)) (fset : option (PyVal -> M Inst unit))
    (kwargs : Kwargs) : Feature :=
  mkFeature fget fset kwargs class_name_default
            (default false (kw_setting kwargs))
            (default VNone (kw_force_update_arg kwargs))
            VNone.

Definition Feature_getter (f : Feature) (g : M Inst PyVal) : Feature :=
  Feature_init (Some g) (fset f) (kwargs f).
Definition Feature_setter (f : Feature) (s : PyVal -> M Inst unit) : Feature :=
  Feature_init (fget f) (Some s) (kwargs f).

(** [Feature.__get__] on an instance; the descriptor is not assigned to. *)
Definition Feature_get (f : Feature) : M Inst PyVal :=
  match fget f with
  | None => raise (AttributeError "unreadable attribute")
  | Some g =>
      if is_setting f && py_ne (value f) (force_update f) then ret (value f)
      else val <- g ;; mirror (name f) val ;;; ret val
  end.

(** [self.value = value] *)
Definition with_value (v : PyVal) (f : Feature) : Feature :=
  mkFeature (fget f) (fset f) (kwargs f) (name f) (is_setting f) (force_update f) v.

(** [Feature.__set__]: the state is the descriptor together with the
    instance, since the method assigns [self.value]. *)
Definition Feature_set (value : PyVal) : M (Feature * Inst) unit :=
  fun '(f, i) =>
    match fset f with
    | None => (Raise (AttributeError "can't set attribute"), (f, i))
    | Some s =>
        if is_setting f && py_eq (force_update f) value then
          match fget f with
          | None => (Raise (TypeError "'NoneType' object is not callable"), (f, i))
          | Some g =>
              match g i with
              | (Ok value', i1) =>
                  (Ok tt, (with_value value' f, snd (mirror (name f) value' i1)))
              | (Raise e, i1) => (Raise e, (f, i1))
              end
          end
        else
          match s value i with
          | (Ok _, i1) => (Ok tt, (with_value value f, snd (mirror (name f) value i1)))
          | (Raise e, i1) => (Raise e, (f, i1))
          end
    end.

(** Two reads of the bound property in a row, with nothing in between. *)
Definition read_twice (f : Feature) : M Inst (PyVal * PyVal) :=
  v1 <- Feature_get f ;; v2 <- Feature_get f ;; ret (v1, v2).

End Descriptors.

Arguments mkKwargs _ _ : clear implicits.
Arguments ModelProp_init {Inst} _ _ _.
Arguments ModelProp_get {Inst} _ _ _ _.
Arguments ModelProp_getter {Inst} _ _.
Arguments ModelProp_setter {Inst} _ _.
Arguments ModelProp_set {Inst} _ _ _ _ _.
Arguments mp_name {Inst} _.
Arguments mp_fget {Inst} _.
Arguments mp_fset {Inst} _.
Arguments Feature_init {Inst} _ _ _.
Arguments Feature_getter {Inst} _ _.
Arguments Feature_setter {Inst} _ _.
Arguments Feature_get {Inst} _ _ _ _.
Arguments Feature_set {Inst} _ _ _ _.
Arguments read_twice {Inst} _ _ _ _.
Arguments mirror {Inst} _ _ _ _ _.
Arguments with_value {Inst} _ _.
Arguments fget {Inst} _.
Arguments fset {Inst} _.
Arguments name {Inst} _.
Arguments is_setting {Inst} _.
Arguments force_update {Inst} _.
Arguments value {Inst} _.

(** A model instance observed from outside: its configuration store, the
    value its device currently holds, and how many times the getter of
    its property went to the device. *)
Record Probe : Type := mkProbe {
  probe_config : Config;
  device_value : PyVal;
  getter_calls : nat
}.

Definition probe_set_config (c : Config) (p : Probe) : Probe :=
  mkProbe c (device_value p) (getter_calls p).

(** A getter that increments a counter on every invocation and returns
    what the device holds. *)
Definition counting_getter : M Probe PyVal :=
  fun p => (Ok (device_value p), mkProbe (probe_config p) (device_value p) (S (getter_calls p))).

(** A setter that hands the value to the device. *)
Definition device_setter (v : PyVal) : M Probe unit :=
  fun p => (Ok tt, mkProbe (probe_config p) v (getter_calls p)).

(** *** A property on a probe instance *)

Definition fresh_probe : Probe := mkProbe ∅ (VInt 7) 0.

(** [@ModelProp() def gain(self)] followed by [@gain.setter]. *)
Definition gain_prop : ModelProp Probe :=
  ModelProp_setter (ModelProp_getter (ModelProp_init None None no_kwargs) counting_getter) device_setter.

(** [@Feature() def gain(self)] followed by [@gain.setter]. *)
Definition gain_feature : Feature Probe :=
  Feature_setter (Feature_getter (Feature_init None None no_kwargs) counting_getter) device_setter.

(** [@Feature(setting=True, force_update_arg=0)] with a getter and a
    setter, as in the module's docstring. *)
Definition exposure_setting : Feature Probe :=
  Feature_setter
    (Feature_getter (Feature_init None None (mkKwargs (Some true) (Some (VInt 0)))) counting_getter)
    device_setter.

(** [@Feature(setting=True)] with a counting getter. *)
Definition default_setting : Feature Probe :=
  Feature_getter (Feature_init None None (mkKwargs (Some true) None)) counting_getter.

End Props.

(** ** The base class [Model] *)

Module Models.

(** The objects [_collect_properties] meets: attribute names are
    strings; an attribute of the instance is bound to a [ModelProp]
    descriptor (read through its getter) or holds a plain value. *)
Inductive Obj : Type :=
| OStr (s : string)
| OModelProp (current : PyVal)
| OPlain (v : PyVal).

(** [isinstance(x, ModelProp)] *)
Definition isinstance_ModelProp (x : Obj) : bool :=
  match x with
  | OModelProp _ => true
  | _ => false
  end.

(** A [Model] instance: its attributes by name, in the order [dir]
    lists them, and the [_properties] collection (the class attribute
    [_properties = []], a list). *)
Record Model : Type := mkModel {
  attributes : list (string * Obj);
  _properties : list Obj
}.

(** [dir(self)]: the attribute names, a list of strings. *)
Definition dir (self : Model) : list string := map fst (attributes self).

(** [getattr(self, item)] *)
Definition getattr (item : string) : M Model Obj :=
  fun self =>
    match List.find (fun kv => String.eqb (fst kv) item) (attributes self) with
    | Some (_, OModelProp current) => (Ok (OPlain current), self)
    | Some (_, o) => (Ok o, self)
    | None => (Raise (AttributeError item), self)
    end.

(** [deepcopy(prop)] of an immutable value. *)
Definition deepcopy (o : Obj) : Obj := o.

(** [self._properties[item] = x] with a string [item]: [_properties] is
    a list, which only takes integer indices. *)
Definition setitem_properties (item : string) (x : Obj) : M Model unit :=
  raise (TypeError "list indices must be integers or slices, not str").

(** The loop of [_collect_properties] over the names [dir] returned. *)
Fixpoint collect_loop (items : list string) : M Model unit :=
  match items with
  | [] => ret tt
  | item :: rest =>
      (if isinstance_ModelProp (OStr item) then
         prop <- getattr item ;; setitem_properties item (deepcopy prop)
       else ret tt) ;;;
      collect_loop rest
  end.

(** [Model._collect_properties] *)
Definition _collect_properties : M Model unit :=
  fun self => collect_loop (dir self) self.

(** An instance with one attribute bound to a [ModelProp]. *)
Definition one_property_model : Model :=
  mkModel [("driver", OPlain VNone); ("gain", OModelProp (VInt 3))] [].

End Models.

(** ** The relay process ([Publisher.run]) *)

Module Relay.

(** A two-part message: the topic string, then the pickled payload. *)
Definition Message : Type := string * PyVal.

Section WithSettings.

(** [settings.PUBLISHER_EXIT_KEYWORD] (the settings module is not part
    of the sources at hand). *)
Variable PUBLISHER_EXIT_KEYWORD : string.

(** What the serve loop works on: the shared stop event, the counter
    [i], the messages sent on the PUB socket (oldest first) and the
    logger. *)
Record Publisher : Type := mkPublisher {
  event : bool;
  i : nat;
  sent : list Message;
  logger : list LogRecord
}.

(** [isinstance(data, str) and data == settings.PUBLISHER_EXIT_KEYWORD] *)
Definition is_exit_keyword (data : PyVal) : bool :=
  match data with
  | VStr s => String.eqb s PUBLISHER_EXIT_KEYWORD
  | _ => false
  end.

(** [topic is ""]: CPython keeps one empty [str] object, so the identity
    test holds exactly of the empty topic. *)
Definition is_broadcast (topic : string) : bool := String.eqb topic "".

(** One turn of the [while] body, on the message the PULL socket
    delivers. *)
Definition serve_one (m : Message) (p : Publisher) : Publisher :=
  let '(topic, data) := m in
  let log1 := logger p ++ [Debug ("Got data on topic " +:+ topic); DebugValue data] in
  let sent1 := sent p ++ [(topic, data)] in
  if is_broadcast topic then
    let log2 := log1 ++ [Info "Got Broad Topic"] in
    if is_exit_keyword data then
      mkPublisher true (S (i p)) sent1 (log2 ++ [Info "Stopping the Publisiher"])
    else mkPublisher (event p) (S (i p)) sent1 log2
  else mkPublisher (event p) (S (i p)) sent1 log1.

(** The loop [while not self._event.is_set(): ...] over the messages
    that arrive on the PULL socket; it returns the state it stops in and
    the messages it never received. With nothing left to receive the
    loop blocks in [recv_string]. *)
Fixpoint serve (incoming : list Message) (p : Publisher) : Publisher * list Message :=
  match incoming with
  | [] => (p, [])
  | m :: rest => if event p then (p, incoming) else serve rest (serve_one m p)
  end.

(** The message that shuts the relay down. *)
Definition exit_message : Message := ("", VStr PUBLISHER_EXIT_KEYWORD).

Definition is_exit_message (m : Message) : bool :=
  is_broadcast (fst m) && is_exit_keyword (snd m).

End WithSettings.

(** A relay that has just started serving. *)
Definition idle_publisher : Publisher := mkPublisher false 0 [] [].

End Relay.

(** ** The camera model [BaslerCamera] *)

Module Basler.

Import Props.

(** *** The vendor SDK as the model sees it *)

Inductive GrabStrategy : Type :=
| GrabStrategy_OneByOne
| GrabStrategy_LatestImageOnly
| GrabStrategy_LatestImages.

Inductive TimeoutHandling : Type :=
| TimeoutHandling_Return
| TimeoutHandling_ThrowException.

(** [np.uint8] and [np.uint16] *)
Inductive Dtype : Type := uint8 | uint16.

(** A two-dimensional integer array. *)
Definition Array : Type := list (list Z).

(** What [EnumerateDevices] tells about a camera. *)
Record DeviceInfo : Type := mkDeviceInfo {
  FriendlyName : string;
  ModelName : string;
  SerialNumber : string
}.

(** The outcome of reading a GenICam node: its value, or
    [_genicam.TimeoutException]. *)
Inductive NodeRead (A : Type) : Type :=
| Value (a : A)
| TimedOut.
Arguments Value {A} a.
Arguments TimedOut {A}.

(** What the next [RetrieveResult] finds: a successful grab, a failed
    one, or nothing within the timeout. *)
Inductive GrabOutcome : Type :=
| Delivered (a : Array)
| GrabFailed
| NoResult.

(** The camera's side of the conversation: what its nodes answer and the
    grab results it will hand out, oldest first. *)
Record Registers : Type := mkRegisters {
  ExposureTime : NodeRead Q;
  PixelFormat : string;
  MaxNumBuffer : Z;
  NumReadyBuffers : nat;
  results : list GrabOutcome
}.

(** A camera the transport layer enumerates. *)
Record Device : Type := mkDevice {
  info : DeviceInfo;
  registers : Registers
}.

(** A [pylon.InstantCamera] with the device attached to it. *)
Record InstantCamera : Type := mkInstantCamera {
  attached : DeviceInfo;
  regs : Registers;
  is_open : bool;
  grabbing : bool;
  strategy : option GrabStrategy;
  software_trigger : bool
}.

(** The calls made into the SDK, recorded oldest first. *)
Inductive SdkCall : Type :=
| Call_EnumerateDevices
| Call_CreateDevice (d : DeviceInfo)
| Call_Attach (d : DeviceInfo)
| Call_Open (d : DeviceInfo)
| Call_GetDeviceInfo
| Call_RegisterConfiguration
| Call_IsGrabbing
| Call_StopGrabbing
| Call_StartGrabbing (s : GrabStrategy)
| Call_ExecuteSoftwareTrigger
| Call_RetrieveResult (timeout : Z) (handling : TimeoutHandling)
| Call_Release
| Call_ExposureTime_ToString
| Call_PixelFormat_GetValue
| Call_MaxNumBuffer_Value
| Call_NumReadyBuffers_Value.

(** *** The instance *)

(** A [BaslerCamera] instance. [acquisition_mode_value] is the [value]
    attribute of the [Feature] descriptor bound to [acquisition_mode];
    [logger] and [sdk] record the log entries and the SDK calls made so
    far. *)
Record Camera : Type := mkCamera {
  camera : string;
  initial_config : option Config;
  config : Config;
  _driver : option InstantCamera;
  friendly_name : string;
  free_run_running : bool;
  keep_reading : bool;
  fps : Z;
  _acquisition_mode : PyVal;
  acquisition_mode_value : PyVal;
  current_dtype : option Dtype;
  temp_image : option Array;
  width : option Z;
  height : option Z;
  logger : list LogRecord;
  sdk : list SdkCall
}.

(** Assignments to the attributes of the instance. *)
Definition set_config (v : Config) (c : Camera) : Camera :=
  mkCamera (camera c) (initial_config c) v (_driver c) (friendly_name c) (free_run_running c) (keep_reading c) (fps c) (_acquisition_mode c) (acquisition_mode_value c) (current_dtype c) (temp_image c) (width c) (height c) (logger c) (sdk c).

Definition set_driver (v : option InstantCamera) (c : Camera) : Camera :=
  mkCamera (camera c) (initial_config c) (config c) v (friendly_name c) (free_run_running c) (keep_reading c) (fps c) (_acquisition_mode c) (acquisition_mode_value c) (current_dtype c) (temp_image c) (width c) (height c) (logger c) (sdk c).

Definition set_friendly_name (v : string) (c : Camera) : Camera :=
  mkCamera (camera c) (initial_config c) (config c) (_driver c) v (free_run_running c) (keep_reading c) (fps c) (_acquisition_mode c) (acquisition_mode_value c) (current_dtype c) (temp_image c) (width c) (height c) (logger c) (sdk c).

Definition set_free_run_running (v : bool) (c : Camera) : Camera :=
  mkCamera (camera c) (initial_config c) (config c) (_driver c) (friendly_name c) v (keep_reading c) (fps c) (_acquisition_mode c) (acquisition_mode_value c) (current_dtype c) (temp_image c) (width c) (height c) (logger c) (sdk c).

Definition set_acquisition_mode (v : PyVal) (c : Camera) : Camera :=
  mkCamera (camera c) (initial_config c) (config c) (_driver c) (friendly_name c) (free_run_running c) (keep_reading c) (fps c) v (acquisition_mode_value c) (current_dtype c) (temp_image c) (width c) (height c) (logger c) (sdk c).

Definition set_acquisition_mode_value (v : PyVal) (c : Camera) : Camera :=
  mkCamera (camera c) (initial_config c) (config c) (_driver c) (friendly_name c) (free_run_running c) (keep_reading c) (fps c) (_acquisition_mode c) v (current_dtype c) (temp_image c) (width c) (height c) (logger c) (sdk c).

Definition set_current_dtype (v : option Dtype) (c : Camera) : Camera :=
  mkCamera (camera c) (initial_config c) (config c) (_driver c) (friendly_name c) (free_run_running c) (keep_reading c) (fps c) (_acquisition_mode c) (acquisition_mode_value c) v (temp_image c) (width c) (height c) (logger c) (sdk c).

Definition set_temp_image (v : option Array) (c : Camera) : Camera :=
  mkCamera (camera c) (initial_config c) (config c) (_driver c) (friendly_name c) (free_run_running c) (keep_reading c) (fps c) (_acquisition_mode c) (acquisition_mode_value c) (current_dtype c) v (width c) (height c) (logger c) (sdk c).

Definition set_logger (v : list LogRecord) (c : Camera) : Camera :=
  mkCamera (camera c) (initial_config c) (config c) (_driver c) (friendly_name c) (free_run_running c) (keep_reading c) (fps c) (_acquisition_mode c) (acquisition_mode_value c) (current_dtype c) (temp_image c) (width c) (height c) v (sdk c).

Definition set_sdk (v : list SdkCall) (c : Camera) : Camera :=
  mkCamera (camera c) (initial_config c) (config c) (_driver c) (friendly_name c) (free_run_running c) (keep_reading c) (fps c) (_acquisition_mode c) (acquisition_mode_value c) (current_dtype c) (temp_image c) (width c) (height c) (logger c) v.

(** Modelled from the spec: the part of construction done by
    [BaseCamera.__init__] (not part of the sources at hand), which keeps
    the camera identifier and the initial configuration, creates the
    configuration store and leaves the driver unset; the rest is
    [BaslerCamera.__init__] and the class attribute
    [_acquisition_mode = BaseCamera.MODE_SINGLE_SHOT]. *)
Definition init (camera : string) (initial_config : option Config) : Camera :=
  mkCamera camera initial_config ∅ None "" false false 0
           (VMode MODE_SINGLE_SHOT) VNone None None None None [] [].

(** *** Helpers: logging, attribute access, SDK calls *)

Definition log (r : LogRecord) : M Camera unit :=
  modify (fun c => set_logger (logger c ++ [r]) c).

Definition sdk_call (call : SdkCall) : M Camera unit :=
  modify (fun c => set_sdk (sdk c ++ [call]) c).

(** [self._driver.<attribute>]: fails on [None]. *)
Definition driver : M Camera InstantCamera :=
  fun c => match _driver c with
           | Some d => (Ok d, c)
           | None => (Raise (AttributeError "'NoneType' object has no attribute"), c)
           end.

Definition put_driver (d : InstantCamera) : M Camera unit :=
  modify (set_driver (Some d)).

(** [self.config[key]] *)
Definition config_get (key : string) : M Camera PyVal :=
  fun c => (config_getitem (config c) key, c).

Definition with_grabbing (g : bool) (s : option GrabStrategy) (d : InstantCamera) : InstantCamera :=
  mkInstantCamera (attached d) (regs d) (is_open d) g s (software_trigger d).

Definition with_regs (r : Registers) (d : InstantCamera) : InstantCamera :=
  mkInstantCamera (attached d) r (is_open d) (grabbing d) (strategy d) (software_trigger d).

Definition IsGrabbing : M Camera bool :=
  d <- driver ;; sdk_call Call_IsGrabbing ;;; ret (grabbing d).

Definition StopGrabbing : M Camera unit :=
  d <- driver ;; sdk_call Call_StopGrabbing ;;; put_driver (with_grabbing false (strategy d) d).

Definition StartGrabbing (s : GrabStrategy) : M Camera unit :=
  d <- driver ;; sdk_call (Call_StartGrabbing s) ;;; put_driver (with_grabbing true (Some s) d).

Definition ExecuteSoftwareTrigger : M Camera unit :=
  _ <- driver ;; sdk_call Call_ExecuteSoftwareTrigger.

(** [self._driver.RetrieveResult(timeout, handling)], the receiver
    already evaluated. *)
Definition RetrieveResult (timeout : Z) (handling : TimeoutHandling) : M Camera GrabOutcome :=
  d <- driver ;;
  sdk_call (Call_RetrieveResult timeout handling) ;;;
  let outcome := hd NoResult (results (regs d)) in
  put_driver (with_regs (mkRegisters (ExposureTime (regs d)) (PixelFormat (regs d)) (MaxNumBuffer (regs d))
                                     (NumReadyBuffers (regs d)) (tl (results (regs d)))) d) ;;;
  match outcome, handling with
  | NoResult, TimeoutHandling_ThrowException => raise TimeoutException
  | _, _ => ret outcome
  end.

(** *** Quantities *)

(** [quantity.m_as(unit)] *)
Definition m_as (v : PyVal) (target : TimeUnit) : Res Q :=
  match v with
  | VQuantity m u =>
      Ok (QArith_base.Qdiv (QArith_base.Qmult m (microseconds u)) (microseconds target))
  | _ => Raise (AttributeError "m_as")
  end.

(** [int(x)] on a float: truncation towards zero. *)
Definition py_int (x : Q) : Z := Z.quot (QArith_base.Qnum x) (Zpos (QArith_base.Qden x)).

(** *** Features *)

(** The function under [@Feature() def exposure(self)]. *)
Definition exposure_fget : M Camera PyVal :=
  cached <- config_get "exposure" ;;
  if negb (py_is cached VNone) then config_get "exposure"
  else
    d <- driver ;;
    sdk_call Call_ExposureTime_ToString ;;;
    match ExposureTime (regs d) with
    | Value x => ret (VQuantity x us)
    | TimedOut => log (Error "Timeout getting the exposure") ;;; config_get "exposure"
    end.

(** The descriptor bound to [exposure], as far as reads go (its setter
    half plays no part in [__get__]). *)
Definition exposure_feature : Feature Camera :=
  Feature_getter (Feature_init None None no_kwargs) exposure_fget.

(** [self.exposure] *)
Definition get_exposure : M Camera PyVal := Feature_get config set_config exposure_feature.

(** The function under [@Feature() def pixel_format(self)]. *)
Definition pixel_format_fget : M Camera PyVal :=
  d <- driver ;; sdk_call Call_PixelFormat_GetValue ;;; ret (VStr (PixelFormat (regs d))).

Definition pixel_format_feature : Feature Camera :=
  Feature_getter (Feature_init None None no_kwargs) pixel_format_fget.

(** [self.pixel_format] *)
Definition get_pixel_format : M Camera PyVal := Feature_get config set_config pixel_format_feature.

(** The function under [@Feature() def acquisition_mode(self)]. *)
Definition acquisition_mode_fget : M Camera PyVal := gets _acquisition_mode.

(** The function under [@acquisition_mode.setter]. *)
Definition acquisition_mode_fset (mode : PyVal) : M Camera unit :=
  g <- IsGrabbing ;;
  (if g then log (Warning " Changing acquisition mode for a grabbing camera") else ret tt) ;;;
  log (Info " Setting acquisition mode to ") ;;;
  if py_eq mode (VMode MODE_CONTINUOUS) then
    d <- driver ;;
    sdk_call Call_MaxNumBuffer_Value ;;;
    log (Debug "Setting buffer to ") ;;;
    modify (set_acquisition_mode mode)
  else if py_eq mode (VMode MODE_SINGLE_SHOT) then
    log (Debug "Setting buffer to 1") ;;;
    modify (set_acquisition_mode mode)
  else ret tt.

(** The descriptor bound to [acquisition_mode], holding the given
    [value]. *)
Definition acquisition_mode_feature (cached : PyVal) : Feature Camera :=
  with_value cached
    (Feature_setter (Feature_getter (Feature_init None None no_kwargs) acquisition_mode_fget)
                    acquisition_mode_fset).

(** [self.acquisition_mode] *)
Definition get_acquisition_mode : M Camera PyVal :=
  fun c => Feature_get config set_config (acquisition_mode_feature (acquisition_mode_value c)) c.

(** [self.acquisition_mode = mode] *)
Definition assign_acquisition_mode (mode : PyVal) : M Camera unit :=
  fun c =>
    match Feature_set config set_config mode (acquisition_mode_feature (acquisition_mode_value c), c) with
    | (r, (f, c')) => (r, set_acquisition_mode_value (value f) c')
    end.

(** *** Acquisition *)

(** [BaslerCamera.trigger_camera] *)
Definition trigger_camera : M Camera unit :=
  g <- IsGrabbing ;;
  (if g then log (Warning "Triggering a grabbing camera") else ret tt) ;;;
  StopGrabbing ;;;
  mode <- get_acquisition_mode ;;
  (if py_eq mode (VMode MODE_CONTINUOUS) then
     StartGrabbing GrabStrategy_OneByOne ;;; log (Info "Grab Strategy: One by One")
   else if py_eq mode (VMode MODE_SINGLE_SHOT) then
     StartGrabbing GrabStrategy_LatestImageOnly ;;; log (Info "Grab Strategy: Latest Image")
   else if py_eq mode (VMode MODE_LAST) then
     StartGrabbing GrabStrategy_LatestImages
   else raise (CameraException "Unknown acquisition mode")) ;;;
  pf <- get_pixel_format ;;
  (if py_eq pf (VStr "Mono8") then modify (set_current_dtype (Some uint8))
   else
     pf' <- get_pixel_format ;;
     if py_eq pf' (VStr "Mono12") then modify (set_current_dtype (Some uint16)) else ret tt) ;;;
  ExecuteSoftwareTrigger ;;;
  log (Info "Executed Software Trigger").

(** [int(self.exposure.m_as('ms')) + 100] *)
Definition retrieve_timeout : M Camera Z :=
  e <- get_exposure ;;
  match m_as e ms with
  | Ok x => ret (py_int x + 100)%Z
  | Raise err => raise err
  end.

(** Reading an attribute that is only there once something assigned it. *)
Definition attribute {A} (field : Camera -> option A) (name : string) : M Camera A :=
  fun c => match field c with
           | Some a => (Ok a, c)
           | None => (Raise (AttributeError name), c)
           end.

Section WithNumpy.

(** [a.T], [np.zeros((w, h), dtype=t)] and the slice assignment
    [buffer[:, :] = a] (the new content of [buffer]). *)
Variable transposed : Array -> Array.
Variable zeros : Z -> Z -> Dtype -> Array.
Variable fill : Array -> Array -> Array.

(** The [for i in range(num_buffers)] loop of [read_camera]. The list
    [img] holds [num_buffers] references to one array, so every
    [img[i][:, :] = ...] writes that one array, here [buffer]. *)
Fixpoint drain (n : nat) (buffer : Array) (tot_frames : nat) : M Camera (Array * nat) :=
  match n with
  | O => ret (buffer, tot_frames)
  | S n' =>
      _ <- driver ;;
      timeout <- retrieve_timeout ;;
      grab <- RetrieveResult timeout TimeoutHandling_ThrowException ;;
      match grab with
      | Delivered a =>
          sdk_call Call_Release ;;;
          drain n' (fill buffer (transposed a)) (S tot_frames)
      | _ =>
          log (Warning ": Grabbing failed") ;;;
          drain n' buffer tot_frames
      end
  end.

(** [BaslerCamera.read_camera] *)
Definition read_camera : M Camera (list Array) :=
  mode <- get_acquisition_mode ;;
  if py_eq mode (VMode MODE_SINGLE_SHOT) || py_eq mode (VMode MODE_LAST) then
    log (Info "Grabbing mode: ") ;;;
    _ <- driver ;;
    timeout <- retrieve_timeout ;;
    grab <- RetrieveResult timeout TimeoutHandling_Return ;;
    img <- match grab with
           | Delivered a =>
               modify (set_temp_image (Some (transposed a))) ;;;
               sdk_call Call_Release ;;;
               ret [transposed a]
           | _ => ret []
           end ;;
    (if py_eq mode (VMode MODE_SINGLE_SHOT) then StopGrabbing else ret tt) ;;;
    ret img
  else
    g <- IsGrabbing ;;
    (if negb g then raise (WrongCameraState "You need to trigger the camera before reading")
     else ret tt) ;;;
    d <- driver ;;
    sdk_call Call_NumReadyBuffers_Value ;;;
    let num_buffers := NumReadyBuffers (regs d) in
    img <- match num_buffers with
           | O => ret []
           | S _ =>
               w <- attribute width "width" ;;
               h <- attribute height "height" ;;
               t <- attribute current_dtype "current_dtype" ;;
               filled <- drain num_buffers (zeros w h t) 0 ;;
               ret (replicate (snd filled) (fst filled))
           end ;;
    match last img with
    | Some a => modify (set_temp_image (Some a)) ;;; ret img
    | None => ret img
    end.

End WithNumpy.

(** [BaslerCamera.start_free_run] *)
Definition start_free_run : M Camera unit :=
  fun c =>
    if free_run_running c then
      log (Info "Trying to start again the free acquisition of camera ") c
    else
      (log (Info "Starting a free run acquisition of camera ") ;;;
       modify (set_free_run_running true) ;;;
       log (Debug "First frame of a free_run") ;;;
       assign_acquisition_mode (VMode MODE_CONTINUOUS) ;;;
       trigger_camera) c.

(** [BaslerCamera.stop_free_run] *)
Definition stop_free_run : M Camera unit :=
  StopGrabbing ;;; modify (set_free_run_running false).

(** [BaslerCamera.stop_camera] *)
Definition stop_camera : M Camera unit := StopGrabbing.

(** What the setter function leaves in [_acquisition_mode] when handed
    [v], the attribute holding [old] before. *)
Definition stored_mode (v old : PyVal) : PyVal :=
  if py_eq v (VMode MODE_CONTINUOUS) then v
  else if py_eq v (VMode MODE_SINGLE_SHOT) then v
  else old.

(** The operations a user of the camera calls once it is constructed,
    and a sequence of them, each call made on the instance the call
    before left behind (also when that call raised). *)
Inductive Call : Type :=
| Assign_acquisition_mode (v : PyVal)
| Start_free_run
| Stop_free_run
| Stop_camera
| Trigger_camera.

Definition call (op : Call) : M Camera unit :=
  match op with
  | Assign_acquisition_mode v => assign_acquisition_mode v
  | Start_free_run => start_free_run
  | Stop_free_run => stop_free_run
  | Stop_camera => stop_camera
  | Trigger_camera => trigger_camera
  end.

Definition run (ops : list Call) (c : Camera) : Camera :=
  fold_left (fun c op => snd (call op c)) ops c.

(** The modes the setter can store. *)
Definition settable_mode (m : PyVal) : Prop :=
  m = VMode MODE_SINGLE_SHOT \/ m = VMode MODE_CONTINUOUS.

(** The number of software triggers among the SDK calls made. *)
Definition is_trigger (call : SdkCall) : bool :=
  match call with
  | Call_ExecuteSoftwareTrigger => true
  | _ => false
  end.

Definition triggers (calls : list SdkCall) : nat := length (filter (fun call => is_trigger call = true) calls).

(** The devices attached to a driver handle, in the order of the calls. *)
Definition attached_devices (calls : list SdkCall) : list DeviceInfo :=
  omap (fun call => match call with Call_Attach d => Some d | _ => None end) calls.

(** The devices opened, in the order of the calls. *)
Definition opened_devices (calls : list SdkCall) : list DeviceInfo :=
  omap (fun call => match call with Call_Open d => Some d | _ => None end) calls.

(** Whether a frame retrieval is among the SDK calls made. *)
Definition is_retrieval (call : SdkCall) : bool :=
  match call with
  | Call_RetrieveResult _ _ => true
  | _ => false
  end.

Definition retrievals (calls : list SdkCall) : nat :=
  length (filter (fun call => is_retrieval call = true) calls).

(** The reads of the exposure node among the SDK calls made. *)
Definition is_exposure_read (call : SdkCall) : bool :=
  match call with
  | Call_ExposureTime_ToString => true
  | _ => false
  end.

Definition exposure_reads (calls : list SdkCall) : nat :=
  length (filter (fun call => is_exposure_read call = true) calls).

(** A camera on the bench: one device, enumerated, attached and opened,
    not grabbing. *)
Definition bench_info : DeviceInfo := mkDeviceInfo "Basler acA1920 (22966281)" "acA1920-40um" "22966281".

Definition bench_registers : Registers :=
  mkRegisters (Value (QArith_base.inject_Z 10)) "Mono8" 10 0 [].

Definition bench_driver : InstantCamera :=
  mkInstantCamera bench_info bench_registers true false None true.

Definition bench_camera : Camera := set_driver (Some bench_driver) (init "acA1920" None).

(** Arrays as lists of rows, to run the model on. *)
Fixpoint cons_column (column : list Z) (rows : list (list Z)) : list (list Z) :=
  match column, rows with
  | x :: column', r :: rows' => (x :: r) :: cons_column column' rows'
  | x :: column', [] => [x] :: cons_column column' []
  | [], _ => []
  end.

Definition rows_transposed (a : Array) : Array := fold_right cons_column [] a.

Definition rows_zeros (w h : Z) (t : Dtype) : Array :=
  repeat (repeat 0%Z (Z.to_nat h)) (Z.to_nat w).

Definition rows_fill (buffer a : Array) : Array := a.

(** The bench camera with an exposure of 20 ms cached and the stored
    mode assigned directly. *)
Definition bench_camera_in (mode : Mode) : Camera :=
  set_config {["exposure" := VQuantity (QArith_base.inject_Z 20000) us]}
             (set_acquisition_mode (VMode mode) bench_camera).

(** *** Connecting *)

(** [needle in haystack] on strings. *)
Fixpoint contains (needle haystack : string) : bool :=
  String.prefix needle haystack ||
  match haystack with
  | EmptyString => false
  | String _ rest => contains needle rest
  end.

(** The test of the [for device in devices] loop of [initialize]. *)
Definition matches (identifier : string) (device : Device) : bool :=
  contains identifier (FriendlyName (info device)).

(** The body run for a device whose friendly name matches. *)
Definition attach_and_open (device : Device) : M Camera unit :=
  sdk_call (Call_CreateDevice (info device)) ;;;
  sdk_call (Call_Attach (info device)) ;;;
  sdk_call (Call_Open (info device)) ;;;
  modify (set_driver (Some (mkInstantCamera (info device) (registers device) true false None false))) ;;;
  modify (set_friendly_name (FriendlyName (info device))).

(** The [for device in devices] loop of [initialize]. *)
Fixpoint bind_devices (devices : list Device) : M Camera unit :=
  match devices with
  | [] => ret tt
  | device :: rest =>
      (fun c => (if matches (camera c) device then attach_and_open device else ret tt) c) ;;;
      bind_devices rest
  end.

Section WithConfigurationStore.

(** Modelled from the spec: the operations of the configuration store
    that [initialize] ends with (its class is not part of the sources at
    hand): [fetch_all] pulls the current device values into the store,
    [update] merges a caller-supplied mapping without touching the
    device, and [apply_all] pushes the stored values to the device. *)
Variable fetch_all : Registers -> Config -> Config.
Variable update : Config -> Config -> Config.
Variable apply_all : Config -> Registers -> Registers.

(** [BaslerCamera.initialize], on the devices [EnumerateDevices]
    returns. *)
Definition initialize (devices : list Device) : M Camera unit :=
  log (Debug "Initializing Basler Camera") ;;;
  sdk_call Call_EnumerateDevices ;;;
  (if (length devices =? 0)%nat then raise (CameraNotFound "No camera found") else ret tt) ;;;
  bind_devices devices ;;;
  (fun c => match _driver c with
            | None =>
                let msg := "Basler " +:+ camera c +:+ " not found. Please check if the camera is connected" in
                (log (Error msg) ;;; raise (CameraNotFound msg)) c
            | Some _ => (Ok tt, c)
            end) ;;;
  d <- driver ;;
  sdk_call Call_GetDeviceInfo ;;;
  log (Info ("Loaded camera " +:+ ModelName (attached d))) ;;;
  sdk_call Call_RegisterConfiguration ;;;
  put_driver (mkInstantCamera (attached d) (regs d) (is_open d) (grabbing d) (strategy d) true) ;;;
  modify (fun c => set_config (fetch_all (regs d) (config c)) c) ;;;
  fun c =>
    match initial_config c with
    | None => (Ok tt, c)
    | Some initial =>
        let stored := update initial (config c) in
        (Ok tt, set_driver (Some (mkInstantCamera (attached d) (apply_all stored (regs d)) (is_open d)
                                                  (grabbing d) (strategy d) true))
                           (set_config stored c))
    end.

End WithConfigurationStore.

(** Two cameras of one model on the bus, and a store whose operations
    leave the device alone. *)
Definition first_device : Device :=
  mkDevice (mkDeviceInfo "Basler acA1920 (22966281)" "acA1920-40um" "22966281") bench_registers.

Definition second_device : Device :=
  mkDevice (mkDeviceInfo "Basler acA1920 (22966282)" "acA1920-40um" "22966282") bench_registers.

Definition other_device : Device :=
  mkDevice (mkDeviceInfo "Basler daA1280 (40012345)" "daA1280-54um" "40012345") bench_registers.

Definition keep_store (r : Registers) (c : Config) : Config := c.
Definition merge_store (given c : Config) : Config := given ∪ c.
Definition keep_registers (c : Config) (r : Registers) : Registers := r.

(** A method that never assigns [_acquisition_mode], whether it returns
    or raises. *)
Definition keeps_mode {A} (m : M Camera A) : Prop :=
  forall c, _acquisition_mode (snd (m c)) = _acquisition_mode c.

(** The handle [initialize] leaves for a matching device. *)
Definition handle_of (device : Device) : InstantCamera :=
  mkInstantCamera (info device) (registers device) true false None false.

End Basler.

(** ** Class bodies and the registry *)

Module ClassBodies.

Import Registry.

Section WithDescriptor.

Context {Descr : Type}.

(** The mapping a registry holds once the declarations of a class body
    have been written into it, in order: a later declaration of a name
    replaces an earlier one. *)
Definition declared (body : list (string * Descr)) (m : gmap string Descr) : gmap string Descr :=
  fold_left (fun acc kd => <[kd.1 := kd.2]> acc) body m.

(** Every registry object of the heap was handed out by the allocator. *)
Definition allocated (h : Heap Descr) : Prop :=
  forall r, is_Some (registries h !! r) -> r < next_ref h.

End WithDescriptor.

(** Two unrelated descriptors to declare. *)
Definition two_declarations : list (string * nat) := [("gain", 1); ("exposure", 2)].

End ClassBodies.

(** ** Shutting the relay down ([Publisher.stop], [Listener], the
    start of [Publisher.run]) *)

Module Shutdown.

Import Relay.

Section WithSettings.

Variable PUBLISHER_EXIT_KEYWORD : string.

(** A [Listener]: the messages it has pushed towards the PULL port
    (oldest first), its counter [i], whether its socket is closed, and
    its logger. *)
Record Listener : Type := mkListener {
  pushed : list Message;
  listener_i : nat;
  closed : bool;
  listener_logger : list LogRecord
}.

(** [Listener.__init__] *)
Definition Listener_init : Listener := mkListener [] 0 false [].

(** [Listener.publish(data, topic)] *)
Definition publish (data : PyVal) (topic : string) (l : Listener) : Listener :=
  mkListener (pushed l ++ [(topic, data)]) (S (listener_i l)) (closed l) (listener_logger l).

(** The default of the [topic] parameter of [publish]. *)
Definition default_topic : string := "".

(** [Listener.finish], which [__exit__] calls. *)
Definition finish (l : Listener) : Listener :=
  mkListener (pushed l) (listener_i l) true (listener_logger l ++ [Info "Finishing listener"]).

(** [Publisher.stop]: a listener of its own publishes the keyword under
    the default topic and is closed; then the event is set. The result
    is the publisher and the listener the [with] statement leaves. *)
Definition stop (p : Publisher) : Publisher * Listener :=
  let listener := finish (publish (VStr PUBLISHER_EXIT_KEYWORD) default_topic Listener_init) in
  (mkPublisher true (i p) (sent p) (logger p), listener).

(** How the start of [Publisher.run] ends: with the sockets bound and
    the serve loop about to begin, or with the [zmq.ZMQError] of a
    [bind] call going on to the caller. Either way it carries what the
    temporary PUSH socket sent and what was logged. *)
Inductive Startup : Type :=
| Ready (temp_sent : list Message) (log : list LogRecord)
| ZMQError (temp_sent : list Message) (log : list LogRecord).

(** [Publisher.run] up to the [while] loop. The three booleans say
    whether the first [publisher.bind], the retried [publisher.bind]
    and [listener.bind] succeed. *)
Definition startup (first_bind retried_bind listener_bind : bool) : Startup :=
  let log0 := [Info "Publisher initializing"] in
  if first_bind then
    if listener_bind then Ready [] (log0 ++ [Info "Publisher ready to handle events"])
    else ZMQError [] log0
  else
    let log1 := log0 ++ [Error "Por already in use. Trying to close and reconnect"] in
    let temp := [("", VStr PUBLISHER_EXIT_KEYWORD)] in
    let log2 := log1 ++ [Info "Retrying to open the publisher"] in
    if retried_bind then
      if listener_bind then Ready temp (log2 ++ [Info "Publisher ready to handle events"])
      else ZMQError temp log2
    else ZMQError temp log2.

Definition temp_messages (s : Startup) : list Message :=
  match s with
  | Ready temp _ => temp
  | ZMQError temp _ => temp
  end.

(** The messages of a stream up to and including the first exit
    message, all of them when there is none. *)
Fixpoint upto_exit (incoming : list Message) : list Message :=
  match incoming with
  | [] => []
  | m :: rest => if is_exit_message PUBLISHER_EXIT_KEYWORD m then [m] else m :: upto_exit rest
  end.

End WithSettings.

End Shutdown.

(** ** The decorator [make_async_thread] *)

Module Decorators.

(** A [threading.Thread] as the decorator handles it: the function it
    was created for and whether [start] was called on it. *)
Record Thread : Type := mkThread {
  target : string;
  started : bool
}.

(** What the attribute [_threads] may hold: a reference to a list
    object, or something that is not a list. *)
Inductive Attr : Type :=
| AList (r : nat)
| AValue (v : PyVal).

(** The objects the wrapper touches: the list objects, the [_threads]
    entry of the namespace of the class, the [_threads] entry of the
    [__dict__] of each instance (instances are numbered), the next free
    list reference, and the logger. *)
Record Objects : Type := mkObjects {
  lists : gmap nat (list (string * Thread));
  class_threads : option Attr;
  instance_threads : gmap nat Attr;
  next_list : nat;
  logger : list LogRecord
}.

Definition log (r : LogRecord) : M Objects unit :=
  modify (fun o => mkObjects (lists o) (class_threads o) (instance_threads o) (next_list o)
                             (logger o ++ [r])).

(** [getattr(self, '_threads')]: the instance first, then its class. *)
Definition getattr_threads (self : nat) (o : Objects) : option Attr :=
  match instance_threads o !! self with
  | Some a => Some a
  | None => class_threads o
  end.

(** [self._threads = []] *)
Definition setattr_new_list (self : nat) : M Objects unit :=
  modify (fun o => mkObjects (<[next_list o := []]> (lists o)) (class_threads o)
                             (<[self := AList (next_list o)]> (instance_threads o))
                             (S (next_list o)) (logger o)).

(** [self._threads] where a list is needed. *)
Definition threads_list (self : nat) : M Objects nat :=
  fun o => match getattr_threads self o with
           | Some (AList r) =>
               match lists o !! r with
               | Some _ => (Ok r, o)
               | None => (Raise (AttributeError "_threads"), o)
               end
           | Some (AValue _) => (Raise (AttributeError "append"), o)
           | None => (Raise (AttributeError "_threads"), o)
           end.

Definition update_list (r : nat) (f : list (string * Thread) -> list (string * Thread)) : M Objects unit :=
  modify (fun o => mkObjects (alter f r (lists o)) (class_threads o) (instance_threads o)
                             (next_list o) (logger o)).

(** [l[-1][1].start()] on the list [l] *)
Definition start_last (l : list (string * Thread)) : list (string * Thread) :=
  match reverse l with
  | [] => l
  | (name, t) :: before => reverse before ++ [(name, mkThread (target t) true)]
  end.

(** The wrapper [make_async_thread(func)] returns, called with [self]
    as first argument; [func_name] is [func.__name__]. *)
Definition func_wrapper (func_name : string) (self : nat) : M Objects unit :=
  log (Info ("Starting new thread for " +:+ func_name)) ;;;
  (fun o => match getattr_threads self o with
            | None => setattr_new_list self o
            | Some (AList _) => (Ok tt, o)
            | Some (AValue _) =>
                (Raise (ValueError "The variable _threads must be a list in order to store a new Thread in it"), o)
            end) ;;;
  r <- threads_list self ;;
  update_list r (fun l => l ++ [(func_name, mkThread func_name false)]) ;;;
  r' <- threads_list self ;;
  update_list r' start_last ;;;
  log (Info "In total there are threads").

(** The decorated methods named in [names] called one after the other
    on [self]; the first exception ends the sequence. *)
Fixpoint calls (names : list string) (self : nat) : M Objects unit :=
  match names with
  | [] => ret tt
  | name :: rest => func_wrapper name self ;;; calls rest self
  end.

(** The list [self._threads] refers to. *)
Definition threads_of (self : nat) (o : Objects) : option (list (string * Thread)) :=
  match getattr_threads self o with
  | Some (AList r) => lists o !! r
  | _ => None
  end.

(** The entry the wrapper leaves for a call of [name]. *)
Definition running (name : string) : string * Thread := (name, mkThread name true).

(** Every reference held by an instance or by the class is below the
    next free one. *)
Definition allocated (o : Objects) : Prop :=
  (forall r, is_Some (lists o !! r) -> r < next_list o)
  /\ (forall i r, instance_threads o !! i = Some (AList r) -> r < next_list o)
  /\ (forall r, class_threads o = Some (AList r) -> r < next_list o).

(** No instance and no class attribute yet. *)
Definition no_threads : Objects := mkObjects ∅ None ∅ 0 [].

(** A class that defines [_threads = []]. *)
Definition class_level_list : Objects := mkObjects {[ 0 := [] ]} (Some (AList 0)) ∅ 1 [].

End Decorators.

(** ** What the acquisition methods of the camera leave behind *)

Module Acquisition.

Import Props Basler.

(** The grab strategy [trigger_camera] starts for each mode. *)
Definition strategy_for (m : Mode) : GrabStrategy :=
  match m with
  | MODE_CONTINUOUS => GrabStrategy_OneByOne
  | MODE_SINGLE_SHOT => GrabStrategy_LatestImageOnly
  | MODE_LAST => GrabStrategy_LatestImages
  end.

(** The element type [trigger_camera] leaves in [current_dtype] for a
    pixel format, given the one it found. *)
Definition dtype_for (pixel_format : string) (old : option Dtype) : option Dtype :=
  if String.eqb pixel_format "Mono8" then Some uint8
  else if String.eqb pixel_format "Mono12" then Some uint16
  else old.

(** The arrays of the successful grabs among some outcomes. *)
Definition delivered (outcomes : list GrabOutcome) : list Array :=
  omap (fun o => match o with Delivered a => Some a | _ => None end) outcomes.

(** The message of the error [initialize] raises for an identifier that
    no device matches. *)
Definition not_found_message (identifier : string) : string :=
  "Basler " +:+ identifier +:+ " not found. Please check if the camera is connected".

(** The driver handle with the grab results left after [n] retrievals. *)
Definition after_retrievals (n : nat) (d : InstantCamera) : InstantCamera :=
  with_regs (mkRegisters (ExposureTime (regs d)) (PixelFormat (regs d)) (MaxNumBuffer (regs d))
                         (NumReadyBuffers (regs d)) (drop n (results (regs d)))) d.

(** The content of the one buffer of the continuous branch of
    [read_camera] after the given frames were written into it, oldest
    first. *)
Definition written (transposed : Array -> Array) (fill : Array -> Array -> Array)
    (frames : list Array) (buffer : Array) : Array :=
  fold_left (fun b a => fill b (transposed a)) frames buffer.

(** The calls that may issue a software trigger. *)
Definition may_trigger (op : Call) : bool :=
  match op with
  | Start_free_run | Trigger_camera => true
  | _ => false
  end.

(** A camera constructed and never initialized. *)
Definition unconnected_camera : Camera := init "acA1920" None.

(** The bench camera triggered in continuous mode, with three buffers
    ready: two good frames around a failed grab. *)
Definition streaming_registers : Registers :=
  mkRegisters (Value (QArith_base.inject_Z 10)) "Mono8" 10 3
              [Delivered [[1; 2]; [3; 4]]; GrabFailed; Delivered [[5; 6]; [7; 8]]; Delivered [[9; 9]; [9; 9]]]%Z.

Definition streaming_driver : InstantCamera :=
  mkInstantCamera bench_info streaming_registers true true (Some GrabStrategy_OneByOne) true.

Definition streaming_camera : Camera :=
  mkCamera "acA1920" None {["exposure" := VQuantity (QArith_base.inject_Z 20000) us]}
           (Some streaming_driver) "" true false 0 (VMode MODE_CONTINUOUS) VNone
           (Some uint8) None (Some 2%Z) (Some 2%Z) [] [].

End Acquisition.

(** ** The gain, auto-mode and region-of-interest features of
    [BaslerCamera] *)

Module Controls.

Import Props.

(** The two nodes with an automatic mode, and the four nodes of the
    region of interest. *)
Inductive AutoNode : Type := ExposureAuto | GainAuto.
Inductive GeometryNode : Type := OffsetX | OffsetY | Width | Height.

#[global] Instance GeometryNode_eq_dec : EqDecision GeometryNode.
Proof. solve_decision. Defined.

(** The calls made into the SDK by these features, recorded oldest
    first. *)
Inductive NodeCall : Type :=
| Call_Gain_Value
| Call_Gain_SetValue (gain : PyVal)
| Call_Auto_Value (n : AutoNode)
| Call_Auto_SetValue (n : AutoNode) (mode : string)
| Call_Geometry_Value (n : GeometryNode)
| Call_Geometry_Max (n : GeometryNode)
| Call_Geometry_SetValue (n : GeometryNode) (v : Z).

Section WithDevice.

(** The camera behind the driver handle and what its nodes answer: a
    read of the gain node gives a value or times out, a write to it
    gives the device that took the value or times out; the auto-mode
    and geometry nodes are read and written without timeouts. *)
Variable Dev : Type.
Variable gain_value : Dev -> Basler.NodeRead Q.
Variable gain_set : PyVal -> Dev -> Basler.NodeRead Dev.
Variable auto_value : AutoNode -> Dev -> string.
Variable auto_set : AutoNode -> string -> Dev -> Dev.
Variable geometry_value : GeometryNode -> Dev -> Z.
Variable geometry_max : GeometryNode -> Dev -> Z.
Variable geometry_set : GeometryNode -> Z -> Dev -> Dev.

(** The attributes of the instance these features touch, with the log
    entries and the SDK calls made so far. *)
Record Panel : Type := mkPanel {
  _driver : option Dev;
  config : Config;
  logger : list LogRecord;
  sdk : list NodeCall;
  X : option (Z * Z);
  Y : option (Z * Z);
  width : option Z;
  height : option Z
}.

Definition set_config (v : Config) (p : Panel) : Panel :=
  mkPanel (_driver p) v (logger p) (sdk p) (X p) (Y p) (width p) (height p).

Definition set_driver (v : option Dev) (p : Panel) : Panel :=
  mkPanel v (config p) (logger p) (sdk p) (X p) (Y p) (width p) (height p).

Definition set_logger (v : list LogRecord) (p : Panel) : Panel :=
  mkPanel (_driver p) (config p) v (sdk p) (X p) (Y p) (width p) (height p).

Definition set_sdk (v : list NodeCall) (p : Panel) : Panel :=
  mkPanel (_driver p) (config p) (logger p) v (X p) (Y p) (width p) (height p).

Definition set_X (v : Z * Z) (p : Panel) : Panel :=
  mkPanel (_driver p) (config p) (logger p) (sdk p) (Some v) (Y p) (width p) (height p).

Definition set_Y (v : Z * Z) (p : Panel) : Panel :=
  mkPanel (_driver p) (config p) (logger p) (sdk p) (X p) (Some v) (width p) (height p).

Definition set_width (v : Z) (p : Panel) : Panel :=
  mkPanel (_driver p) (config p) (logger p) (sdk p) (X p) (Y p) (Some v) (height p).

Definition set_height (v : Z) (p : Panel) : Panel :=
  mkPanel (_driver p) (config p) (logger p) (sdk p) (X p) (Y p) (width p) (Some v).

Definition log (r : LogRecord) : M Panel unit :=
  modify (fun p => set_logger (logger p ++ [r]) p).

Definition sdk_call (call : NodeCall) : M Panel unit :=
  modify (fun p => set_sdk (sdk p ++ [call]) p).

(** [self._driver.<attribute>]: fails on [None]. *)
Definition driver : M Panel Dev :=
  fun p => match _driver p with
           | Some d => (Ok d, p)
           | None => (Raise (AttributeError "'NoneType' object has no attribute"), p)
           end.

Definition put_driver (d : Dev) : M Panel unit := modify (set_driver (Some d)).

(** [self.config[key]] *)
Definition config_get (key : string) : M Panel PyVal :=
  fun p => (config_getitem (config p) key, p).

(** *** Gain *)

(** The function under [@Feature() def gain(self)]. *)
Definition gain_fget : M Panel PyVal :=
  d <- driver ;;
  sdk_call Call_Gain_Value ;;;
  match gain_value d with
  | Basler.Value x => ret (VFloat x)
  | Basler.TimedOut =>
      log (Error "Timeout while reading the gain from the camera") ;;; config_get "gain"
  end.

(** The function under [@gain.setter]. *)
Definition gain_fset (gain : PyVal) : M Panel unit :=
  log (Info "Setting gain to ") ;;;
  d <- driver ;;
  sdk_call (Call_Gain_SetValue gain) ;;;
  match gain_set gain d with
  | Basler.Value d' => put_driver d'
  | Basler.TimedOut => log (Error "Problem setting the gain")
  end.

(** The descriptor bound to [gain], holding the given [value]. *)
Definition gain_feature (cached : PyVal) : Feature Panel :=
  with_value cached
    (Feature_setter (Feature_getter (Feature_init None None no_kwargs) gain_fget) gain_fset).

(** *** Automatic exposure and gain *)

(** [modes = ('Off', 'Once', 'Continuous')] *)
Definition modes : list string := ["Off"; "Once"; "Continuous"].

(** [mode in modes] for a string *)
Definition in_modes (mode : string) : bool := existsb (String.eqb mode) modes.

(** The function under [@Feature() def auto_exposure(self)] and
    [@Feature() def auto_gain(self)], for the node each of them reads. *)
Definition auto_fget (n : AutoNode) : M Panel PyVal :=
  d <- driver ;; sdk_call (Call_Auto_Value n) ;;; ret (VStr (auto_value n d)).

(** The function under [@auto_exposure.setter] and [@auto_gain.setter]
    (the two bodies are the same but for the node written). *)
Definition auto_fset (n : AutoNode) (mode : PyVal) : M Panel unit :=
  let mode1 := if py_is mode (VBool false) then VStr "Off" else mode in
  let mode2 := if py_is mode1 (VBool true) then VStr "Once" else mode1 in
  match mode2 with
  | VStr s =>
      if in_modes s then
        d <- driver ;; sdk_call (Call_Auto_SetValue n s) ;;; put_driver (auto_set n s d)
      else raise (ValueError "Mode must be one of ('Off', 'Once', 'Continuous') and not ")
  | _ => raise (ValueError "Mode must be one of ('Off', 'Once', 'Continuous') and not ")
  end.

(** The descriptor bound to [auto_exposure] or [auto_gain], holding the
    given [value]. *)
Definition auto_feature (n : AutoNode) (cached : PyVal) : Feature Panel :=
  with_value cached
    (Feature_setter (Feature_getter (Feature_init None None no_kwargs) (auto_fget n)) (auto_fset n)).

(** [self.auto_exposure = mode] or [self.auto_gain = mode]; the result
    carries the descriptor the assignment leaves. *)
Definition assign_auto (n : AutoNode) (cached mode : PyVal) (p : Panel) : Res unit * (Feature Panel * Panel) :=
  Feature_set config set_config mode (auto_feature n cached, p).

(** [self.gain = gain] *)
Definition assign_gain (cached gain : PyVal) (p : Panel) : Res unit * (Feature Panel * Panel) :=
  Feature_set config set_config gain (gain_feature cached, p).

(** A run of assignments to one auto-mode property, each made on what
    the one before left, also when it raised. *)
Fixpoint assign_autos (n : AutoNode) (cached : PyVal) (values : list PyVal) (p : Panel) : Panel :=
  match values with
  | [] => p
  | v :: rest =>
      match assign_auto n cached v p with
      | (_, (f, p')) => assign_autos n (value f) rest p'
      end
  end.

(** What the setter sends to the node for an argument it accepts. *)
Definition accepted (mode : PyVal) : option string :=
  match mode with
  | VBool false => Some "Off"
  | VBool true => Some "Once"
  | VStr s => if in_modes s then Some s else None
  | _ => None
  end.

(** The strings written to an auto-mode node among some calls. *)
Definition auto_writes (n : AutoNode) (calls : list NodeCall) : list string :=
  omap (fun call => match call with
                    | Call_Auto_SetValue ExposureAuto s =>
                        match n with ExposureAuto => Some s | GainAuto => None end
                    | Call_Auto_SetValue GainAuto s =>
                        match n with GainAuto => Some s | ExposureAuto => None end
                    | _ => None
                    end) calls.

(** *** Region of interest *)

(** The functions under [@Feature() def ccd_width(self)] and
    [@Feature() def ccd_height(self)], and the descriptors bound to
    them. *)
Definition ccd_fget (n : GeometryNode) : M Panel PyVal :=
  d <- driver ;; sdk_call (Call_Geometry_Max n) ;;; ret (VInt (geometry_max n d)).

Definition ccd_feature (n : GeometryNode) : Feature Panel :=
  Feature_getter (Feature_init None None no_kwargs) (ccd_fget n).

(** [self.ccd_width] and [self.ccd_height], where an integer is
    needed. *)
Definition get_ccd (n : GeometryNode) : M Panel Z :=
  v <- Feature_get config set_config (ccd_feature n) ;;
  match v with
  | VInt z => ret z
  | _ => raise (TypeError "an integer is required")
  end.

(** [self._driver.<node>.SetValue(v)], the argument already evaluated. *)
Definition SetValue (n : GeometryNode) (v : Z) : M Panel unit :=
  d <- driver ;; sdk_call (Call_Geometry_SetValue n v) ;;; put_driver (geometry_set n v d).

(** [self._driver.<node>.Value] *)
Definition Value (n : GeometryNode) : M Panel Z :=
  d <- driver ;; sdk_call (Call_Geometry_Value n) ;;; ret (geometry_value n d).

(** The function under [@Feature() def ROI(self)]. *)
Definition ROI_fget : M Panel ((Z * Z) * (Z * Z)) :=
  offset_X <- Value OffsetX ;;
  offset_Y <- Value OffsetY ;;
  w <- Value Width ;;
  h <- Value Height ;;
  let width := (w - 1)%Z in
  let height := (h - 1)%Z in
  ret ((offset_X, offset_X + width)%Z, (offset_Y, offset_Y + height)%Z).

(** The function under [@ROI.setter], for a pair of pairs of integers;
    [%] is the floor remainder, which for a positive divisor is
    [Z.modulo]. In [self._driver.Width.SetValue(self.ccd_width)] the
    handle is reached before the argument is read. *)
Definition ROI_fset (vals : (Z * Z) * (Z * Z)) : M Panel unit :=
  let X := fst vals in
  let Y := snd vals in
  let width := (snd X - snd X mod 4)%Z in
  let x_pos := (fst X - fst X mod 4)%Z in
  let height := (snd Y - snd Y mod 2)%Z in
  let y_pos := (fst Y - fst Y mod 2)%Z in
  log (Info "Updating ROI: (x, y, width, height) = ") ;;;
  SetValue OffsetX 0 ;;;
  SetValue OffsetY 0 ;;;
  _ <- driver ;;
  ccd_width <- get_ccd Width ;;
  SetValue Width ccd_width ;;;
  _ <- driver ;;
  ccd_height <- get_ccd Height ;;
  SetValue Height ccd_height ;;;
  log (Debug "Setting width to ") ;;;
  SetValue Width width ;;;
  log (Debug "Setting Height to ") ;;;
  SetValue Height height ;;;
  log (Debug "Setting X offset to ") ;;;
  SetValue OffsetX x_pos ;;;
  log (Debug "Setting Y offset to ") ;;;
  SetValue OffsetY y_pos ;;;
  modify (set_X (x_pos, x_pos + width)%Z) ;;;
  modify (set_Y (y_pos, y_pos + height)%Z) ;;;
  w <- Value Width ;;
  modify (set_width w) ;;;
  h <- Value Height ;;
  modify (set_height h).

(** A coordinate brought down to a multiple of [step], as the setter
    does with [v - v % step]. *)
Definition aligned (step v : Z) : Z := (v - v mod step)%Z.

(** The geometry values written among some calls, oldest first. *)
Definition geometry_writes (calls : list NodeCall) : list (GeometryNode * Z) :=
  omap (fun call => match call with
                    | Call_Geometry_SetValue n v => Some (n, v)
                    | _ => None
                    end) calls.

End WithDevice.

Arguments mkPanel {Dev} _ _ _ _ _ _ _ _.
Arguments _driver {Dev} _.
Arguments config {Dev} _.
Arguments logger {Dev} _.
Arguments sdk {Dev} _.
Arguments X {Dev} _.
Arguments Y {Dev} _.
Arguments width {Dev} _.
Arguments height {Dev} _.
Arguments set_config {Dev} _ _.
Arguments set_driver {Dev} _ _.
Arguments set_logger {Dev} _ _.
Arguments set_sdk {Dev} _ _.
Arguments set_X {Dev} _ _.
Arguments set_Y {Dev} _ _.
Arguments set_width {Dev} _ _.
Arguments set_height {Dev} _ _.
Arguments log {Dev} _ _.
Arguments sdk_call {Dev} _ _.
Arguments driver {Dev} _.
Arguments put_driver {Dev} _ _.
Arguments config_get {Dev} _ _.
Arguments gain_fget {Dev} _ _.
Arguments gain_fset {Dev} _ _ _.
Arguments gain_feature {Dev} _ _ _.
Arguments auto_fget {Dev} _ _ _.
Arguments auto_fset {Dev} _ _ _ _.
Arguments auto_feature {Dev} _ _ _ _.
Arguments assign_auto {Dev} _ _ _ _ _ _.
Arguments assign_gain {Dev} _ _ _ _ _.
Arguments assign_autos {Dev} _ _ _ _ _ _.
Arguments ccd_fget {Dev} _ _ _.
Arguments ccd_feature {Dev} _ _.
Arguments get_ccd {Dev} _ _ _.
Arguments SetValue {Dev} _ _ _ _.
Arguments Value {Dev} _ _ _.
Arguments ROI_fget {Dev} _ _.
Arguments ROI_fset {Dev} _ _ _ _.

(** A device whose nodes are plain registers: a write is kept, a read
    returns what was written last; the gain node can be made to time
    out. *)
Record Sensor : Type := mkSensor {
  gain_register : Q;
  gain_times_out : bool;
  exposure_auto : string;
  gain_auto : string;
  geometry : GeometryNode -> Z;
  sensor_size : GeometryNode -> Z
}.

Definition sensor_gain_value (s : Sensor) : Basler.NodeRead Q :=
  if gain_times_out s then Basler.TimedOut else Basler.Value (gain_register s).

Definition sensor_gain_set (v : PyVal) (s : Sensor) : Basler.NodeRead Sensor :=
  if gain_times_out s then Basler.TimedOut
  else match v with
       | VFloat x =>
           Basler.Value (mkSensor x (gain_times_out s) (exposure_auto s) (gain_auto s)
                                  (geometry s) (sensor_size s))
       | _ => Basler.Value s
       end.

Definition sensor_auto_value (n : AutoNode) (s : Sensor) : string :=
  match n with ExposureAuto => exposure_auto s | GainAuto => gain_auto s end.

Definition sensor_auto_set (n : AutoNode) (mode : string) (s : Sensor) : Sensor :=
  match n with
  | ExposureAuto =>
      mkSensor (gain_register s) (gain_times_out s) mode (gain_auto s) (geometry s) (sensor_size s)
  | GainAuto =>
      mkSensor (gain_register s) (gain_times_out s) (exposure_auto s) mode (geometry s) (sensor_size s)
  end.

Definition sensor_geometry_value (n : GeometryNode) (s : Sensor) : Z := geometry s n.

Definition sensor_geometry_max (n : GeometryNode) (s : Sensor) : Z := sensor_size s n.

Definition sensor_geometry_set (n : GeometryNode) (v : Z) (s : Sensor) : Sensor :=
  mkSensor (gain_register s) (gain_times_out s) (exposure_auto s) (gain_auto s)
           (fun k => if decide (k = n) then v else geometry s k) (sensor_size s).

(** A sensor of 1920 by 1200 pixels showing its full area. *)
Definition full_frame (n : GeometryNode) : Z :=
  match n with
  | OffsetX | OffsetY => 0
  | Width => 1920
  | Height => 1200
  end.

Definition bench_sensor : Sensor :=
  mkSensor (QArith_base.inject_Z 1) false "Off" "Off" full_frame full_frame.

Definition bench_panel : Panel Sensor :=
  mkPanel (Some bench_sensor) ∅ [] [] None None None None.

End Controls.


(** * Properties *)

(** ** Registry inheritance *)

Module RegistryFacts.

Import Registry.

Section Facts.

Context {Descr : Type}.
Implicit Types (h : Heap Descr) (d : Descr) (reg : PropertyRegistry Descr).

(** A declaration that finds a registry already tagged mutates that very
    object, whichever class holds it. *)
Lemma set_name_in_place d owner name h r reg :
  getattr_model_props h owner = Some r ->
  registries h !! r = Some reg ->
  model_name reg = Some object_qualname ->
  set_name d owner name h =
    (Ok tt, mkHeap (<[r := mkRegistry (model_name reg) (<[name := d]> (items reg))]> (registries h))
                   (classes h) (next_ref h)).
Proof.
  intros Hg Hr Ht. unfold set_name. rewrite Hg, Hr.
  rewrite bool_decide_false by (intros Hne; apply Hne, Ht).
  unfold setitem_model_props. now rewrite Hg, Hr.
Qed.

(** A declaration that finds a registry without the tag copies it, tags
    the copy and stores the copy on the owner. *)
Lemma set_name_copies d owner name h r reg ancestors own :
  classes h !! owner = Some (mkClass (owner :: ancestors) own) ->
  getattr_model_props h owner = Some r ->
  registries h !! r = Some reg ->
  model_name reg <> Some object_qualname ->
  set_name d owner name h =
    (Ok tt, mkHeap (<[next_ref h := mkRegistry (Some object_qualname) (<[name := d]> (items reg))]> (registries h))
                   (<[owner := mkClass (owner :: ancestors) (Some (next_ref h))]> (classes h))
                   (S (next_ref h))).
Proof.
  intros Hc Hg Hr Ht. unfold set_name. rewrite Hg, Hr.
  rewrite bool_decide_true by exact Ht.
  cbv zeta. unfold setattr_model_props. cbn [classes registries next_ref]. rewrite Hc.
  unfold setitem_model_props, getattr_model_props. cbn [classes registries next_ref mro].
  rewrite lookup_insert_eq. cbn [first_own classes mro]. rewrite lookup_insert_eq.
  rewrite lookup_insert_eq. cbn [model_name items].
  now rewrite insert_insert_eq.
Qed.

(** The attribute lookup only reads the class objects. *)
Lemma first_own_classes h h' order :
  classes h' = classes h -> first_own Descr h' order = first_own Descr h order.
Proof.
  intros E. induction order as [|c rest IH]; [reflexivity|].
  cbn [first_own]. now rewrite E, IH.
Qed.

Lemma getattr_model_props_classes h h' c :
  classes h' = classes h -> getattr_model_props h' c = getattr_model_props h c.
Proof.
  intros E. unfold getattr_model_props. rewrite E.
  destruct (classes h !! c); [now apply first_own_classes|reflexivity].
Qed.

(** Once a class holds a tagged registry, a subclass that declares a
    property writes it into the registry of that class: the parent sees
    the declaration of the child. *)
Lemma subclass_declaration_reaches_parent d parent child name h r reg :
  getattr_model_props h parent = Some r ->
  getattr_model_props h child = Some r ->
  registries h !! r = Some reg ->
  model_name reg = Some object_qualname ->
  exists h', set_name d child name h = (Ok tt, h')
             /\ getattr_model_props h' parent = Some r
             /\ model_props_of h' parent = Some (<[name := d]> (items reg)).
Proof.
  intros Hp Hc Hr Ht. eexists. split; [apply (set_name_in_place _ _ _ _ _ _ Hc Hr Ht)|].
  unfold model_props_of. rewrite (getattr_model_props_classes h) by reflexivity.
  rewrite Hp. split; [reflexivity|]. cbn. now rewrite lookup_insert_eq.
Qed.

End Facts.

(** C1 (the code departs from it). Base class [A] declares [a]; the
    subclasses [B] and [C] of [A], defined one after the other, declare
    [b] and [c]. Whatever tag the registry inherited by [A] carries,
    the three classes end up with one and the same registry object,
    which holds [a], [b] and [c]: the registry of [B] contains the
    property of [C], and the declarations of [B] and [C] have been
    written into the registry of [A]. *)
Theorem subclasses_share_one_registry (Descr : Type) (da db dc : Descr) (tag : option string) :
  exists h,
    three_classes da db dc (root_heap "Model" tag ∅) = (Ok tt, h)
    /\ getattr_model_props h "B" = getattr_model_props h "A"
    /\ getattr_model_props h "C" = getattr_model_props h "A"
    /\ model_props_of h "A" = Some (<["c" := dc]> (<["b" := db]> {["a" := da]}))
    /\ model_props_of h "B" = Some (<["c" := dc]> (<["b" := db]> {["a" := da]}))
    /\ model_props_of h "C" = Some (<["c" := dc]> (<["b" := db]> {["a" := da]})).
Proof.
  destruct (decide (tag = Some object_qualname)) as [->|Hne].
  - eexists. split; [vm_compute; reflexivity|]. repeat split; vm_compute; reflexivity.
  - assert (E : define_class "A" "Model" [("a", da)] (root_heap "Model" tag ∅)
       = (Ok tt, mkHeap {[ 0%nat := mkRegistry tag ∅; 1%nat := mkRegistry (Some object_qualname) {["a" := da]} ]}
                        {[ "Model" := mkClass ["Model"] (Some 0%nat); "A" := mkClass ["A"; "Model"] (Some 1%nat) ]} 2)).
    { unfold define_class, root_heap. cbn [classes registries next_ref]. rewrite lookup_singleton_eq.
      cbn [bind_all mro]. unfold bind.
      erewrite set_name_copies; [ | vm_compute; reflexivity | vm_compute; reflexivity | vm_compute; reflexivity | exact Hne ].
      vm_compute. reflexivity. }
    unfold three_classes. unfold bind at 1. rewrite E.
    eexists. split; [vm_compute; reflexivity|]. repeat split; vm_compute; reflexivity.
Qed.

End RegistryFacts.

(** ** Collecting the properties of a model *)

Module ModelsFacts.

Import Models.

(** No attribute name is a [ModelProp]. *)
Lemma name_is_no_ModelProp (item : string) : isinstance_ModelProp (OStr item) = false.
Proof. reflexivity. Qed.

Lemma collect_loop_skips (items : list string) (self : Model) :
  collect_loop items self = (Ok tt, self).
Proof.
  induction items as [|item rest IH]; [reflexivity|].
  cbn [collect_loop]. rewrite name_is_no_ModelProp. unfold bind, ret at 1. exact IH.
Qed.

(** C4 (the code departs from it). [_collect_properties] tests the
    attribute names, which are strings, so it stores nothing: it returns
    normally and leaves every instance as it found it; on an instance
    with a [ModelProp]-bound attribute [_properties] is still empty
    afterwards. *)
Theorem collect_properties_stores_nothing :
  (forall self : Model, _collect_properties self = (Ok tt, self))
  /\ Models._properties (snd (_collect_properties one_property_model)) = [].
Proof.
  split; [intros self; apply collect_loop_skips|reflexivity].
Qed.

End ModelsFacts.

(** ** Reads and writes through the descriptors *)

Module PropsFacts.

Import Props.

(** The identity test holds of the very same value only. *)
Lemma py_is_true (a b : PyVal) : py_is a b = true <-> a = b.
Proof. unfold py_is. apply bool_decide_eq_true. Qed.

Lemma py_is_false (a b : PyVal) : py_is a b = false <-> a <> b.
Proof. unfold py_is. apply bool_decide_eq_false. Qed.

Lemma Qeq_bool_same (x : Q) : QArith_base.Qeq_bool x x = true.
Proof. apply QArith_base.Qeq_bool_iff. apply QArith_base.Qeq_refl. Qed.

Lemma Qeq_bool_swap (x y : Q) : QArith_base.Qeq_bool x y = QArith_base.Qeq_bool y x.
Proof.
  destruct (QArith_base.Qeq_bool x y) eqn:E, (QArith_base.Qeq_bool y x) eqn:E'; try reflexivity.
  - apply QArith_base.Qeq_bool_iff, QArith_base.Qeq_sym, QArith_base.Qeq_bool_iff in E. congruence.
  - apply QArith_base.Qeq_bool_iff, QArith_base.Qeq_sym, QArith_base.Qeq_bool_iff in E'. congruence.
Qed.

(** Equality is reflexive and symmetric on these values. *)
Lemma py_eq_same (a : PyVal) : py_eq a a = true.
Proof.
  destruct a; cbn; try apply Qeq_bool_same; try reflexivity.
  - apply String.eqb_refl.
  - now apply bool_decide_eq_true.
Qed.

Lemma py_eq_sym (a b : PyVal) : py_eq a b = py_eq b a.
Proof.
  destruct a, b; cbn; try reflexivity; try apply Qeq_bool_swap.
  - apply String.eqb_sym.
  - destruct (decide (m = m0)) as [->|Hn]; [reflexivity|].
    rewrite !bool_decide_false by congruence. reflexivity.
Qed.

(** Numbers are compared by value across [bool], [int] and [float],
    also when a float is given by an unreduced fraction; the identity
    test tells them apart. *)
Lemma py_eq_across_numbers (n : Z) :
  py_eq (VInt n) (VFloat (QArith_base.inject_Z n)) = true
  /\ py_eq (VInt 0) (VBool false) = true
  /\ py_eq (VBool true) (VInt 1) = true
  /\ py_eq (VFloat (QArith_base.Qmake 1 2)) (VFloat (QArith_base.Qmake 2 4)) = true
  /\ py_eq (VInt 0) (VInt 1) = false
  /\ py_is (VInt 0) (VBool false) = false.
Proof.
  split; [apply Qeq_bool_same|]. repeat split.
Qed.

(** A value equals a mode constant, a string or [None] only when it
    is that very value. *)
Lemma py_eq_mode_true (a : PyVal) (m : Mode) : py_eq a (VMode m) = true <-> a = VMode m.
Proof.
  destruct a; cbn; try (split; [discriminate|discriminate]).
  rewrite bool_decide_eq_true. split; congruence.
Qed.

Lemma py_eq_mode_false (a : PyVal) (m : Mode) : py_eq a (VMode m) = false <-> a <> VMode m.
Proof.
  rewrite <- py_eq_mode_true. destruct (py_eq a (VMode m)); split; congruence.
Qed.

Lemma py_eq_str_true (a : PyVal) (s : string) : py_eq a (VStr s) = true <-> a = VStr s.
Proof.
  destruct a; cbn; try (split; [discriminate|discriminate]).
  rewrite String.eqb_eq. split; congruence.
Qed.

Lemma py_eq_none_true (a : PyVal) : py_eq a VNone = true <-> a = VNone.
Proof. destruct a; cbn; split; congruence. Qed.

(** A forced upgrade with one pair is an insertion. *)
Lemma upgrade_force_one (key : string) (val : PyVal) (c : gmap string PyVal) :
  upgrade [(key, val)] true c = <[key := val]> c.
Proof. unfold upgrade. cbn. now destruct (c !! key). Qed.

Section Mirroring.

Context {Inst : Type} (config : Inst -> gmap string PyVal) (set_config : gmap string PyVal -> Inst -> Inst).
Hypothesis config_set_config : forall c i, config (set_config c i) = c.

Lemma mirror_spec (key : string) (val : PyVal) (i : Inst) :
  mirror config set_config key val i = (Ok tt, set_config (<[key := val]> (config i)) i).
Proof. unfold mirror, modify. now rewrite upgrade_force_one. Qed.

Lemma mirror_lookup (key : string) (val : PyVal) (i : Inst) :
  config (snd (mirror config set_config key val i)) !! key = Some val.
Proof. rewrite mirror_spec. cbn. rewrite config_set_config. apply lookup_insert_eq. Qed.

(** After a successful write through a [ModelProp] the store holds the
    written value under the [name] attribute of the descriptor. *)
Lemma ModelProp_set_mirrors (p : ModelProp Inst) (v : PyVal) (i i' : Inst) :
  ModelProp_set config set_config p v i = (Ok tt, i') ->
  config i' !! mp_name p = Some v.
Proof.
  unfold ModelProp_set. destruct (mp_fset p) as [s|]; [|discriminate].
  unfold bind. destruct (s v i) as [[[]|e] i1]; [|discriminate].
  intros E. replace i' with (snd (mirror config set_config (mp_name p) v i1)) by now rewrite E.
  apply mirror_lookup.
Qed.

(** After a successful write through a [Feature] the store holds, under
    the [name] attribute of the descriptor, the value the setter path
    recorded: the getter's answer when a cached setting is written its
    sentinel, the written value otherwise; the descriptor caches the
    same value. *)
Lemma Feature_set_mirrors (f f' : Feature Inst) (v : PyVal) (i i' : Inst) :
  Feature_set config set_config v (f, i) = (Ok tt, (f', i')) ->
  exists v', config i' !! name f = Some v' /\ value f' = v' /\
    if is_setting f && py_eq (force_update f) v
    then exists g, fget f = Some g /\ fst (g i) = Ok v'
    else v' = v.
Proof.
  unfold Feature_set. destruct (fset f) as [s|]; [|discriminate].
  destruct (is_setting f && py_eq (force_update f) v).
  - destruct (fget f) as [g|]; [|discriminate].
    destruct (g i) as [[v'|e] i1] eqn:Eg; [|discriminate].
    intros E. injection E as <- <-. exists v'. split; [apply mirror_lookup|].
    split; [reflexivity|]. exists g. now rewrite Eg.
  - destruct (s v i) as [[[]|e] i1]; [|discriminate].
    intros E. injection E as <- <-. exists v. split; [apply mirror_lookup|]. now split.
Qed.

(** A cached setting whose cached value is not the sentinel is read
    without the getter: the instance is left as it was. *)
Lemma Feature_get_cached (f : Feature Inst) (g : M Inst PyVal) (i : Inst) :
  fget f = Some g -> is_setting f = true -> py_ne (value f) (force_update f) = true ->
  Feature_get config set_config f i = (Ok (value f), i).
Proof.
  intros Hg Hs Hv. unfold Feature_get. rewrite Hg, Hs.
  now rewrite Hv.
Qed.

(** Any other read goes through the getter and mirrors its answer. *)
Lemma Feature_get_through (f : Feature Inst) (g : M Inst PyVal) (i : Inst) :
  fget f = Some g -> is_setting f && py_ne (value f) (force_update f) = false ->
  Feature_get config set_config f i =
    (val <- g ;; mirror config set_config (name f) val ;;; ret val) i.
Proof. intros Hg Hc. unfold Feature_get. now rewrite Hg, Hc. Qed.

End Mirroring.

(** C2 (the code departs from it). A [ModelProp] and a [Feature] bound
    under the attribute [gain]: binding stores the descriptor in the
    registry and leaves its [name] at the class default, the empty
    string. A successful write of [v] is then mirrored under the empty
    key, and the store has no entry [gain]; likewise the re-read value
    of a cached setting written its sentinel. *)
Theorem write_mirrors_under_empty_name (v : PyVal) :
  (exists h, Registry.define_class "Camera" "Model" [("gain", gain_prop)]
               (Registry.root_heap "Model" None ∅) = (Ok tt, h)
             /\ Registry.model_props_of h "Camera" = Some {["gain" := gain_prop]})
  /\ mp_name gain_prop = ""
  /\ name gain_feature = ""
  /\ (exists i', ModelProp_set probe_config probe_set_config gain_prop v fresh_probe = (Ok tt, i')
                /\ probe_config i' = {["" := v]}
                /\ probe_config i' !! "gain" = None)
  /\ (exists f' i', Feature_set probe_config probe_set_config v (gain_feature, fresh_probe) = (Ok tt, (f', i'))
                /\ probe_config i' = {["" := v]}
                /\ probe_config i' !! "gain" = None)
  /\ (exists f' i', Feature_set probe_config probe_set_config (VInt 0) (exposure_setting, fresh_probe)
                    = (Ok tt, (f', i'))
                /\ probe_config i' = {["" := VInt 7]}
                /\ probe_config i' !! "exposure" = None).
Proof.
  split; [eexists; split; vm_compute; reflexivity|].
  split; [reflexivity|]. split; [reflexivity|].
  split; [|split].
  - exists (mkProbe {["" := v]} v 0). split.
    + cbn -[mirror]. rewrite mirror_spec. cbn. now rewrite insert_empty.
    + split; [reflexivity|]. now apply lookup_singleton_ne.
  - exists (with_value v gain_feature), (mkProbe {["" := v]} v 0). split.
    + cbn -[mirror]. rewrite mirror_spec. cbn. now rewrite insert_empty.
    + split; [reflexivity|]. now apply lookup_singleton_ne.
  - eexists _, _. split; [vm_compute; reflexivity|]. split; vm_compute; reflexivity.
Qed.

(** After a successful write the store holds the value the setter path
    recorded, under the [name] attribute of the descriptor: the written
    value for a [ModelProp] and for a [Feature] outside the sentinel
    branch, the getter's answer for a cached [Feature] written a value
    that compares equal to its sentinel ([False] or [0.0] against the
    sentinel [0], for instance); a [Feature] caches the same value on
    the descriptor. *)
Theorem write_records_value_under_name (Inst : Type) (config : Inst -> gmap string PyVal)
    (set_config : gmap string PyVal -> Inst -> Inst)
    (p : ModelProp Inst) (f f' : Feature Inst) (v : PyVal) (i i' : Inst) :
  (forall c j, config (set_config c j) = c) ->
  (ModelProp_set config set_config p v i = (Ok tt, i') -> config i' !! mp_name p = Some v)
  /\ (Feature_set config set_config v (f, i) = (Ok tt, (f', i')) ->
      exists v', config i' !! name f = Some v' /\ value f' = v' /\
        if is_setting f && py_eq (force_update f) v
        then exists g, fget f = Some g /\ fst (g i) = Ok v'
        else v' = v).
Proof.
  intros Hcs. split.
  - now apply ModelProp_set_mirrors.
  - now apply Feature_set_mirrors.
Qed.

Lemma write_records_value_under_name_witness :
  probe_config (mkProbe {["" := VInt 5]} (VInt 5) 0) !! mp_name gain_prop = Some (VInt 5)
  /\ exists v', probe_config (mkProbe {["" := VInt 7]} (VInt 7) 1) !! name exposure_setting = Some v'
       /\ value (with_value (VInt 7) exposure_setting) = v'
       /\ if is_setting exposure_setting && py_eq (force_update exposure_setting) (VBool false)
          then exists g, fget exposure_setting = Some g /\ fst (g fresh_probe) = Ok v'
          else v' = VBool false.
Proof.
  split.
  - refine (proj1 (write_records_value_under_name Probe probe_config probe_set_config gain_prop
                     gain_feature gain_feature (VInt 5) fresh_probe _ (fun c j => eq_refl)) _).
    vm_compute. reflexivity.
  - refine (proj2 (write_records_value_under_name Probe probe_config probe_set_config gain_prop
                     exposure_setting _ (VBool false) fresh_probe _ (fun c j => eq_refl)) _).
    vm_compute. reflexivity.
Defined.

(** C3 (the code departs from it). A [Feature] built with
    [setting=True] and the default sentinel, whose getter counts its
    invocations: whatever the instance holds and whether or not a setter
    is registered, two reads in a row with no write in between both go
    to the device. Each read runs the getter, so the counter advances by
    two, and neither read stores anything on the descriptor: [__get__]
    returns the cached value only when it differs from the sentinel,
    both are [None] on a descriptor that was never written, and
    [__get__] never assigns [self.value]. *)
Theorem unwritten_setting_reads_device_twice
    (fs : option (PyVal -> M Probe unit)) (p : Probe) :
  is_setting (Feature_init (Some counting_getter) fs (mkKwargs (Some true) None)) = true
  /\ fst (read_twice probe_config probe_set_config
            (Feature_init (Some counting_getter) fs (mkKwargs (Some true) None)) p)
     = Ok (device_value p, device_value p)
  /\ getter_calls (snd (read_twice probe_config probe_set_config
                          (Feature_init (Some counting_getter) fs (mkKwargs (Some true) None)) p))
     = S (S (getter_calls p))
  /\ Feature_get probe_config probe_set_config
       (Feature_init (Some counting_getter) fs (mkKwargs (Some true) None)) p
     = (Ok (device_value p),
        mkProbe (<["" := device_value p]> (probe_config p)) (device_value p) (S (getter_calls p))).
Proof.
  assert (E : forall q, Feature_get probe_config probe_set_config
                          (Feature_init (Some counting_getter) fs (mkKwargs (Some true) None)) q
                        = (Ok (device_value q),
                           mkProbe (<["" := device_value q]> (probe_config q)) (device_value q)
                                   (S (getter_calls q)))).
  { intros q. unfold Feature_get. cbn -[mirror counting_getter].
    unfold bind, counting_getter. now rewrite mirror_spec. }
  split; [reflexivity|].
  unfold read_twice, bind. rewrite !E. cbn. auto.
Qed.

End PropsFacts.

(** ** The relay's serve loop *)

Module RelayFacts.

Import Relay.

Section Facts.

Variable keyword : string.

(** Every message received is sent on unchanged, once. *)
Lemma serve_one_sent (m : Message) (p : Publisher) :
  sent (serve_one keyword m p) = sent p ++ [m].
Proof.
  destruct m as [topic data]. unfold serve_one.
  destruct (is_broadcast topic); [destruct (is_exit_keyword keyword data)|]; reflexivity.
Qed.

(** The stop event is set by the exit message and by nothing else. *)
Lemma serve_one_event (m : Message) (p : Publisher) :
  event (serve_one keyword m p) = event p || is_exit_message keyword m.
Proof.
  destruct m as [topic data]. unfold serve_one, is_exit_message. cbn [fst snd].
  destruct (is_broadcast topic); [destruct (is_exit_keyword keyword data)|]; cbn;
    now rewrite ?orb_true_r, ?orb_false_r.
Qed.

Lemma serve_one_counter (m : Message) (p : Publisher) :
  i (serve_one keyword m p) = S (i p).
Proof.
  destruct m as [topic data]. unfold serve_one.
  destruct (is_broadcast topic); [destruct (is_exit_keyword keyword data)|]; reflexivity.
Qed.

Lemma exit_message_is_exit : is_exit_message keyword (exit_message keyword) = true.
Proof.
  unfold is_exit_message, exit_message, is_broadcast, is_exit_keyword. cbn.
  now rewrite String.eqb_refl.
Qed.

(** The exit message is the one pair with the empty topic and the
    keyword string as payload. *)
Lemma is_exit_message_iff (m : Message) :
  is_exit_message keyword m = true <-> m = exit_message keyword.
Proof.
  split; [|intros ->; apply exit_message_is_exit].
  destruct m as [topic data]. unfold is_exit_message, is_broadcast, is_exit_keyword, exit_message.
  cbn [fst snd]. intros H. apply andb_true_iff in H as [Ht Hd].
  apply String.eqb_eq in Ht. destruct data; try discriminate.
  apply String.eqb_eq in Hd. now subst.
Qed.

(** Once the event is set the loop receives nothing more. *)
Lemma serve_stopped (incoming : list Message) (p : Publisher) :
  event p = true -> serve keyword incoming p = (p, incoming).
Proof. intros H. destruct incoming; cbn; [reflexivity|now rewrite H]. Qed.

Lemma serve_until_exit (before after : list Message) (p : Publisher) :
  event p = false ->
  Forall (fun m => is_exit_message keyword m = false) before ->
  exists p',
    serve keyword (before ++ exit_message keyword :: after) p = (p', after)
    /\ event p' = true
    /\ sent p' = sent p ++ before ++ [exit_message keyword]
    /\ i p' = (i p + length before + 1)%nat.
Proof.
  intros Hev Hb. revert p Hev. induction Hb as [|m rest Hm Hrest IH]; intros p Hev.
  - cbn [app serve]. rewrite Hev.
    exists (serve_one keyword (exit_message keyword) p).
    split; [apply serve_stopped; rewrite serve_one_event, exit_message_is_exit; apply orb_true_r|].
    split; [rewrite serve_one_event, exit_message_is_exit; apply orb_true_r|].
    split; [apply serve_one_sent|]. rewrite serve_one_counter. cbn. lia.
  - cbn [app serve]. rewrite Hev.
    destruct (IH (serve_one keyword m p)) as (p' & Hs & He & Hsent & Hi).
    { now rewrite serve_one_event, Hev, Hm. }
    exists p'. split; [exact Hs|]. split; [exact He|].
    split; [rewrite Hsent, serve_one_sent, <- app_assoc; reflexivity|].
    rewrite Hi, serve_one_counter. cbn. lia.
Qed.

End Facts.

(** C8. While the stop event is clear, a message that is not the exit
    message is sent on unchanged and the loop goes on with the next
    one; the exit message (empty topic, payload equal to the keyword
    string) is sent on once, the stop event is set, and the loop ends
    with every later message left unreceived. *)
Theorem exit_message_ends_serve_loop (keyword : string) (before after : list Message) (p : Publisher) :
  event p = false ->
  Forall (fun m => is_exit_message keyword m = false) before ->
  (forall m rest, is_exit_message keyword m = false ->
     serve keyword (m :: rest) p = serve keyword rest (serve_one keyword m p)
     /\ sent (serve_one keyword m p) = sent p ++ [m]
     /\ event (serve_one keyword m p) = false)
  /\ exists p',
       serve keyword (before ++ exit_message keyword :: after) p = (p', after)
       /\ event p' = true
       /\ sent p' = sent p ++ before ++ [exit_message keyword].
Proof.
  intros Hev Hb. split.
  - intros m rest Hm. cbn [serve]. rewrite Hev. split; [reflexivity|].
    split; [apply serve_one_sent|]. now rewrite serve_one_event, Hev, Hm.
  - destruct (serve_until_exit keyword before after p Hev Hb) as (p' & Hs & He & Hsent & _).
    exists p'. auto.
Qed.

Lemma exit_message_ends_serve_loop_witness :
  exists p',
    serve "exit" ([("frame", VInt 1); ("", VStr "hello")] ++ exit_message "exit" :: [("frame", VInt 2)])
          idle_publisher = (p', [("frame", VInt 2)])
    /\ event p' = true
    /\ sent p' = sent idle_publisher ++ [("frame", VInt 1); ("", VStr "hello")] ++ [exit_message "exit"].
Proof.
  refine (proj2 (exit_message_ends_serve_loop "exit" [("frame", VInt 1); ("", VStr "hello")]
                   [("frame", VInt 2)] idle_publisher eq_refl _)).
  repeat constructor.
Defined.

End RelayFacts.

(** ** The camera *)

Module BaslerFacts.

Import Props Basler PropsFacts.

(** *** Running the monad *)

Lemma bind_ok {S A B} (m : M S A) (k : A -> M S B) (s s' : S) (a : A) :
  m s = (Ok a, s') -> bind m k s = k a s'.
Proof. intros E. unfold bind. now rewrite E. Qed.

Lemma bind_raise {S A B} (m : M S A) (k : A -> M S B) (s s' : S) (e : Exn) :
  m s = (Raise e, s') -> bind m k s = (Raise e, s').
Proof. intros E. unfold bind. now rewrite E. Qed.

(** Unfolding the field updates and projections, so that an instance
    is always displayed as one record. *)
Ltac flat :=
  cbv beta iota zeta delta
      [set_config set_driver set_friendly_name set_free_run_running set_acquisition_mode
       set_acquisition_mode_value set_current_dtype set_temp_image set_logger set_sdk
       with_grabbing with_regs];
  cbn [camera initial_config config _driver friendly_name free_run_running keep_reading fps
       _acquisition_mode acquisition_mode_value current_dtype temp_image width height logger sdk
       attached regs is_open grabbing strategy software_trigger info registers].
Ltac flat_all :=
  cbv beta iota zeta delta
      [set_config set_driver set_friendly_name set_free_run_running set_acquisition_mode
       set_acquisition_mode_value set_current_dtype set_temp_image set_logger set_sdk
       with_grabbing with_regs] in *;
  cbn [camera initial_config config _driver friendly_name free_run_running keep_reading fps
       _acquisition_mode acquisition_mode_value current_dtype temp_image width height logger sdk
       attached regs is_open grabbing strategy software_trigger info registers] in *.

(** One statement of a method body, run by computation. *)
Ltac go := erewrite bind_ok by reflexivity; flat.
(** One statement whose outcome a lemma gives. *)
Ltac go_by lem := erewrite bind_ok by (eapply lem; reflexivity); flat.

Lemma py_eq_refl (a : PyVal) : py_eq a a = true.
Proof. apply py_eq_same. Qed.

(** *** Reading features *)

(** A read of [acquisition_mode] returns the stored mode and mirrors it
    into the store under the descriptor's name. *)
Lemma get_acquisition_mode_run (c : Camera) :
  get_acquisition_mode c =
    (Ok (_acquisition_mode c), set_config (<["" := _acquisition_mode c]> (config c)) c).
Proof.
  unfold get_acquisition_mode, Feature_get. cbn -[mirror].
  unfold bind, acquisition_mode_fget, gets. now rewrite mirror_spec.
Qed.

Lemma get_pixel_format_run (c : Camera) (d : InstantCamera) :
  _driver c = Some d ->
  get_pixel_format c =
    (Ok (VStr (PixelFormat (regs d))),
     set_config (<["" := VStr (PixelFormat (regs d))]> (config c))
                (set_sdk (sdk c ++ [Call_PixelFormat_GetValue]) c)).
Proof.
  intros H. destruct c. flat_all. subst.
  unfold get_pixel_format, Feature_get. cbn -[mirror pixel_format_fget].
  erewrite bind_ok by (unfold pixel_format_fget; go; go; reflexivity).
  erewrite bind_ok by apply mirror_spec. reflexivity.
Qed.

Lemma triggers_snoc (calls : list SdkCall) (call : SdkCall) :
  triggers (calls ++ [call]) = (triggers calls + (if is_trigger call then 1 else 0))%nat.
Proof.
  unfold triggers. rewrite filter_app, length_app. f_equal.
  destruct call; reflexivity.
Qed.

(** *** Assigning the acquisition mode *)

(** The descriptor runs the setter function, then caches the value and
    mirrors it. *)
Lemma assign_acquisition_mode_unfold (v : PyVal) (c : Camera) :
  assign_acquisition_mode v c =
    match acquisition_mode_fset v c with
    | (Ok _, c1) =>
        (Ok tt, set_acquisition_mode_value v (set_config (<["" := v]> (config c1)) c1))
    | (Raise e, c1) => (Raise e, set_acquisition_mode_value (acquisition_mode_value c) c1)
    end.
Proof.
  unfold assign_acquisition_mode, Feature_set. cbn -[mirror acquisition_mode_fset].
  destruct (acquisition_mode_fset v c) as [[[]|e] c1]; [|reflexivity].
  now rewrite mirror_spec.
Qed.

Lemma acquisition_mode_fset_run (v : PyVal) (c : Camera) (d : InstantCamera) :
  _driver c = Some d ->
  exists c1, acquisition_mode_fset v c = (Ok tt, c1)
    /\ _driver c1 = Some d
    /\ free_run_running c1 = free_run_running c
    /\ triggers (sdk c1) = triggers (sdk c)
    /\ _acquisition_mode c1 = stored_mode v (_acquisition_mode c).
Proof.
  intros H. destruct c, d as [dev rg op g st sw]. flat_all. subst.
  unfold acquisition_mode_fset, stored_mode.
  destruct g;
    destruct (py_eq v (VMode MODE_CONTINUOUS)) eqn:Ec;
    destruct (py_eq v (VMode MODE_SINGLE_SHOT)) eqn:Es;
    (eexists; split;
     [ do 3 go; rewrite ?Ec, ?Es; try (do 3 go); try go; reflexivity
     | flat; rewrite ?triggers_snoc; cbn [is_trigger]; repeat split; lia ]).
Qed.

Lemma acquisition_mode_fset_unset (v : PyVal) (c : Camera) :
  _driver c = None ->
  acquisition_mode_fset v c = (Raise (AttributeError "'NoneType' object has no attribute"), c).
Proof.
  intros H. destruct c. flat_all. subst. reflexivity.
Qed.

Lemma assign_acquisition_mode_run (v : PyVal) (c : Camera) (d : InstantCamera) :
  _driver c = Some d ->
  exists c1, assign_acquisition_mode v c = (Ok tt, c1)
    /\ _driver c1 = Some d
    /\ free_run_running c1 = free_run_running c
    /\ triggers (sdk c1) = triggers (sdk c)
    /\ _acquisition_mode c1 = stored_mode v (_acquisition_mode c).
Proof.
  intros H. destruct (acquisition_mode_fset_run v c d H) as (c1 & E & Hd & Hf & Ht & Hm).
  eexists. split; [rewrite assign_acquisition_mode_unfold, E; reflexivity|].
  destruct c1. flat_all. auto.
Qed.

(** *** Triggering *)

Lemma trigger_camera_continuous (c : Camera) (d : InstantCamera) :
  _driver c = Some d ->
  _acquisition_mode c = VMode MODE_CONTINUOUS ->
  exists c1, trigger_camera c = (Ok tt, c1)
    /\ triggers (sdk c1) = S (triggers (sdk c))
    /\ free_run_running c1 = free_run_running c
    /\ _acquisition_mode c1 = VMode MODE_CONTINUOUS
    /\ _driver c1 = Some (with_grabbing true (Some GrabStrategy_OneByOne) d).
Proof.
  intros H Hm. destruct c, d as [dev rg op g st sw]. flat_all. subst.
  unfold trigger_camera.
  destruct g;
    destruct (py_eq (VStr (PixelFormat rg)) (VStr "Mono8")) eqn:E8;
    destruct (py_eq (VStr (PixelFormat rg)) (VStr "Mono12")) eqn:E12;
    (eexists; split;
     [ do 3 go; go_by get_acquisition_mode_run; rewrite py_eq_refl; go;
       go_by get_pixel_format_run; rewrite E8;
       lazymatch type of E8 with
       | _ = true => go; go; reflexivity
       | _ = false =>
           erewrite bind_ok by (go_by get_pixel_format_run; rewrite E12; reflexivity);
           flat; go; reflexivity
       end
     | flat; rewrite ?triggers_snoc; cbn [is_trigger]; repeat split; lia ]).
Qed.

(** *** Free run *)

(** A call made while the running flag is set adds a log entry and
    nothing else. *)
Lemma start_free_run_running (c : Camera) :
  free_run_running c = true ->
  start_free_run c =
    (Ok tt, set_logger (logger c ++ [Info "Trying to start again the free acquisition of camera "]) c).
Proof. intros H. unfold start_free_run. now rewrite H. Qed.

(** A call made while the flag is clear sets it, switches to continuous
    mode and triggers once. *)
Lemma start_free_run_first (c : Camera) (d : InstantCamera) :
  _driver c = Some d ->
  free_run_running c = false ->
  exists c1, start_free_run c = (Ok tt, c1)
    /\ triggers (sdk c1) = S (triggers (sdk c))
    /\ free_run_running c1 = true
    /\ _acquisition_mode c1 = VMode MODE_CONTINUOUS
    /\ _driver c1 = Some (with_grabbing true (Some GrabStrategy_OneByOne) d).
Proof.
  intros H Hr. unfold start_free_run. rewrite Hr.
  destruct c. flat_all. subst. do 3 go.
  match goal with |- context [bind _ _ ?s] => set (s3 := s) end.
  destruct (assign_acquisition_mode_run (VMode MODE_CONTINUOUS) s3 d eq_refl)
    as (c4 & E4 & Hd4 & Hf4 & Ht4 & Hm4).
  unfold stored_mode in Hm4. rewrite py_eq_refl in Hm4.
  destruct (trigger_camera_continuous c4 d Hd4 Hm4) as (c5 & E5 & Ht5 & Hf5 & Hm5 & Hd5).
  exists c5. split; [erewrite bind_ok by exact E4; exact E5|].
  subst s3. destruct c4, c5. flat_all. repeat split; congruence.
Qed.

(** C9. On a connected camera that is not in free run, two calls of
    [start_free_run] in a row both return normally; the first sets the
    running flag, stores the continuous mode and issues one software
    trigger; the second changes nothing but the log, to which it adds
    one entry; over both calls exactly one trigger is issued. *)
Theorem start_free_run_twice (c : Camera) (d : InstantCamera) :
  _driver c = Some d ->
  free_run_running c = false ->
  exists c1 c2,
    start_free_run c = (Ok tt, c1)
    /\ start_free_run c1 = (Ok tt, c2)
    /\ free_run_running c1 = true
    /\ _acquisition_mode c1 = VMode MODE_CONTINUOUS
    /\ triggers (sdk c1) = S (triggers (sdk c))
    /\ c2 = set_logger (logger c1 ++ [Info "Trying to start again the free acquisition of camera "]) c1
    /\ triggers (sdk c2) = S (triggers (sdk c)).
Proof.
  intros H Hr.
  destruct (start_free_run_first c d H Hr) as (c1 & E1 & Ht & Hf & Hm & Hd).
  exists c1, (set_logger (logger c1 ++ [Info "Trying to start again the free acquisition of camera "]) c1).
  split; [exact E1|]. split; [now apply start_free_run_running|].
  repeat split; assumption.
Qed.

(** *** The stored acquisition mode *)

Lemma mode_bind {A B} (m : M Camera A) (k : A -> M Camera B) (c : Camera) :
  (forall a, keeps_mode (k a)) ->
  _acquisition_mode (snd (bind m k c)) = _acquisition_mode (snd (m c)).
Proof.
  intros Hk. unfold bind. destruct (m c) as [[a|e] c1]; [apply Hk|reflexivity].
Qed.

Lemma keeps_bind {A B} (m : M Camera A) (k : A -> M Camera B) :
  keeps_mode m -> (forall a, keeps_mode (k a)) -> keeps_mode (bind m k).
Proof. intros Hm Hk c. rewrite mode_bind by exact Hk. apply Hm. Qed.

Lemma keeps_ret {A} (a : A) : keeps_mode (ret a).
Proof. intros c. reflexivity. Qed.

Lemma keeps_raise {A} (e : Exn) : keeps_mode (@raise Camera A e).
Proof. intros c. reflexivity. Qed.

Lemma keeps_if {A} (b : bool) (m1 m2 : M Camera A) :
  keeps_mode m1 -> keeps_mode m2 -> keeps_mode (if b then m1 else m2).
Proof. now destruct b. Qed.

Lemma keeps_log (r : LogRecord) : keeps_mode (log r).
Proof. intros []. reflexivity. Qed.

Lemma keeps_sdk_call (call : SdkCall) : keeps_mode (sdk_call call).
Proof. intros []. reflexivity. Qed.

Lemma keeps_driver : keeps_mode driver.
Proof. intros c. unfold driver. now destruct (_driver c). Qed.

Lemma keeps_put_driver (d : InstantCamera) : keeps_mode (put_driver d).
Proof. intros []. reflexivity. Qed.

Lemma keeps_set_current_dtype (t : option Dtype) : keeps_mode (modify (set_current_dtype t)).
Proof. intros []. reflexivity. Qed.

Lemma keeps_set_free_run_running (b : bool) : keeps_mode (modify (set_free_run_running b)).
Proof. intros []. reflexivity. Qed.

Lemma keeps_mirror (key : string) (val : PyVal) : keeps_mode (mirror config set_config key val).
Proof. intros []. reflexivity. Qed.

Create HintDb keeps.
#[local] Hint Resolve keeps_ret keeps_raise keeps_log keeps_sdk_call keeps_driver keeps_put_driver
  keeps_set_current_dtype keeps_set_free_run_running keeps_mirror : keeps.

(** Decomposing a method body into its statements. *)
Ltac keeps :=
  repeat first
    [ progress auto with keeps
    | apply keeps_bind
    | apply keeps_if
    | intro ].

Lemma keeps_Feature_get (f : Feature Camera) :
  (forall g, fget f = Some g -> keeps_mode g) ->
  keeps_mode (Feature_get config set_config f).
Proof.
  intros Hg. unfold Feature_get. destruct (fget f) as [g|]; [|apply keeps_raise].
  destruct (is_setting f && py_ne (value f) (force_update f)); [apply keeps_ret|].
  apply keeps_bind; [now apply Hg|]. keeps.
Qed.

Lemma keeps_get_acquisition_mode : keeps_mode get_acquisition_mode.
Proof. intros c. now rewrite get_acquisition_mode_run; destruct c. Qed.

Lemma keeps_get_pixel_format : keeps_mode get_pixel_format.
Proof.
  apply keeps_Feature_get. intros g Hg. injection Hg as <-.
  unfold pixel_format_fget. keeps.
Qed.

Lemma keeps_IsGrabbing : keeps_mode IsGrabbing.
Proof. unfold IsGrabbing. keeps. Qed.

Lemma keeps_StopGrabbing : keeps_mode StopGrabbing.
Proof. unfold StopGrabbing. keeps. Qed.

Lemma keeps_StartGrabbing (s : GrabStrategy) : keeps_mode (StartGrabbing s).
Proof. unfold StartGrabbing. keeps. Qed.

Lemma keeps_ExecuteSoftwareTrigger : keeps_mode ExecuteSoftwareTrigger.
Proof. unfold ExecuteSoftwareTrigger. keeps. Qed.

#[local] Hint Resolve keeps_get_acquisition_mode keeps_get_pixel_format keeps_IsGrabbing
  keeps_StopGrabbing keeps_StartGrabbing keeps_ExecuteSoftwareTrigger : keeps.

Lemma keeps_trigger_camera : keeps_mode trigger_camera.
Proof. unfold trigger_camera. keeps. Qed.

Lemma keeps_stop_free_run : keeps_mode stop_free_run.
Proof. unfold stop_free_run. keeps. Qed.

Lemma keeps_stop_camera : keeps_mode stop_camera.
Proof. unfold stop_camera. keeps. Qed.

(** The mode an assignment leaves behind: what the setter function
    stores, or the old mode when there is no driver to ask and the
    setter raises. *)
Lemma assign_acquisition_mode_mode (v : PyVal) (c : Camera) :
  _acquisition_mode (snd (assign_acquisition_mode v c)) =
    match _driver c with
    | Some _ => stored_mode v (_acquisition_mode c)
    | None => _acquisition_mode c
    end.
Proof.
  destruct (_driver c) as [d|] eqn:Hd.
  - destruct (assign_acquisition_mode_run v c d Hd) as (c1 & E & _ & _ & _ & Hm).
    now rewrite E.
  - rewrite assign_acquisition_mode_unfold, (acquisition_mode_fset_unset v c Hd).
    now destruct c.
Qed.

Lemma stored_mode_settable (v old : PyVal) :
  settable_mode old -> settable_mode (stored_mode v old).
Proof.
  intros Hold. unfold stored_mode.
  destruct (py_eq v (VMode MODE_CONTINUOUS)) eqn:Ec; [apply py_eq_mode_true in Ec; now right|].
  destruct (py_eq v (VMode MODE_SINGLE_SHOT)) eqn:Es; [apply py_eq_mode_true in Es; now left|].
  exact Hold.
Qed.

Lemma stored_mode_other (v old : PyVal) :
  v <> VMode MODE_CONTINUOUS -> v <> VMode MODE_SINGLE_SHOT -> stored_mode v old = old.
Proof.
  intros Hc Hs. unfold stored_mode.
  now rewrite (proj2 (py_eq_mode_false _ _) Hc), (proj2 (py_eq_mode_false _ _) Hs).
Qed.

Lemma assign_acquisition_mode_settable (v : PyVal) (c : Camera) :
  settable_mode (_acquisition_mode c) ->
  settable_mode (_acquisition_mode (snd (assign_acquisition_mode v c))).
Proof.
  intros H. rewrite assign_acquisition_mode_mode.
  destruct (_driver c); [now apply stored_mode_settable|exact H].
Qed.

Lemma start_free_run_settable (c : Camera) :
  settable_mode (_acquisition_mode c) ->
  settable_mode (_acquisition_mode (snd (start_free_run c))).
Proof.
  intros H. unfold start_free_run. destruct (free_run_running c).
  - now rewrite keeps_log.
  - destruct c. flat_all. do 3 go.
    rewrite mode_bind by (intros _; apply keeps_trigger_camera).
    now apply assign_acquisition_mode_settable.
Qed.

Lemma call_settable (op : Call) (c : Camera) :
  settable_mode (_acquisition_mode c) ->
  settable_mode (_acquisition_mode (snd (call op c))).
Proof.
  intros H. destruct op; cbn [call].
  - now apply assign_acquisition_mode_settable.
  - now apply start_free_run_settable.
  - now rewrite keeps_stop_free_run.
  - now rewrite keeps_stop_camera.
  - now rewrite keeps_trigger_camera.
Qed.

Lemma run_settable (ops : list Call) (c : Camera) :
  settable_mode (_acquisition_mode c) ->
  settable_mode (_acquisition_mode (run ops c)).
Proof.
  revert c. induction ops as [|op ops IH]; intros c H; [exact H|].
  cbn [run fold_left]. apply IH. now apply call_settable.
Qed.

Lemma settable_not_last (m : PyVal) : settable_mode m -> m <> VMode MODE_LAST.
Proof. intros [-> | ->]; discriminate. Qed.

(** C10. The stored mode of a new camera is [MODE_SINGLE_SHOT]. An
    assignment of a value that is neither [MODE_CONTINUOUS] nor
    [MODE_SINGLE_SHOT], [MODE_LAST] among them, leaves the stored mode
    as it was. Starting from a stored mode of [MODE_SINGLE_SHOT], after
    any sequence of assignments through the setter (and of the other
    calls that do not write the attribute directly) the stored mode is
    [MODE_SINGLE_SHOT] or [MODE_CONTINUOUS], never [MODE_LAST], and a
    read of [acquisition_mode], on which [trigger_camera] and
    [read_camera] branch, returns that mode, for which the test against
    [MODE_LAST] fails. *)
Theorem stored_mode_never_last (c : Camera) (ops : list Call) :
  _acquisition_mode c = VMode MODE_SINGLE_SHOT ->
  (forall identifier initial, _acquisition_mode (init identifier initial) = VMode MODE_SINGLE_SHOT)
  /\ (forall v c', v <> VMode MODE_CONTINUOUS -> v <> VMode MODE_SINGLE_SHOT ->
        _acquisition_mode (snd (assign_acquisition_mode v c')) = _acquisition_mode c')
  /\ settable_mode (_acquisition_mode (run ops c))
  /\ _acquisition_mode (run ops c) <> VMode MODE_LAST
  /\ fst (get_acquisition_mode (run ops c)) = Ok (_acquisition_mode (run ops c))
  /\ py_eq (_acquisition_mode (run ops c)) (VMode MODE_LAST) = false.
Proof.
  intros H.
  assert (Hs : settable_mode (_acquisition_mode (run ops c))).
  { apply run_settable. now left. }
  split; [reflexivity|]. split.
  { intros v c' Hc Hss. rewrite assign_acquisition_mode_mode.
    destruct (_driver c'); [now apply stored_mode_other|reflexivity]. }
  split; [exact Hs|]. split; [now apply settable_not_last|].
  split; [now rewrite get_acquisition_mode_run|].
  apply py_eq_mode_false. now apply settable_not_last.
Qed.

(** *** Reading the exposure *)

Lemma exposure_reads_snoc (calls : list SdkCall) (call : SdkCall) :
  exposure_reads (calls ++ [call]) =
    (exposure_reads calls + (if is_exposure_read call then 1 else 0))%nat.
Proof.
  unfold exposure_reads. rewrite filter_app, length_app. f_equal.
  destruct call; reflexivity.
Qed.

Lemma retrievals_snoc (calls : list SdkCall) (call : SdkCall) :
  retrievals (calls ++ [call]) = (retrievals calls + (if is_retrieval call then 1 else 0))%nat.
Proof.
  unfold retrievals. rewrite filter_app, length_app. f_equal.
  destruct call; reflexivity.
Qed.

(** With a value other than [None] stored under [exposure], the getter
    function returns it and touches nothing. *)
Lemma exposure_fget_cached (c : Camera) (v : PyVal) :
  config c !! "exposure" = Some v -> v <> VNone ->
  exposure_fget c = (Ok v, c).
Proof.
  intros Hc Hv. unfold exposure_fget, bind, config_get, config_getitem. rewrite Hc.
  rewrite (proj2 (py_is_false _ _) Hv). cbn [negb]. now rewrite Hc.
Qed.

(** With [None] stored, the getter function reads the node. *)
Lemma exposure_fget_device (c : Camera) (d : InstantCamera) :
  config c !! "exposure" = Some VNone -> _driver c = Some d ->
  exposure_fget c =
    match ExposureTime (regs d) with
    | Value x => (Ok (VQuantity x us), set_sdk (sdk c ++ [Call_ExposureTime_ToString]) c)
    | TimedOut =>
        (Ok VNone, set_logger (logger c ++ [Error "Timeout getting the exposure"])
                              (set_sdk (sdk c ++ [Call_ExposureTime_ToString]) c))
    end.
Proof.
  intros Hc Hd. destruct c, d as [dev rg op g st sw]. flat_all. subst.
  unfold exposure_fget.
  erewrite bind_ok by (unfold config_get, config_getitem; flat; rewrite Hc; reflexivity).
  rewrite (proj2 (py_is_true VNone VNone) eq_refl). cbn [negb].
  do 2 go. destruct (ExposureTime rg) as [x|]; [reflexivity|].
  go. unfold config_get, config_getitem. flat. now rewrite Hc.
Qed.

(** A read of the feature runs the getter function and mirrors its
    answer. *)
Lemma get_exposure_unfold (c : Camera) :
  get_exposure c =
    match exposure_fget c with
    | (Ok v, c1) => (Ok v, set_config (<["" := v]> (config c1)) c1)
    | (Raise e, c1) => (Raise e, c1)
    end.
Proof.
  unfold get_exposure, Feature_get. cbn -[mirror exposure_fget]. unfold bind.
  destruct (exposure_fget c) as [[v|e] c1]; [|reflexivity].
  now rewrite mirror_spec.
Qed.

(** C6 as the specification states it fails: with an exposure cached in
    the configuration, a read of the feature returns the cached value,
    not what the device's register holds, and makes no call into the
    SDK. *)
Lemma cached_exposure_read_skips_device :
  exists c d,
    _driver c = Some d
    /\ ExposureTime (regs d) = Value (QArith_base.inject_Z 10)
    /\ fst (get_exposure c) = Ok (VQuantity (QArith_base.inject_Z 5) us)
    /\ sdk (snd (get_exposure c)) = sdk c
    /\ exposure_reads (sdk (snd (get_exposure c))) = 0%nat.
Proof.
  exists (set_config {["exposure" := VQuantity (QArith_base.inject_Z 5) us]} bench_camera), bench_driver.
  repeat split; vm_compute; reflexivity.
Qed.

(** C6, amended. A read of the exposure feature returns the value
    cached in the configuration under [exposure], with no call into the
    SDK, whenever that value is not [None]. When it is [None] the read
    asks the device once: it returns the register value as a quantity in
    microseconds, or, if the node read times out, logs the timeout and
    returns the cached value, which is [None], instead of raising. *)
Theorem exposure_read (c : Camera) (d : InstantCamera) (v : PyVal) :
  config c !! "exposure" = Some v ->
  _driver c = Some d ->
  (v <> VNone ->
     get_exposure c = (Ok v, set_config (<["" := v]> (config c)) c))
  /\ (v = VNone ->
      forall x, ExposureTime (regs d) = Value x ->
        get_exposure c =
          (Ok (VQuantity x us),
           set_config (<["" := VQuantity x us]> (config c))
                      (set_sdk (sdk c ++ [Call_ExposureTime_ToString]) c)))
  /\ (v = VNone ->
      ExposureTime (regs d) = TimedOut ->
        get_exposure c =
          (Ok VNone,
           set_config (<["" := VNone]> (config c))
             (set_logger (logger c ++ [Error "Timeout getting the exposure"])
                (set_sdk (sdk c ++ [Call_ExposureTime_ToString]) c)))).
Proof.
  intros Hc Hd. split; [|split].
  - intros Hv. now rewrite get_exposure_unfold, (exposure_fget_cached c v Hc Hv).
  - intros -> x Hx. rewrite get_exposure_unfold, (exposure_fget_device c d Hc Hd), Hx.
    now destruct c.
  - intros -> Hx. rewrite get_exposure_unfold, (exposure_fget_device c d Hc Hd), Hx.
    now destruct c.
Qed.

(** *** Reading frames *)

Section Reading.

Variable transposed : Array -> Array.
Variable zeros : Z -> Z -> Dtype -> Array.
Variable fill : Array -> Array -> Array.

(** With a quantity cached under [exposure], the timeout of a retrieval
    is computed without the device. *)
Lemma retrieve_timeout_cached (c : Camera) (m : Q) (u : TimeUnit) :
  config c !! "exposure" = Some (VQuantity m u) ->
  exists t, retrieve_timeout c = (Ok t, set_config (<["" := VQuantity m u]> (config c)) c).
Proof.
  intros Hc. unfold retrieve_timeout. eexists.
  erewrite bind_ok.
  2:{ rewrite get_exposure_unfold, (exposure_fget_cached c _ Hc) by discriminate. reflexivity. }
  reflexivity.
Qed.

(** In a mode other than single-shot and "last", a read on a driver that
    is not grabbing raises before anything is retrieved. *)
Lemma read_camera_not_grabbing (c : Camera) (d : InstantCamera) :
  _driver c = Some d ->
  grabbing d = false ->
  _acquisition_mode c <> VMode MODE_SINGLE_SHOT ->
  _acquisition_mode c <> VMode MODE_LAST ->
  exists c',
    read_camera transposed zeros fill c =
      (Raise (WrongCameraState "You need to trigger the camera before reading"), c')
    /\ sdk c' = sdk c ++ [Call_IsGrabbing]
    /\ retrievals (sdk c') = retrievals (sdk c)
    /\ temp_image c' = temp_image c.
Proof.
  intros Hd Hg Hs Hl. destruct c, d as [dev rg op g st sw]. flat_all. subst.
  unfold read_camera. eexists. split.
  - go_by get_acquisition_mode_run.
    rewrite (proj2 (py_eq_mode_false _ _) Hs), (proj2 (py_eq_mode_false _ _) Hl). cbn [orb].
    go. erewrite bind_raise by reflexivity. reflexivity.
  - flat. rewrite retrievals_snoc. cbn [is_retrieval]. repeat split. lia.
Qed.

(** A retrieval that returns on timeout never raises: it hands out the
    next grab result, or none. *)
Lemma RetrieveResult_Return_run (c : Camera) (d : InstantCamera) (t : Z) :
  _driver c = Some d ->
  RetrieveResult t TimeoutHandling_Return c =
    (Ok (hd NoResult (results (regs d))),
     set_driver
       (Some (with_regs (mkRegisters (ExposureTime (regs d)) (PixelFormat (regs d))
                                     (MaxNumBuffer (regs d)) (NumReadyBuffers (regs d))
                                     (tl (results (regs d)))) d))
       (set_sdk (sdk c ++ [Call_RetrieveResult t TimeoutHandling_Return]) c)).
Proof.
  intros H. destruct c, d as [dev [et pf mnb nrb res] op g st sw]. flat_all. subst.
  unfold RetrieveResult. do 2 go. cbv zeta. flat. go.
  now destruct (hd NoResult (results _)).
Qed.

(** In "last" mode no such check is made: with a driver and a cached
    exposure, a read returns normally and has attempted one retrieval,
    grabbing or not. *)
Lemma read_camera_last (c : Camera) (d : InstantCamera) (m : Q) (u : TimeUnit) :
  _driver c = Some d ->
  _acquisition_mode c = VMode MODE_LAST ->
  config c !! "exposure" = Some (VQuantity m u) ->
  exists img c',
    read_camera transposed zeros fill c = (Ok img, c')
    /\ retrievals (sdk c') = S (retrievals (sdk c)).
Proof.
  intros Hd Hm Hc. destruct c, d as [dev [et pf mnb nrb res] op g st sw]. flat_all. subst.
  unfold read_camera.
  destruct (retrieve_timeout_cached
              (mkCamera camera0 initial_config0 (<["" := VMode MODE_LAST]> config0)
                 (Some (mkInstantCamera dev (mkRegisters et pf mnb nrb res) op g st sw))
                 friendly_name0 free_run_running0 keep_reading0 fps0 (VMode MODE_LAST)
                 acquisition_mode_value0 current_dtype0 temp_image0 width0 height0
                 (logger0 ++ [Info "Grabbing mode: "]) sdk0) m u) as (t & Et).
  { flat. rewrite lookup_insert_ne by discriminate. exact Hc. }
  flat_all.
  destruct res as [|[a| |] res];
    (eexists _, _; split;
     [ go_by get_acquisition_mode_run; rewrite py_eq_refl, orb_true_r; do 2 go;
       erewrite bind_ok by exact Et; flat; go_by RetrieveResult_Return_run;
       cbn [hd tl results]; go;
       change (py_eq (VMode MODE_LAST) (VMode MODE_SINGLE_SHOT)) with false; cbv iota;
       try (do 3 go); try go; reflexivity
     | flat; rewrite ?retrievals_snoc; cbn [is_retrieval]; lia ]).
Qed.


(** C7 as the specification states it fails: in "last" mode, on a
    driver that is not grabbing, [read_camera] raises nothing; it
    attempts a retrieval and returns an empty list. *)
Lemma read_camera_last_mode_unchecked :
  _driver (bench_camera_in MODE_LAST) = Some bench_driver
  /\ grabbing bench_driver = false
  /\ _acquisition_mode (bench_camera_in MODE_LAST) = VMode MODE_LAST
  /\ fst (read_camera rows_transposed rows_zeros rows_fill (bench_camera_in MODE_LAST)) = Ok []
  /\ sdk (snd (read_camera rows_transposed rows_zeros rows_fill (bench_camera_in MODE_LAST)))
     = [Call_RetrieveResult 120 TimeoutHandling_Return].
Proof. repeat split; vm_compute; reflexivity. Qed.

(** C7, amended. On a driver that is not grabbing, [read_camera] raises
    the wrong-camera-state error whenever the acquisition mode is
    continuous, or any value other than single-shot and "last": the
    only SDK call made is the state query, no retrieval is attempted
    and the cached frame is untouched. In "last" mode no state check is
    made: with a cached exposure the call returns normally after
    attempting one retrieval. *)
Theorem read_camera_state_check (c : Camera) (d : InstantCamera) :
  _driver c = Some d ->
  grabbing d = false ->
  (_acquisition_mode c <> VMode MODE_SINGLE_SHOT ->
   _acquisition_mode c <> VMode MODE_LAST ->
   exists c',
     read_camera transposed zeros fill c =
       (Raise (WrongCameraState "You need to trigger the camera before reading"), c')
     /\ sdk c' = sdk c ++ [Call_IsGrabbing]
     /\ retrievals (sdk c') = retrievals (sdk c)
     /\ temp_image c' = temp_image c)
  /\ (_acquisition_mode c = VMode MODE_LAST ->
      forall m u, config c !! "exposure" = Some (VQuantity m u) ->
      exists img c',
        read_camera transposed zeros fill c = (Ok img, c')
        /\ retrievals (sdk c') = S (retrievals (sdk c))).
Proof.
  intros Hd Hg. split.
  - intros Hs Hl. now apply (read_camera_not_grabbing c d).
  - intros Hm m u Hc. now apply (read_camera_last c d m u).
Qed.

End Reading.

Lemma read_camera_state_check_witness :
  exists c',
    read_camera rows_transposed rows_zeros rows_fill (bench_camera_in MODE_CONTINUOUS) =
      (Raise (WrongCameraState "You need to trigger the camera before reading"), c')
    /\ sdk c' = sdk (bench_camera_in MODE_CONTINUOUS) ++ [Call_IsGrabbing]
    /\ retrievals (sdk c') = retrievals (sdk (bench_camera_in MODE_CONTINUOUS))
    /\ temp_image c' = temp_image (bench_camera_in MODE_CONTINUOUS).
Proof.
  refine (proj1 (read_camera_state_check rows_transposed rows_zeros rows_fill
                   (bench_camera_in MODE_CONTINUOUS) bench_driver eq_refl eq_refl) _ _);
    vm_compute; discriminate.
Defined.

Lemma start_free_run_twice_witness :
  exists c1 c2,
    start_free_run bench_camera = (Ok tt, c1)
    /\ start_free_run c1 = (Ok tt, c2)
    /\ free_run_running c1 = true
    /\ _acquisition_mode c1 = VMode MODE_CONTINUOUS
    /\ triggers (sdk c1) = S (triggers (sdk bench_camera))
    /\ c2 = set_logger (logger c1 ++ [Info "Trying to start again the free acquisition of camera "]) c1
    /\ triggers (sdk c2) = S (triggers (sdk bench_camera)).
Proof. exact (start_free_run_twice bench_camera bench_driver eq_refl eq_refl). Defined.

Lemma stored_mode_never_last_witness :
  settable_mode
    (_acquisition_mode
       (run [Assign_acquisition_mode (VMode MODE_LAST); Trigger_camera;
             Assign_acquisition_mode (VInt 7); Start_free_run;
             Assign_acquisition_mode (VMode MODE_LAST)] bench_camera)).
Proof.
  exact (proj1 (proj2 (proj2 (stored_mode_never_last bench_camera
           [Assign_acquisition_mode (VMode MODE_LAST); Trigger_camera;
            Assign_acquisition_mode (VInt 7); Start_free_run;
            Assign_acquisition_mode (VMode MODE_LAST)] eq_refl)))).
Defined.

Lemma exposure_read_witness :
  get_exposure (bench_camera_in MODE_SINGLE_SHOT) =
    (Ok (VQuantity (QArith_base.inject_Z 20000) us),
     set_config (<["" := VQuantity (QArith_base.inject_Z 20000) us]>
                   (config (bench_camera_in MODE_SINGLE_SHOT)))
                (bench_camera_in MODE_SINGLE_SHOT)).
Proof.
  refine (proj1 (exposure_read (bench_camera_in MODE_SINGLE_SHOT) bench_driver
                   (VQuantity (QArith_base.inject_Z 20000) us) _ eq_refl) _).
  - vm_compute. reflexivity.
  - discriminate.
Defined.

(** *** Connecting *)

Lemma attached_devices_app (l1 l2 : list SdkCall) :
  attached_devices (l1 ++ l2) = attached_devices l1 ++ attached_devices l2.
Proof. unfold attached_devices. apply omap_app. Qed.

Lemma opened_devices_app (l1 l2 : list SdkCall) :
  opened_devices (l1 ++ l2) = opened_devices l1 ++ opened_devices l2.
Proof. unfold opened_devices. apply omap_app. Qed.

(** The loop attaches and opens every matching device, in order, and
    none of the others; the handle of a later match replaces the handle
    of an earlier one. *)
Lemma bind_devices_run (devices : list Device) (c : Camera) :
  exists c',
    bind_devices devices c = (Ok tt, c')
    /\ camera c' = camera c
    /\ initial_config c' = initial_config c
    /\ config c' = config c
    /\ attached_devices (sdk c') =
         attached_devices (sdk c) ++ map info (filter (fun dev => matches (camera c) dev = true) devices)
    /\ opened_devices (sdk c') =
         opened_devices (sdk c) ++ map info (filter (fun dev => matches (camera c) dev = true) devices)
    /\ _driver c' =
         match last (filter (fun dev => matches (camera c) dev = true) devices) with
         | Some dev => Some (handle_of dev)
         | None => _driver c
         end.
Proof.
  revert c. induction devices as [|dev devices IH]; intros c.
  - exists c. cbn. rewrite !app_nil_r. auto 10.
  - cbn [bind_devices]. destruct (matches (camera c) dev) eqn:Hm.
    + destruct c. flat_all.
      erewrite bind_ok by (flat; rewrite Hm; unfold attach_and_open; do 4 go; reflexivity).
      match goal with |- context [bind_devices devices ?s] => destruct (IH s) as (c' & E & Hc & Hi & Hf & Ha & Ho & Hd) end.
      flat_all. exists c'. rewrite E, Hc, Hi, Hf, Ha, Ho, Hd.
      rewrite filter_cons_True by exact Hm. cbn [map].
      rewrite !attached_devices_app, !opened_devices_app. cbn. rewrite !app_nil_r, <- !app_assoc. cbn.
      repeat split.
      destruct (filter _ devices) as [|x l] eqn:El; [reflexivity|].
      rewrite (last_cons dev). destruct (last (x :: l)) eqn:Hl; [reflexivity|].
      apply last_None in Hl. discriminate.
    + erewrite bind_ok by (cbv beta; rewrite Hm; reflexivity).
      destruct (IH c) as (c' & E & Hc & Hi & Hf & Ha & Ho & Hd).
      exists c'. rewrite filter_cons_False by (rewrite Hm; discriminate). auto 10.
Qed.

Section Initialize.

Variable fetch_all : Registers -> gmap string PyVal -> gmap string PyVal.
Variable update : gmap string PyVal -> gmap string PyVal -> gmap string PyVal.
Variable apply_all : gmap string PyVal -> Registers -> Registers.

(** C5 as the specification states it fails: with two devices whose
    friendly names contain the identifier, [initialize] attaches and
    opens both, and the handle it leaves refers to the second. *)
Lemma initialize_binds_second_match :
  matches "acA1920" first_device = true
  /\ matches "acA1920" second_device = true
  /\ fst (initialize keep_store merge_store keep_registers [first_device; second_device]
            (init "acA1920" None)) = Ok tt
  /\ attached <$> _driver (snd (initialize keep_store merge_store keep_registers
                                  [first_device; second_device] (init "acA1920" None)))
     = Some (info second_device)
  /\ info second_device <> info first_device
  /\ opened_devices (sdk (snd (initialize keep_store merge_store keep_registers
                                 [first_device; second_device] (init "acA1920" None))))
     = [info first_device; info second_device].
Proof. repeat split; try (vm_compute; reflexivity). discriminate. Qed.

(** C5, amended. When at least one enumerated device has a friendly
    name containing the identifier, [initialize] returns normally; it
    has attached and opened every matching device, in enumeration order,
    and no other; and the driver handle it leaves is open, has the
    software-trigger configuration registered, and refers to the last
    matching device. *)
Theorem initialize_binds_last_match (devices : list Device) (c : Camera) (dev : Device) :
  last (filter (fun dev => matches (camera c) dev = true) devices) = Some dev ->
  exists c' h,
    initialize fetch_all update apply_all devices c = (Ok tt, c')
    /\ _driver c' = Some h
    /\ attached h = info dev
    /\ is_open h = true
    /\ software_trigger h = true
    /\ attached_devices (sdk c') =
         attached_devices (sdk c) ++ map info (filter (fun dev => matches (camera c) dev = true) devices)
    /\ opened_devices (sdk c') =
         opened_devices (sdk c) ++ map info (filter (fun dev => matches (camera c) dev = true) devices).
Proof.
  intros Hl. unfold initialize.
  destruct devices as [|d0 devices]; [discriminate|].
  destruct c. flat_all. do 3 go.
  match goal with |- context [bind (bind_devices ?ds) _ ?s] =>
    destruct (bind_devices_run ds s) as (c1 & E & Hc & Hi & Hf & Ha & Ho & Hd) end.
  flat_all. rewrite Hl in Hd. erewrite bind_ok by exact E.
  destruct c1. flat_all. subst.
  rewrite !attached_devices_app, !opened_devices_app in *. cbn in Ha, Ho. rewrite app_nil_r in Ha, Ho.
  do 6 go.
  destruct initial_config0 as [initial|];
    (eexists _, _; split;
     [ erewrite bind_ok by reflexivity; reflexivity
     | flat; rewrite ?attached_devices_app, ?opened_devices_app; cbn; rewrite ?app_nil_r;
       repeat split; assumption ]).
Qed.

End Initialize.

Lemma initialize_binds_last_match_witness :
  exists c' h,
    initialize keep_store merge_store keep_registers [first_device; other_device; second_device]
               (init "acA1920" None) = (Ok tt, c')
    /\ _driver c' = Some h
    /\ attached h = info second_device
    /\ is_open h = true
    /\ software_trigger h = true
    /\ attached_devices (sdk c') =
         attached_devices (sdk (init "acA1920" None)) ++
         map info (filter (fun dev => matches (camera (init "acA1920" None)) dev = true)
                          [first_device; other_device; second_device])
    /\ opened_devices (sdk c') =
         opened_devices (sdk (init "acA1920" None)) ++
         map info (filter (fun dev => matches (camera (init "acA1920" None)) dev = true)
                          [first_device; other_device; second_device]).
Proof.
  refine (initialize_binds_last_match keep_store merge_store keep_registers
            [first_device; other_device; second_device] (init "acA1920" None) second_device _).
  vm_compute. reflexivity.
Defined.

End BaslerFacts.


(** ** More on the descriptors *)

Module PropsMore.

Import Props PropsFacts.

Section Descriptors.

Context {Inst : Type} (config : Inst -> gmap string PyVal) (set_config : gmap string PyVal -> Inst -> Inst).
Lemma Feature_set_unfold_plain (f : Feature Inst) (s : PyVal -> M Inst unit) (v : PyVal) (i : Inst) :
  fset f = Some s ->
  is_setting f && py_eq (force_update f) v = false ->
  Feature_set config set_config v (f, i) =
    match s v i with
    | (Ok _, i1) => (Ok tt, (with_value v f, set_config (<[name f := v]> (config i1)) i1))
    | (Raise e, i1) => (Raise e, (f, i1))
    end.
Proof.
  intros Hs Hc. unfold Feature_set. rewrite Hs, Hc.
  destruct (s v i) as [[[]|e] i1]; [|reflexivity]. now rewrite mirror_spec.
Qed.

Lemma Feature_set_unfold_sentinel (f : Feature Inst) (s : PyVal -> M Inst unit) (g : M Inst PyVal)
    (v : PyVal) (i : Inst) :
  fset f = Some s -> fget f = Some g ->
  is_setting f && py_eq (force_update f) v = true ->
  Feature_set config set_config v (f, i) =
    match g i with
    | (Ok v', i1) => (Ok tt, (with_value v' f, set_config (<[name f := v']> (config i1)) i1))
    | (Raise e, i1) => (Raise e, (f, i1))
    end.
Proof.
  intros Hs Hg Hc. unfold Feature_set. rewrite Hs, Hc, Hg.
  destruct (g i) as [[v'|e] i1]; [|reflexivity]. now rewrite mirror_spec.
Qed.

End Descriptors.

(** A read through a [ModelProp], or through a [Feature] that is not a
    cached setting, always runs the getter. When the getter returns,
    the read returns its value and overwrites the store entry under
    the descriptor's [name] with it, every other entry staying as the
    getter left it; when the getter raises, the exception goes on to
    the caller and the store is not written. *)
Theorem read_runs_getter_and_mirrors (Inst : Type) (config : Inst -> gmap string PyVal)
    (set_config : gmap string PyVal -> Inst -> Inst)
    (p : ModelProp Inst) (f : Feature Inst) (g : M Inst PyVal) (i : Inst) :
  (forall c j, config (set_config c j) = c) ->
  (mp_fget p = Some g ->
     match g i with
     | (Ok v, i1) =>
         ModelProp_get config set_config p i = (Ok v, set_config (<[mp_name p := v]> (config i1)) i1)
         /\ config (snd (ModelProp_get config set_config p i)) !! mp_name p = Some v
         /\ forall key, key <> mp_name p ->
              config (snd (ModelProp_get config set_config p i)) !! key = config i1 !! key
     | (Raise e, i1) => ModelProp_get config set_config p i = (Raise e, i1)
     end)
  /\ (fget f = Some g -> is_setting f = false ->
     match g i with
     | (Ok v, i1) =>
         Feature_get config set_config f i = (Ok v, set_config (<[name f := v]> (config i1)) i1)
         /\ config (snd (Feature_get config set_config f i)) !! name f = Some v
         /\ forall key, key <> name f ->
              config (snd (Feature_get config set_config f i)) !! key = config i1 !! key
     | (Raise e, i1) => Feature_get config set_config f i = (Raise e, i1)
     end).
Proof.
  intros Hcs. split.
  - intros Hg. unfold ModelProp_get. rewrite Hg. unfold bind.
    destruct (g i) as [[v|e] i1]; [|reflexivity].
    rewrite mirror_spec. cbn. rewrite Hcs. split; [reflexivity|].
    split; [apply lookup_insert_eq|]. intros key Hk. now apply lookup_insert_ne.
  - intros Hg Hs. unfold Feature_get. rewrite Hg, Hs. cbn [andb]. unfold bind.
    destruct (g i) as [[v|e] i1]; [|reflexivity].
    rewrite mirror_spec. cbn. rewrite Hcs. split; [reflexivity|].
    split; [apply lookup_insert_eq|]. intros key Hk. now apply lookup_insert_ne.
Qed.

Lemma read_runs_getter_and_mirrors_witness :
  ModelProp_get probe_config probe_set_config gain_prop fresh_probe
    = (Ok (VInt 7), probe_set_config (<[mp_name gain_prop := VInt 7]> (probe_config (mkProbe ∅ (VInt 7) 1)))
                                      (mkProbe ∅ (VInt 7) 1))
  /\ probe_config (snd (ModelProp_get probe_config probe_set_config gain_prop fresh_probe))
       !! mp_name gain_prop = Some (VInt 7)
  /\ forall key, key <> mp_name gain_prop ->
       probe_config (snd (ModelProp_get probe_config probe_set_config gain_prop fresh_probe)) !! key
       = probe_config (mkProbe ∅ (VInt 7) 1) !! key.
Proof.
  exact (proj1 (read_runs_getter_and_mirrors Probe probe_config probe_set_config gain_prop gain_feature
                  counting_getter fresh_probe (fun c j => eq_refl)) eq_refl).
Defined.

(** A descriptor without the accessor asked for raises [AttributeError]
    and touches nothing: a read without a getter leaves the instance as
    it is, a write without a setter leaves the instance and the
    descriptor as they are, whatever the value and whether or not the
    descriptor is a cached setting. *)
Theorem missing_accessor_raises (Inst : Type) (config : Inst -> gmap string PyVal)
    (set_config : gmap string PyVal -> Inst -> Inst)
    (p : ModelProp Inst) (f : Feature Inst) (v : PyVal) (i : Inst) :
  (mp_fget p = None ->
     ModelProp_get config set_config p i = (Raise (AttributeError "unreadable attribute"), i))
  /\ (mp_fset p = None ->
     ModelProp_set config set_config p v i = (Raise (AttributeError "can't set attribute"), i))
  /\ (fget f = None ->
     Feature_get config set_config f i = (Raise (AttributeError "unreadable attribute"), i))
  /\ (fset f = None ->
     Feature_set config set_config v (f, i) = (Raise (AttributeError "can't set attribute"), (f, i))).
Proof.
  repeat split; intros H.
  - unfold ModelProp_get. now rewrite H.
  - unfold ModelProp_set. now rewrite H.
  - unfold Feature_get. now rewrite H.
  - unfold Feature_set. now rewrite H.
Qed.

Lemma missing_accessor_raises_witness :
  ModelProp_get probe_config probe_set_config (ModelProp_init None None no_kwargs) fresh_probe
    = (Raise (AttributeError "unreadable attribute"), fresh_probe)
  /\ ModelProp_set probe_config probe_set_config (ModelProp_init None None no_kwargs) (VInt 3) fresh_probe
    = (Raise (AttributeError "can't set attribute"), fresh_probe)
  /\ Feature_get probe_config probe_set_config (Feature_init None None (mkKwargs (Some true) None)) fresh_probe
    = (Raise (AttributeError "unreadable attribute"), fresh_probe)
  /\ Feature_set probe_config probe_set_config (VInt 3) (default_setting, fresh_probe)
    = (Raise (AttributeError "can't set attribute"), (default_setting, fresh_probe)).
Proof.
  split; [|split; [|split]].
  - exact (proj1 (missing_accessor_raises Probe probe_config probe_set_config
                    (ModelProp_init None None no_kwargs) default_setting (VInt 3) fresh_probe) eq_refl).
  - exact (proj1 (proj2 (missing_accessor_raises Probe probe_config probe_set_config
                    (ModelProp_init None None no_kwargs) default_setting (VInt 3) fresh_probe)) eq_refl).
  - exact (proj1 (proj2 (proj2 (missing_accessor_raises Probe probe_config probe_set_config
                    (ModelProp_init None None no_kwargs) (Feature_init None None (mkKwargs (Some true) None))
                    (VInt 3) fresh_probe))) eq_refl).
  - exact (proj2 (proj2 (proj2 (missing_accessor_raises Probe probe_config probe_set_config
                    (ModelProp_init None None no_kwargs) default_setting (VInt 3) fresh_probe))) eq_refl).
Defined.

(** Written a value that does not compare equal to its sentinel, a
    cached setting with a getter and a setter keeps that value on the
    descriptor: once the write has returned, a read on any instance,
    the written one or another instance of the class, returns the
    written value and leaves that instance untouched, so the getter is
    not run. *)
Theorem written_setting_is_read_back (Inst : Type) (config : Inst -> gmap string PyVal)
    (set_config : gmap string PyVal -> Inst -> Inst)
    (f f' : Feature Inst) (g : M Inst PyVal) (v : PyVal) (i i' : Inst) :
  fget f = Some g ->
  is_setting f = true ->
  py_eq (force_update f) v = false ->
  Feature_set config set_config v (f, i) = (Ok tt, (f', i')) ->
  value f' = v
  /\ forall j, Feature_get config set_config f' j = (Ok v, j).
Proof.
  intros Hg Hs Hv E. unfold Feature_set in E.
  destruct (fset f) as [s|]; [|discriminate].
  assert (Hc : is_setting f && py_eq (force_update f) v = false).
  { rewrite Hs. cbn. exact Hv. }
  rewrite Hc in E. destruct (s v i) as [[[]|e] i1]; [|discriminate].
  injection E as <- <-. split; [reflexivity|]. intros j.
  apply (Feature_get_cached config set_config (with_value v f) g j); [exact Hg|exact Hs|].
  cbn [value force_update with_value]. unfold py_ne. now rewrite py_eq_sym, Hv.
Qed.

Lemma written_setting_is_read_back_witness :
  value (with_value (VInt 5) exposure_setting) = VInt 5
  /\ forall j, Feature_get probe_config probe_set_config (with_value (VInt 5) exposure_setting) j
               = (Ok (VInt 5), j).
Proof.
  refine (written_setting_is_read_back Probe probe_config probe_set_config exposure_setting
            (with_value (VInt 5) exposure_setting) counting_getter (VInt 5) fresh_probe
            (mkProbe {["" := VInt 5]} (VInt 5) 0) eq_refl eq_refl _ _).
  - vm_compute. reflexivity.
  - vm_compute. reflexivity.
Defined.

(** A cached setting written its sentinel never runs the registered
    setter: the outcome, the instance left behind and the value cached
    do not depend on the setter; they are those of one run of the
    getter, whose answer is cached and mirrored, or whose exception is
    passed on with nothing cached. *)
Theorem sentinel_write_skips_setter (Inst : Type) (config : Inst -> gmap string PyVal)
    (set_config : gmap string PyVal -> Inst -> Inst)
    (kw : Kwargs) (g : M Inst PyVal) (s1 s2 : PyVal -> M Inst unit) (i : Inst) :
  kw_setting kw = Some true ->
  let sentinel := default VNone (kw_force_update_arg kw) in
  let written s := Feature_set config set_config sentinel (Feature_init (Some g) (Some s) kw, i) in
  fst (written s1) = fst (written s2)
  /\ snd (snd (written s1)) = snd (snd (written s2))
  /\ value (fst (snd (written s1))) = value (fst (snd (written s2)))
  /\ match g i with
     | (Ok v', i1) =>
         fst (written s1) = Ok tt
         /\ snd (snd (written s1)) = set_config (<["" := v']> (config i1)) i1
         /\ value (fst (snd (written s1))) = v'
     | (Raise e, i1) =>
         fst (written s1) = Raise e
         /\ snd (snd (written s1)) = i1
         /\ value (fst (snd (written s1))) = VNone
     end.
Proof.
  intros Hk sentinel written.
  assert (E : forall s, written s =
            match g i with
            | (Ok v', i1) => (Ok tt, (with_value v' (Feature_init (Some g) (Some s) kw),
                                      set_config (<["" := v']> (config i1)) i1))
            | (Raise e, i1) => (Raise e, (Feature_init (Some g) (Some s) kw, i1))
            end).
  { intros s. unfold written.
    rewrite (Feature_set_unfold_sentinel config set_config _ s g); [reflexivity|reflexivity|reflexivity|].
    cbn [is_setting force_update Feature_init]. rewrite Hk. cbn [default andb].
    apply py_eq_same. }
  rewrite !E. destruct (g i) as [[v'|e] i1]; cbn; auto 10.
Qed.

Lemma sentinel_write_skips_setter_witness :
  let written s :=
    Feature_set probe_config probe_set_config (default VNone (kw_force_update_arg (mkKwargs (Some true) (Some (VInt 0)))))
      (Feature_init (Some counting_getter) (Some s) (mkKwargs (Some true) (Some (VInt 0))), fresh_probe) in
  fst (written device_setter) = fst (written (fun _ => raise (ValueError "refused")))
  /\ snd (snd (written device_setter)) = snd (snd (written (fun _ => raise (ValueError "refused"))))
  /\ value (fst (snd (written device_setter))) = value (fst (snd (written (fun _ => raise (ValueError "refused")))))
  /\ match counting_getter fresh_probe with
     | (Ok v', i1) =>
         fst (written device_setter) = Ok tt
         /\ snd (snd (written device_setter)) = probe_set_config (<["" := v']> (probe_config i1)) i1
         /\ value (fst (snd (written device_setter))) = v'
     | (Raise e, i1) =>
         fst (written device_setter) = Raise e
         /\ snd (snd (written device_setter)) = i1
         /\ value (fst (snd (written device_setter))) = VNone
     end.
Proof.
  exact (sentinel_write_skips_setter Probe probe_config probe_set_config
           (mkKwargs (Some true) (Some (VInt 0))) counting_getter device_setter
           (fun _ => raise (ValueError "refused")) fresh_probe eq_refl).
Defined.

(** When the function behind a write raises, the write raises the same
    exception, the store is not written (the instance is as the
    function left it) and a [Feature] keeps the value it had cached:
    this holds for the setter of a [ModelProp], for the setter of a
    [Feature] outside the sentinel branch, and for the getter of a
    cached [Feature] written a value that compares equal to its
    sentinel. *)
Theorem failed_write_records_nothing (Inst : Type) (config : Inst -> gmap string PyVal)
    (set_config : gmap string PyVal -> Inst -> Inst)
    (p : ModelProp Inst) (f : Feature Inst) (s : PyVal -> M Inst unit) (g : M Inst PyVal)
    (v : PyVal) (i i1 : Inst) (e : Exn) :
  (mp_fset p = Some s -> s v i = (Raise e, i1) ->
     ModelProp_set config set_config p v i = (Raise e, i1))
  /\ (fset f = Some s -> is_setting f && py_eq (force_update f) v = false ->
      s v i = (Raise e, i1) ->
      Feature_set config set_config v (f, i) = (Raise e, (f, i1)))
  /\ (fset f = Some s -> fget f = Some g -> is_setting f && py_eq (force_update f) v = true ->
      g i = (Raise e, i1) ->
      Feature_set config set_config v (f, i) = (Raise e, (f, i1))).
Proof.
  split; [|split].
  - intros Hs E. unfold ModelProp_set. rewrite Hs. unfold bind. now rewrite E.
  - intros Hs Hc E. rewrite (Feature_set_unfold_plain config set_config f s v i Hs Hc). now rewrite E.
  - intros Hs Hg Hc E. rewrite (Feature_set_unfold_sentinel config set_config f s g v i Hs Hg Hc).
    now rewrite E.
Qed.

Lemma failed_write_records_nothing_witness :
  ModelProp_set probe_config probe_set_config
      (ModelProp_setter gain_prop (fun _ => raise (ValueError "out of range"))) (VInt 3) fresh_probe
    = (Raise (ValueError "out of range"), fresh_probe)
  /\ Feature_set probe_config probe_set_config (VInt 3)
      (Feature_setter exposure_setting (fun _ => raise (ValueError "out of range")), fresh_probe)
    = (Raise (ValueError "out of range"),
       (Feature_setter exposure_setting (fun _ => raise (ValueError "out of range")), fresh_probe))
  /\ Feature_set probe_config probe_set_config (VBool false)
      (Feature_getter exposure_setting (raise TimeoutException), fresh_probe)
    = (Raise TimeoutException,
       (Feature_getter exposure_setting (raise TimeoutException), fresh_probe)).
Proof.
  split; [|split].
  - exact (proj1 (failed_write_records_nothing Probe probe_config probe_set_config
                    (ModelProp_setter gain_prop (fun _ => raise (ValueError "out of range")))
                    (Feature_setter exposure_setting (fun _ => raise (ValueError "out of range")))
                    (fun _ => raise (ValueError "out of range")) counting_getter
                    (VInt 3) fresh_probe fresh_probe (ValueError "out of range")) eq_refl eq_refl).
  - exact (proj1 (proj2 (failed_write_records_nothing Probe probe_config probe_set_config
                    (ModelProp_setter gain_prop (fun _ => raise (ValueError "out of range")))
                    (Feature_setter exposure_setting (fun _ => raise (ValueError "out of range")))
                    (fun _ => raise (ValueError "out of range")) counting_getter
                    (VInt 3) fresh_probe fresh_probe (ValueError "out of range"))) eq_refl eq_refl eq_refl).
  - exact (proj2 (proj2 (failed_write_records_nothing Probe probe_config probe_set_config
                    gain_prop
                    (Feature_getter exposure_setting (raise TimeoutException))
                    device_setter (raise TimeoutException)
                    (VBool false) fresh_probe fresh_probe TimeoutException)) eq_refl eq_refl eq_refl eq_refl).
Defined.

End PropsMore.

(** ** Class bodies and the registry *)

Module ClassBodiesFacts.

Import Registry ClassBodies RegistryFacts.

Section Facts.

Context {Descr : Type}.
Implicit Types (h : Heap Descr) (d : Descr) (reg : PropertyRegistry Descr).

(** The attribute lookup along an MRO does not see a class that is not
    on it. *)
Lemma first_own_insert h order c cls regs n :
  c ∉ order ->
  first_own Descr (mkHeap regs (<[c := cls]> (classes h)) n) order = first_own Descr h order.
Proof.
  induction order as [|x rest IH]; [reflexivity|]. intros Hn.
  apply not_elem_of_cons in Hn as [Hx Hrest].
  cbn [first_own classes]. rewrite lookup_insert_ne by congruence. now rewrite IH.
Qed.

(** Under a tagged registry every declaration of a body is written into
    that registry object. *)
Lemma bind_all_in_place owner (body : list (string * Descr)) h r reg :
  getattr_model_props h owner = Some r ->
  registries h !! r = Some reg ->
  model_name reg = Some object_qualname ->
  bind_all Descr owner body h =
    (Ok tt, mkHeap (<[r := mkRegistry (model_name reg) (declared body (items reg))]> (registries h))
                   (classes h) (next_ref h)).
Proof.
  revert h reg. induction body as [|[name d] rest IH]; intros h reg Hg Hr Ht.
  - cbn. destruct h as [regs cl n], reg as [tag its]. cbn in *.
    now rewrite insert_id.
  - cbn [bind_all]. unfold bind.
    rewrite (set_name_in_place d owner name h r reg Hg Hr Ht).
    erewrite IH; [ | | cbn; apply lookup_insert_eq | exact Ht ].
    + cbn. now rewrite insert_insert_eq.
    + rewrite (getattr_model_props_classes h) by reflexivity. exact Hg.
Qed.

End Facts.

(** A class statement whose parent sees a registry that does not carry
    the tag, and whose body declares at least one property: the first
    declaration copies the inherited registry once, every declaration of
    the body goes into that copy, the new class sees the inherited
    entries overlaid with its own, the inherited registry object is left
    as it was, and every other class sees what it saw before. *)
Theorem class_body_copies_once (Descr : Type) (h : Heap Descr) (name parent : string) (p : ClassObj)
    (r : nat) (reg : PropertyRegistry Descr) (body : list (string * Descr)) :
  classes h !! parent = Some p ->
  name ∉ mro p ->
  first_own Descr h (mro p) = Some r ->
  registries h !! r = Some reg ->
  model_name reg <> Some object_qualname ->
  allocated h ->
  body <> [] ->
  exists h',
    define_class name parent body h = (Ok tt, h')
    /\ getattr_model_props h' name = Some (next_ref h)
    /\ model_props_of h' name = Some (declared body (items reg))
    /\ registries h' !! r = Some reg
    /\ next_ref h' = S (next_ref h)
    /\ forall c cls m, c <> name -> classes h !! c = Some cls -> name ∉ mro cls ->
         model_props_of h c = Some m -> model_props_of h' c = Some m.
Proof.
  intros Hp Hn Hf Hr Ht Hal Hb.
  destruct body as [|[k d] rest]; [congruence|].
  assert (Hlt : r < next_ref h) by (apply Hal; rewrite Hr; eauto).
  unfold define_class. rewrite Hp. cbn [bind_all]. unfold bind.
  set (h0 := mkHeap (registries h) (<[name := mkClass (name :: mro p) None]> (classes h)) (next_ref h)).
  assert (Hg0 : getattr_model_props h0 name = Some r).
  { unfold getattr_model_props, h0. cbn [classes]. rewrite lookup_insert_eq. cbn [mro first_own classes].
    rewrite lookup_insert_eq. rewrite first_own_insert by exact Hn. exact Hf. }
  erewrite (set_name_copies d name k h0 r reg (mro p) None);
    [ | unfold h0; cbn; apply lookup_insert_eq | exact Hg0 | exact Hr | exact Ht ].
  set (h1 := mkHeap _ _ _).
  assert (Hg1 : getattr_model_props h1 name = Some (next_ref h)).
  { unfold getattr_model_props, h1, h0. cbn [classes next_ref]. rewrite lookup_insert_eq.
    cbn [mro first_own classes]. now rewrite lookup_insert_eq. }
  erewrite (bind_all_in_place name rest h1 (next_ref h));
    [ | exact Hg1 | unfold h1, h0; cbn; apply lookup_insert_eq | reflexivity ].
  eexists. split; [reflexivity|].
  split. { rewrite (getattr_model_props_classes h1) by reflexivity. exact Hg1. }
  split.
  { unfold model_props_of. rewrite (getattr_model_props_classes h1) by reflexivity. rewrite Hg1.
    cbn. rewrite lookup_insert_eq. reflexivity. }
  split.
  { unfold h1, h0. cbn. rewrite !lookup_insert_ne by lia. exact Hr. }
  split; [reflexivity|].
  intros c cls m Hcn Hc Hnc Hm. unfold model_props_of in *.
  rewrite (getattr_model_props_classes h1) by reflexivity.
  assert (Hgc : getattr_model_props h1 c = getattr_model_props h c).
  { unfold getattr_model_props, h1. cbn [classes].
    rewrite lookup_insert_ne by congruence. unfold h0 at 1. cbn [classes].
    rewrite lookup_insert_ne by congruence. rewrite Hc.
    rewrite (first_own_insert h0) by exact Hnc. unfold h0.
    now rewrite first_own_insert by exact Hnc. }
  rewrite Hgc. destruct (getattr_model_props h c) as [rc|]; [|discriminate].
  cbn in Hm |- *. destruct (registries h !! rc) as [regc|] eqn:Hrc; [|discriminate].
  assert (rc < next_ref h) by (apply Hal; rewrite Hrc; eauto).
  unfold h1, h0. cbn [registries next_ref]. rewrite !lookup_insert_ne by lia. rewrite Hrc. exact Hm.
Qed.

Lemma class_body_copies_once_witness :
  exists h',
    define_class "Camera" "Model" two_declarations (root_heap "Model" None ∅) = (Ok tt, h')
    /\ getattr_model_props h' "Camera" = Some (next_ref (root_heap (Descr := nat) "Model" None ∅))
    /\ model_props_of h' "Camera" = Some (declared two_declarations (items (mkRegistry None ∅)))
    /\ registries h' !! 0 = Some (mkRegistry None ∅)
    /\ next_ref h' = S (next_ref (root_heap (Descr := nat) "Model" None ∅))
    /\ forall c cls m, c <> "Camera" -> classes (root_heap (Descr := nat) "Model" None ∅) !! c = Some cls ->
         "Camera" ∉ mro cls ->
         model_props_of (root_heap "Model" None ∅) c = Some m -> model_props_of h' c = Some m.
Proof.
  refine (class_body_copies_once nat (root_heap "Model" None ∅) "Camera" "Model" (mkClass ["Model"] (Some 0))
            0 (mkRegistry None ∅) two_declarations _ _ _ _ _ _ _).
  - reflexivity.
  - intros H. apply list_elem_of_singleton in H. discriminate.
  - reflexivity.
  - reflexivity.
  - discriminate.
  - intros r [x Hx]. unfold root_heap in *. cbn in *.
    apply lookup_singleton_Some in Hx as [<- _]. lia.
  - discriminate.
Defined.

(** A class statement whose parent sees a registry that carries the
    tag: nothing is copied, every declaration of the body is written
    into the registry object the parent sees, and afterwards the new
    class and every class that saw that object (the parent, its
    ancestors, the subclasses defined before) see the same mapping,
    the declarations of the new class included. *)
Theorem class_body_writes_shared_registry (Descr : Type) (h : Heap Descr) (name parent : string)
    (p : ClassObj) (r : nat) (reg : PropertyRegistry Descr) (body : list (string * Descr)) :
  classes h !! parent = Some p ->
  name ∉ mro p ->
  first_own Descr h (mro p) = Some r ->
  registries h !! r = Some reg ->
  model_name reg = Some object_qualname ->
  exists h',
    define_class name parent body h = (Ok tt, h')
    /\ getattr_model_props h' name = Some r
    /\ model_props_of h' name = Some (declared body (items reg))
    /\ next_ref h' = next_ref h
    /\ forall c cls, c <> name -> classes h !! c = Some cls -> name ∉ mro cls ->
         getattr_model_props h c = Some r ->
         model_props_of h' c = Some (declared body (items reg)).
Proof.
  intros Hp Hn Hf Hr Ht.
  unfold define_class. rewrite Hp.
  set (h0 := mkHeap (registries h) (<[name := mkClass (name :: mro p) None]> (classes h)) (next_ref h)).
  assert (Hg0 : getattr_model_props h0 name = Some r).
  { unfold getattr_model_props, h0. cbn [classes]. rewrite lookup_insert_eq. cbn [mro first_own classes].
    rewrite lookup_insert_eq. rewrite first_own_insert by exact Hn. exact Hf. }
  rewrite (bind_all_in_place name body h0 r reg Hg0 Hr Ht).
  eexists. split; [reflexivity|].
  split. { rewrite (getattr_model_props_classes h0) by reflexivity. exact Hg0. }
  split.
  { unfold model_props_of. rewrite (getattr_model_props_classes h0) by reflexivity. rewrite Hg0.
    cbn. rewrite lookup_insert_eq. reflexivity. }
  split; [reflexivity|].
  intros c cls Hcn Hc Hnc Hg. unfold model_props_of.
  rewrite (getattr_model_props_classes h0) by reflexivity.
  assert (Hgc : getattr_model_props h0 c = Some r).
  { rewrite <- Hg. unfold getattr_model_props, h0. cbn [classes].
    rewrite lookup_insert_ne by congruence. rewrite Hc.
    now rewrite first_own_insert by exact Hnc. }
  rewrite Hgc. cbn. rewrite lookup_insert_eq. reflexivity.
Qed.

Lemma class_body_writes_shared_registry_witness :
  exists h',
    define_class "Camera" "Model" two_declarations (root_heap "Model" (Some "object") {["led" := 0]})
      = (Ok tt, h')
    /\ getattr_model_props h' "Camera" = Some 0
    /\ model_props_of h' "Camera" = Some (declared two_declarations {["led" := 0]})
    /\ next_ref h' = 1
    /\ forall c cls, c <> "Camera" ->
         classes (root_heap "Model" (Some "object") {["led" := 0]}) !! c = Some cls ->
         "Camera" ∉ mro cls ->
         getattr_model_props (root_heap "Model" (Some "object") {["led" := 0]}) c = Some 0 ->
         model_props_of h' c = Some (declared two_declarations {["led" := 0]}).
Proof.
  refine (class_body_writes_shared_registry nat (root_heap "Model" (Some "object") {["led" := 0]})
            "Camera" "Model" (mkClass ["Model"] (Some 0)) 0 (mkRegistry (Some "object") {["led" := 0]})
            two_declarations _ _ _ _ _).
  - reflexivity.
  - intros H. apply list_elem_of_singleton in H. discriminate.
  - reflexivity.
  - reflexivity.
  - reflexivity.
Defined.

End ClassBodiesFacts.

(** ** Shutting the relay down *)

Module ShutdownFacts.

Import Relay Shutdown RelayFacts.

(** Started with the stop event clear, the serve loop relays the
    messages of any stream up to and including the first exit message,
    unchanged and in order, and nothing after it: it counts one per
    message relayed, leaves the rest of the stream unreceived, and ends
    with the event set exactly when the stream held an exit message. *)
Theorem serve_relays_upto_exit (keyword : string) (incoming : list Message) (p : Publisher) :
  event p = false ->
  exists p',
    serve keyword incoming p = (p', drop (length (upto_exit keyword incoming)) incoming)
    /\ sent p' = sent p ++ upto_exit keyword incoming
    /\ i p' = (i p + length (upto_exit keyword incoming))%nat
    /\ event p' = existsb (is_exit_message keyword) incoming
    /\ incoming = upto_exit keyword incoming ++ drop (length (upto_exit keyword incoming)) incoming.
Proof.
  revert p. induction incoming as [|m rest IH]; intros p Hev.
  - exists p. cbn. rewrite app_nil_r, Nat.add_0_r. auto.
  - cbn [serve upto_exit existsb]. rewrite Hev.
    destruct (is_exit_message keyword m) eqn:Hm.
    + exists (serve_one keyword m p). cbn [length drop orb app].
      split; [apply serve_stopped; now rewrite serve_one_event, Hm, orb_true_r|].
      split; [apply serve_one_sent|].
      split; [rewrite serve_one_counter; lia|].
      split; [now rewrite serve_one_event, Hm, orb_true_r|]. now rewrite drop_0.
    + destruct (IH (serve_one keyword m p)) as (p' & Hs & Hsent & Hi & He & Hin).
      { now rewrite serve_one_event, Hev, Hm. }
      exists p'. cbn [length drop orb app].
      split; [exact Hs|].
      split; [rewrite Hsent, serve_one_sent, <- app_assoc; reflexivity|].
      split; [rewrite Hi, serve_one_counter; lia|].
      split; [exact He|]. now rewrite <- Hin.
Qed.

Lemma serve_relays_upto_exit_witness :
  exists p',
    serve "exit" [("frame", VInt 1); ("exit", VStr "exit"); ("", VInt 0)] idle_publisher
      = (p', drop (length (upto_exit "exit" [("frame", VInt 1); ("exit", VStr "exit"); ("", VInt 0)]))
                  [("frame", VInt 1); ("exit", VStr "exit"); ("", VInt 0)])
    /\ sent p' = sent idle_publisher ++ upto_exit "exit" [("frame", VInt 1); ("exit", VStr "exit"); ("", VInt 0)]
    /\ i p' = (i idle_publisher + length (upto_exit "exit" [("frame", VInt 1); ("exit", VStr "exit"); ("", VInt 0)]))%nat
    /\ event p' = existsb (is_exit_message "exit") [("frame", VInt 1); ("exit", VStr "exit"); ("", VInt 0)]
    /\ [("frame", VInt 1); ("exit", VStr "exit"); ("", VInt 0)]
       = upto_exit "exit" [("frame", VInt 1); ("exit", VStr "exit"); ("", VInt 0)]
         ++ drop (length (upto_exit "exit" [("frame", VInt 1); ("exit", VStr "exit"); ("", VInt 0)]))
                 [("frame", VInt 1); ("exit", VStr "exit"); ("", VInt 0)].
Proof.
  exact (serve_relays_upto_exit "exit" [("frame", VInt 1); ("exit", VStr "exit"); ("", VInt 0)]
           idle_publisher eq_refl).
Defined.

(** Both ways of shutting a relay down send what its serve loop takes
    as the exit message. The listener that [Publisher.stop] opens
    pushes one message and is closed; the start of a second
    [Publisher.run] whose first [bind] fails pushes one message through
    its temporary socket, whether or not its retry succeeds. A relay
    serving with its event clear that receives either message after any
    messages that are not exit messages relays it and stops, leaving
    what follows unreceived. *)
Theorem shutdown_messages_stop_relay (keyword : string) (before after : list Message)
    (p q : Publisher) (retried_bind listener_bind : bool) :
  event p = false ->
  Forall (fun m => is_exit_message keyword m = false) before ->
  pushed (snd (stop keyword q)) = [exit_message keyword]
  /\ closed (snd (stop keyword q)) = true
  /\ event (fst (stop keyword q)) = true
  /\ temp_messages (startup keyword false retried_bind listener_bind) = [exit_message keyword]
  /\ temp_messages (startup keyword true retried_bind listener_bind) = []
  /\ (exists p', serve keyword (before ++ pushed (snd (stop keyword q)) ++ after) p = (p', after)
                 /\ event p' = true
                 /\ sent p' = sent p ++ before ++ [exit_message keyword])
  /\ (exists p', serve keyword
                   (before ++ temp_messages (startup keyword false retried_bind listener_bind) ++ after) p
                 = (p', after)
                 /\ event p' = true
                 /\ sent p' = sent p ++ before ++ [exit_message keyword]).
Proof.
  intros Hev Hb.
  assert (Ht : temp_messages (startup keyword false retried_bind listener_bind) = [exit_message keyword]).
  { unfold startup. destruct retried_bind, listener_bind; reflexivity. }
  split; [reflexivity|]. split; [reflexivity|]. split; [reflexivity|].
  split; [exact Ht|].
  split; [unfold startup; destruct listener_bind; reflexivity|].
  destruct (serve_until_exit keyword before after p Hev Hb) as (p' & Hs & He & Hsent & _).
  split.
  - exists p'. cbn [stop snd finish publish pushed Listener_init app]. auto.
  - exists p'. rewrite Ht. cbn [app]. auto.
Qed.

Lemma shutdown_messages_stop_relay_witness :
  pushed (snd (stop "exit" idle_publisher)) = [exit_message "exit"]
  /\ closed (snd (stop "exit" idle_publisher)) = true
  /\ event (fst (stop "exit" idle_publisher)) = true
  /\ temp_messages (startup "exit" false true true) = [exit_message "exit"]
  /\ temp_messages (startup "exit" true true true) = []
  /\ (exists p', serve "exit" ([("frame", VInt 1)] ++ pushed (snd (stop "exit" idle_publisher))
                                 ++ [("frame", VInt 2)]) idle_publisher = (p', [("frame", VInt 2)])
                 /\ event p' = true
                 /\ sent p' = sent idle_publisher ++ [("frame", VInt 1)] ++ [exit_message "exit"])
  /\ (exists p', serve "exit" ([("frame", VInt 1)] ++ temp_messages (startup "exit" false true true)
                                 ++ [("frame", VInt 2)]) idle_publisher = (p', [("frame", VInt 2)])
                 /\ event p' = true
                 /\ sent p' = sent idle_publisher ++ [("frame", VInt 1)] ++ [exit_message "exit"]).
Proof.
  refine (shutdown_messages_stop_relay "exit" [("frame", VInt 1)] [("frame", VInt 2)]
            idle_publisher idle_publisher true true eq_refl _).
  repeat constructor.
Defined.

End ShutdownFacts.

(** ** The decorator [make_async_thread] *)

Module DecoratorsFacts.

Import Decorators.

Lemma start_last_snoc (l : list (string * Thread)) (name : string) (t : Thread) :
  start_last (l ++ [(name, t)]) = l ++ [(name, mkThread (target t) true)].
Proof. unfold start_last. rewrite reverse_snoc. now rewrite reverse_involutive. Qed.

(** A call that finds a list under [_threads] appends one started
    thread to that list object and touches nothing else but the log. *)
Lemma func_wrapper_appends (name : string) (self r : nat) (l : list (string * Thread)) (o : Objects) :
  getattr_threads self o = Some (AList r) ->
  lists o !! r = Some l ->
  func_wrapper name self o =
    (Ok tt, mkObjects (<[r := l ++ [running name]]> (lists o)) (class_threads o) (instance_threads o)
                      (next_list o)
                      (logger o ++ [Info ("Starting new thread for " +:+ name)]
                                ++ [Info "In total there are threads"])).
Proof.
  intros Hg Hl. destruct o as [ls ca ia n lg]. cbn [lists class_threads instance_threads next_list logger] in *.
  assert (Hg' : forall ls' lg', getattr_threads self (mkObjects ls' ca ia n lg') = Some (AList r)).
  { intros. exact Hg. }
  unfold func_wrapper, log, bind, threads_list, update_list, modify.
  repeat first [ rewrite Hg' | rewrite Hl | rewrite lookup_alter_eq
               | progress cbn [lists class_threads instance_threads next_list logger fmap option_fmap option_map]
               | progress cbv beta iota ].
  f_equal. f_equal.
  - apply map_eq. intros k. destruct (decide (k = r)) as [->|Hk].
    + rewrite !lookup_alter_eq, lookup_insert_eq, Hl. cbn. now rewrite start_last_snoc.
    + now rewrite !lookup_alter_ne, lookup_insert_ne by congruence.
  - now rewrite <- app_assoc.
Qed.

(** A run of calls that finds a list under [_threads] extends that list
    object by one started thread per call, in the order of the calls. *)
Lemma calls_append (names : list string) (self r : nat) (l : list (string * Thread)) (o : Objects) :
  getattr_threads self o = Some (AList r) ->
  lists o !! r = Some l ->
  exists o',
    calls names self o = (Ok tt, o')
    /\ lists o' = <[r := l ++ map running names]> (lists o)
    /\ class_threads o' = class_threads o
    /\ instance_threads o' = instance_threads o
    /\ next_list o' = next_list o.
Proof.
  revert l o. induction names as [|name rest IH]; intros l o Hg Hl.
  - exists o. cbn. rewrite app_nil_r, insert_id by exact Hl. auto.
  - cbn [calls]. unfold bind. rewrite (func_wrapper_appends name self r l o Hg Hl).
    edestruct (IH (l ++ [running name])) as (o' & Hc & H1 & H2 & H3 & H4);
      [ | | exists o'; split; [exact Hc|] ].
    + exact Hg.
    + cbn. apply lookup_insert_eq.
    + cbn in H1, H2, H3, H4. rewrite H1, H2, H3, H4.
      rewrite insert_insert_eq, <- app_assoc. auto.
Qed.

(** On an instance that has no [_threads], neither of its own nor from
    its class, the first decorated call creates a list on the instance
    itself; after any run of decorated calls that list holds one
    started thread per call, in call order, and what every other
    instance sees under [_threads] is what it saw before. *)
Theorem decorated_calls_fill_own_list (names : list string) (self : nat) (o : Objects) :
  getattr_threads self o = None ->
  allocated o ->
  names <> [] ->
  exists o',
    calls names self o = (Ok tt, o')
    /\ threads_of self o' = Some (map running names)
    /\ instance_threads o' !! self = Some (AList (next_list o))
    /\ class_threads o' = class_threads o
    /\ forall other, other <> self -> threads_of other o' = threads_of other o.
Proof.
  intros Hg (Hal1 & Hal2 & Hal3) Hn. destruct names as [|name rest]; [congruence|].
  destruct o as [ls ca ia n lg]. cbn [lists class_threads instance_threads next_list logger] in *.
  assert (Hi : ia !! self = None /\ ca = None).
  { unfold getattr_threads in Hg. cbn in Hg. destruct (ia !! self); [discriminate|]. auto. }
  destruct Hi as [Hi ->].
  set (o1 := mkObjects (<[n := [running name]]> (<[n := []]> ls)) None (<[self := AList n]> ia) (S n)
                       ((lg ++ [Info ("Starting new thread for " +:+ name)])
                        ++ [Info "In total there are threads"])).
  assert (E : func_wrapper name self (mkObjects ls None ia n lg) = (Ok tt, o1)).
  { unfold func_wrapper, log, bind, threads_list, update_list, setattr_new_list, modify, getattr_threads.
    repeat first [ rewrite Hi | rewrite lookup_insert_eq | rewrite lookup_alter_eq
                 | progress cbn [lists class_threads instance_threads next_list logger
                                 fmap option_fmap option_map app]
                 | progress cbv beta iota ].
    unfold o1. f_equal. f_equal.
    apply map_eq. intros k. destruct (decide (k = n)) as [->|Hk].
    - now rewrite !lookup_alter_eq, !lookup_insert_eq.
    - now rewrite !lookup_alter_ne, !lookup_insert_ne by congruence. }
  cbn [calls]. unfold bind. rewrite E.
  destruct (calls_append rest self n [running name] o1) as (o' & Hc & H1 & H2 & H3 & H4).
  { unfold getattr_threads, o1. cbn. now rewrite lookup_insert_eq. }
  { unfold o1. cbn. apply lookup_insert_eq. }
  exists o'. split; [exact Hc|].
  assert (Hself : instance_threads o' !! self = Some (AList n)).
  { rewrite H3. unfold o1. cbn. apply lookup_insert_eq. }
  split.
  { unfold threads_of, getattr_threads. rewrite Hself, H1. now rewrite lookup_insert_eq. }
  split; [exact Hself|].
  split; [rewrite H2; reflexivity|].
  intros other Ho. unfold threads_of, getattr_threads. rewrite H3, H2. unfold o1.
  cbn [instance_threads class_threads lists]. rewrite lookup_insert_ne by congruence.
  destruct (ia !! other) as [[r'|v]|] eqn:Hoth; [|reflexivity|reflexivity].
  assert (r' < n) by (eapply Hal2; exact Hoth).
  rewrite H1. unfold o1. cbn [lists]. now rewrite !lookup_insert_ne by lia.
Qed.

Lemma decorated_calls_fill_own_list_witness :
  exists o',
    calls ["continuous_reads"; "background"] 0 no_threads = (Ok tt, o')
    /\ threads_of 0 o' = Some (map running ["continuous_reads"; "background"])
    /\ instance_threads o' !! 0 = Some (AList (next_list no_threads))
    /\ class_threads o' = class_threads no_threads
    /\ forall other, other <> 0 -> threads_of other o' = threads_of other no_threads.
Proof.
  refine (decorated_calls_fill_own_list ["continuous_reads"; "background"] 0 no_threads eq_refl _ _).
  - unfold allocated, no_threads. cbn. repeat split.
    + intros r [x Hx]. now rewrite lookup_empty in Hx.
    + intros i r Hx. now rewrite lookup_empty in Hx.
    + discriminate.
  - discriminate.
Defined.

(** When the class defines [_threads] as a list and the instances have
    no attribute of their own, the wrapper never creates a list: every
    decorated call appends to the list object of the class, so the
    threads started on one instance are what any other such instance
    sees under [_threads]. *)
Theorem class_level_list_is_shared (names : list string) (self other r : nat)
    (l : list (string * Thread)) (o : Objects) :
  class_threads o = Some (AList r) ->
  lists o !! r = Some l ->
  instance_threads o !! self = None ->
  instance_threads o !! other = None ->
  exists o',
    calls names self o = (Ok tt, o')
    /\ threads_of self o' = Some (l ++ map running names)
    /\ threads_of other o' = Some (l ++ map running names)
    /\ instance_threads o' = instance_threads o
    /\ next_list o' = next_list o.
Proof.
  intros Hc Hl Hs Ho.
  destruct (calls_append names self r l o) as (o' & Hcalls & H1 & H2 & H3 & H4).
  { unfold getattr_threads. now rewrite Hs. }
  { exact Hl. }
  exists o'. split; [exact Hcalls|].
  unfold threads_of, getattr_threads. rewrite H3, Hs, Ho, H2, Hc, H1, lookup_insert_eq. auto.
Qed.

Lemma class_level_list_is_shared_witness :
  exists o',
    calls ["continuous_reads"] 0 class_level_list = (Ok tt, o')
    /\ threads_of 0 o' = Some ([] ++ map running ["continuous_reads"])
    /\ threads_of 1 o' = Some ([] ++ map running ["continuous_reads"])
    /\ instance_threads o' = instance_threads class_level_list
    /\ next_list o' = next_list class_level_list.
Proof.
  exact (class_level_list_is_shared ["continuous_reads"] 0 1 0 [] class_level_list
           eq_refl eq_refl eq_refl eq_refl).
Defined.

(** When [_threads] holds something that is not a list, the wrapper
    raises [ValueError] before any thread is created: apart from the
    first log entry nothing has changed. *)
Theorem non_list_threads_raises (name : string) (self : nat) (v : PyVal) (o : Objects) :
  getattr_threads self o = Some (AValue v) ->
  func_wrapper name self o =
    (Raise (ValueError "The variable _threads must be a list in order to store a new Thread in it"),
     mkObjects (lists o) (class_threads o) (instance_threads o) (next_list o)
               (logger o ++ [Info ("Starting new thread for " +:+ name)])).
Proof.
  intros Hg. destruct o as [ls ca ia n lg].
  assert (Hg' : forall lg', getattr_threads self (mkObjects ls ca ia n lg') = Some (AValue v)).
  { intros. exact Hg. }
  unfold func_wrapper, log, bind, modify. cbv beta. now rewrite Hg'.
Qed.

Lemma non_list_threads_raises_witness :
  func_wrapper "continuous_reads" 0 (mkObjects ∅ (Some (AValue VNone)) ∅ 0 []) =
    (Raise (ValueError "The variable _threads must be a list in order to store a new Thread in it"),
     mkObjects ∅ (Some (AValue VNone)) ∅ 0 ([] ++ [Info ("Starting new thread for " +:+ "continuous_reads")])).
Proof.
  exact (non_list_threads_raises "continuous_reads" 0 VNone (mkObjects ∅ (Some (AValue VNone)) ∅ 0 []) eq_refl).
Defined.

End DecoratorsFacts.

(** ** Acquisition *)

Module AcquisitionFacts.

Import Props Basler Acquisition PropsFacts BaslerFacts.

Lemma py_eq_VStr (a b : string) : py_eq (VStr a) (VStr b) = String.eqb a b.
Proof. reflexivity. Qed.

Lemma py_eq_VMode (a b : Mode) : a <> b -> py_eq (VMode a) (VMode b) = false.
Proof. intros H. apply py_eq_mode_false. congruence. Qed.

(** [trigger_camera] up to the choice of the grab strategy. *)
Lemma trigger_camera_known (c : Camera) (d : InstantCamera) (m : Mode) :
  _driver c = Some d ->
  _acquisition_mode c = VMode m ->
  exists c1, trigger_camera c = (Ok tt, c1)
    /\ _driver c1 = Some (with_grabbing true (Some (strategy_for m)) d)
    /\ triggers (sdk c1) = S (triggers (sdk c))
    /\ current_dtype c1 = dtype_for (PixelFormat (regs d)) (current_dtype c)
    /\ _acquisition_mode c1 = VMode m
    /\ free_run_running c1 = free_run_running c.
Proof.
  intros H Hm. destruct c, d as [dev rg op g st sw]. flat_all. subst.
  unfold trigger_camera, dtype_for. rewrite <- !py_eq_VStr.
  destruct g; destruct m;
    destruct (py_eq (VStr (PixelFormat rg)) (VStr "Mono8")) eqn:E8;
    destruct (py_eq (VStr (PixelFormat rg)) (VStr "Mono12")) eqn:E12;
    (eexists; split;
     [ do 3 go; go_by get_acquisition_mode_run;
       rewrite ?py_eq_refl, ?(py_eq_VMode MODE_SINGLE_SHOT MODE_CONTINUOUS),
               ?(py_eq_VMode MODE_LAST MODE_CONTINUOUS), ?(py_eq_VMode MODE_LAST MODE_SINGLE_SHOT)
         by discriminate;
       go;
       go_by get_pixel_format_run; rewrite E8;
       lazymatch type of E8 with
       | _ = true => go; go; reflexivity
       | _ = false =>
           erewrite bind_ok by (go_by get_pixel_format_run; rewrite E12; reflexivity);
           flat; go; reflexivity
       end
     | flat; rewrite ?triggers_snoc; cbn [is_trigger strategy_for]; repeat split; lia ]).
Qed.

Lemma trigger_camera_unknown (c : Camera) (d : InstantCamera) :
  _driver c = Some d ->
  (forall m, _acquisition_mode c <> VMode m) ->
  exists c1, trigger_camera c = (Raise (CameraException "Unknown acquisition mode"), c1)
    /\ _driver c1 = Some (with_grabbing false (strategy d) d)
    /\ triggers (sdk c1) = triggers (sdk c)
    /\ current_dtype c1 = current_dtype c
    /\ _acquisition_mode c1 = _acquisition_mode c.
Proof.
  intros H Hm. destruct c, d as [dev rg op g st sw]. flat_all. subst.
  unfold trigger_camera.
  destruct g;
    (eexists; split;
     [ do 3 go; go_by get_acquisition_mode_run;
       rewrite !(proj2 (py_eq_mode_false _ _) (Hm _));
       erewrite bind_raise by reflexivity; reflexivity
     | flat; rewrite ?triggers_snoc; cbn [is_trigger]; repeat split; lia ]).
Qed.

(** On a connected camera [trigger_camera] stops any grab in progress
    and then goes by the stored mode: for each of the three modes it
    starts grabbing with the strategy of that mode, sets the element
    type from the pixel format of the device (left alone for a format
    other than Mono8 and Mono12) and issues exactly one software
    trigger; for a stored value that is none of the three modes it
    raises the camera exception, having stopped the grab, and issues no
    trigger. *)
Theorem trigger_camera_by_mode (c : Camera) (d : InstantCamera) :
  _driver c = Some d ->
  (forall m, _acquisition_mode c = VMode m ->
     exists c1, trigger_camera c = (Ok tt, c1)
       /\ _driver c1 = Some (with_grabbing true (Some (strategy_for m)) d)
       /\ triggers (sdk c1) = S (triggers (sdk c))
       /\ current_dtype c1 = dtype_for (PixelFormat (regs d)) (current_dtype c)
       /\ _acquisition_mode c1 = VMode m)
  /\ ((forall m, _acquisition_mode c <> VMode m) ->
      exists c1, trigger_camera c = (Raise (CameraException "Unknown acquisition mode"), c1)
        /\ _driver c1 = Some (with_grabbing false (strategy d) d)
        /\ triggers (sdk c1) = triggers (sdk c)
        /\ current_dtype c1 = current_dtype c).
Proof.
  intros H. split.
  - intros m Hm. destruct (trigger_camera_known c d m H Hm) as (c1 & E & H1 & H2 & H3 & H4 & _).
    exists c1. auto.
  - intros Hm. destruct (trigger_camera_unknown c d H Hm) as (c1 & E & H1 & H2 & H3 & _).
    exists c1. auto.
Qed.

Lemma trigger_camera_by_mode_witness :
  exists c1, trigger_camera (bench_camera_in MODE_LAST) = (Ok tt, c1)
    /\ _driver c1 = Some (with_grabbing true (Some (strategy_for MODE_LAST)) bench_driver)
    /\ triggers (sdk c1) = S (triggers (sdk (bench_camera_in MODE_LAST)))
    /\ current_dtype c1 = dtype_for (PixelFormat (regs bench_driver)) (current_dtype (bench_camera_in MODE_LAST))
    /\ _acquisition_mode c1 = VMode MODE_LAST.
Proof.
  exact (proj1 (trigger_camera_by_mode (bench_camera_in MODE_LAST) bench_driver eq_refl) MODE_LAST eq_refl).
Defined.

(** *** Connecting *)

(** With no matching device the loop of [initialize] does nothing. *)
Lemma bind_devices_no_match (devices : list Device) (c : Camera) :
  filter (fun dev => matches (camera c) dev = true) devices = [] ->
  bind_devices devices c = (Ok tt, c).
Proof.
  induction devices as [|dev devices IH]; [reflexivity|]. intros Hf.
  destruct (matches (camera c) dev) eqn:Hm.
  - rewrite filter_cons_True in Hf by exact Hm. discriminate.
  - rewrite filter_cons_False in Hf by (rewrite Hm; discriminate).
    cbn [bind_devices]. erewrite bind_ok by (cbv beta; rewrite Hm; reflexivity). now apply IH.
Qed.

Section Initialize.

Variable fetch_all : Registers -> gmap string PyVal -> gmap string PyVal.
Variable update : gmap string PyVal -> gmap string PyVal -> gmap string PyVal.
Variable apply_all : gmap string PyVal -> Registers -> Registers.

(** On a camera without a driver handle, [initialize] raises the
    camera-not-found error when no enumerated device has a friendly
    name containing the identifier: with the message of the empty bus
    when nothing was enumerated, with the message naming the identifier
    otherwise. The only SDK call made is the enumeration, the handle
    stays unset and the configuration store is not touched. *)
Theorem initialize_not_found (devices : list Device) (c : Camera) :
  filter (fun dev => matches (camera c) dev = true) devices = [] ->
  _driver c = None ->
  exists c',
    initialize fetch_all update apply_all devices c =
      (Raise (CameraNotFound match devices with
                             | [] => "No camera found"
                             | _ :: _ => not_found_message (camera c)
                             end), c')
    /\ _driver c' = None
    /\ sdk c' = sdk c ++ [Call_EnumerateDevices]
    /\ config c' = config c
    /\ friendly_name c' = friendly_name c.
Proof.
  intros Hf Hd. unfold initialize. destruct c. flat_all. subst.
  destruct devices as [|d0 devices].
  - eexists. split; [do 2 go; erewrite bind_raise by reflexivity; reflexivity|].
    flat. auto.
  - eexists. split.
    + do 3 go. erewrite bind_ok by (apply bind_devices_no_match; exact Hf).
      erewrite bind_raise by reflexivity. reflexivity.
    + flat. auto.
Qed.

(** The not-found check of [initialize] reads the driver handle, not
    the outcome of the loop: called on a camera that still holds a
    handle, with devices on the bus none of which matches, [initialize]
    raises nothing. It attaches and opens no device, keeps the handle
    of the device attached before, and registers the software-trigger
    configuration on it. *)
Theorem initialize_keeps_stale_handle (devices : list Device) (c : Camera) (d : InstantCamera) :
  devices <> [] ->
  filter (fun dev => matches (camera c) dev = true) devices = [] ->
  _driver c = Some d ->
  exists c' h,
    initialize fetch_all update apply_all devices c = (Ok tt, c')
    /\ _driver c' = Some h
    /\ attached h = attached d
    /\ software_trigger h = true
    /\ attached_devices (sdk c') = attached_devices (sdk c)
    /\ opened_devices (sdk c') = opened_devices (sdk c)
    /\ friendly_name c' = friendly_name c.
Proof.
  intros Hne Hf Hd. unfold initialize. destruct c, d as [dev rg op g st sw]. flat_all. subst.
  destruct devices as [|d0 devices]; [congruence|].
  do 3 go. erewrite bind_ok by (apply bind_devices_no_match; exact Hf).
  do 6 go.
  destruct initial_config0 as [initial|];
    (eexists _, _; split;
     [ erewrite bind_ok by reflexivity; reflexivity
     | flat; rewrite ?attached_devices_app, ?opened_devices_app; cbn; rewrite ?app_nil_r;
       repeat split ]).
Qed.

End Initialize.

Lemma initialize_not_found_witness :
  exists c',
    initialize keep_store merge_store keep_registers [other_device] unconnected_camera =
      (Raise (CameraNotFound match [other_device] with
                             | [] => "No camera found"
                             | _ :: _ => not_found_message (camera unconnected_camera)
                             end), c')
    /\ _driver c' = None
    /\ sdk c' = sdk unconnected_camera ++ [Call_EnumerateDevices]
    /\ config c' = config unconnected_camera
    /\ friendly_name c' = friendly_name unconnected_camera.
Proof.
  refine (initialize_not_found keep_store merge_store keep_registers [other_device] unconnected_camera _ eq_refl).
  vm_compute. reflexivity.
Defined.

Lemma initialize_keeps_stale_handle_witness :
  exists c' h,
    initialize keep_store merge_store keep_registers [other_device] bench_camera = (Ok tt, c')
    /\ _driver c' = Some h
    /\ attached h = attached bench_driver
    /\ software_trigger h = true
    /\ attached_devices (sdk c') = attached_devices (sdk bench_camera)
    /\ opened_devices (sdk c') = opened_devices (sdk bench_camera)
    /\ friendly_name c' = friendly_name bench_camera.
Proof.
  refine (initialize_keeps_stale_handle keep_store merge_store keep_registers [other_device] bench_camera
            bench_driver _ _ eq_refl).
  - discriminate.
  - vm_compute. reflexivity.
Defined.

(** *** Assigning a mode the setter does not take *)

(** On a connected camera, assigning to [acquisition_mode] a value that
    is neither the continuous nor the single-shot mode returns
    normally and leaves the stored mode as it was; yet the descriptor
    caches the assigned value and the store records it under the
    descriptor's name. The next read of [acquisition_mode] returns the
    stored mode, not the value assigned, and overwrites that store
    entry with it. *)
Theorem rejected_mode_is_recorded (c : Camera) (d : InstantCamera) (v : PyVal) :
  _driver c = Some d ->
  v <> VMode MODE_CONTINUOUS ->
  v <> VMode MODE_SINGLE_SHOT ->
  exists c1,
    assign_acquisition_mode v c = (Ok tt, c1)
    /\ _acquisition_mode c1 = _acquisition_mode c
    /\ acquisition_mode_value c1 = v
    /\ config c1 !! "" = Some v
    /\ fst (get_acquisition_mode c1) = Ok (_acquisition_mode c)
    /\ config (snd (get_acquisition_mode c1)) !! "" = Some (_acquisition_mode c).
Proof.
  intros Hd Hc Hs.
  destruct (acquisition_mode_fset_run v c d Hd) as (c0 & E & _ & _ & _ & Hm).
  unfold stored_mode in Hm.
  rewrite (proj2 (py_eq_mode_false _ _) Hc), (proj2 (py_eq_mode_false _ _) Hs) in Hm.
  eexists. split; [rewrite assign_acquisition_mode_unfold, E; reflexivity|].
  rewrite get_acquisition_mode_run. destruct c0. flat_all. subst.
  cbn [fst snd]. flat. rewrite !lookup_insert_eq. auto 10.
Qed.

Lemma rejected_mode_is_recorded_witness :
  exists c1,
    assign_acquisition_mode (VMode MODE_LAST) bench_camera = (Ok tt, c1)
    /\ _acquisition_mode c1 = _acquisition_mode bench_camera
    /\ acquisition_mode_value c1 = VMode MODE_LAST
    /\ config c1 !! "" = Some (VMode MODE_LAST)
    /\ fst (get_acquisition_mode c1) = Ok (_acquisition_mode bench_camera)
    /\ config (snd (get_acquisition_mode c1)) !! "" = Some (_acquisition_mode bench_camera).
Proof.
  refine (rejected_mode_is_recorded bench_camera bench_driver (VMode MODE_LAST) eq_refl _ _); discriminate.
Defined.

(** *** Free run *)

Lemma stop_free_run_run (c : Camera) (d : InstantCamera) :
  _driver c = Some d ->
  exists c1, stop_free_run c = (Ok tt, c1)
    /\ _driver c1 = Some (with_grabbing false (strategy d) d)
    /\ free_run_running c1 = false
    /\ triggers (sdk c1) = triggers (sdk c)
    /\ _acquisition_mode c1 = _acquisition_mode c.
Proof.
  intros H. destruct c, d as [dev rg op g st sw]. flat_all. subst.
  unfold stop_free_run. eexists. split; [go; reflexivity|].
  flat. rewrite ?triggers_snoc. cbn [is_trigger]. repeat split. lia.
Qed.

(** [stop_free_run] re-arms [start_free_run]: on a connected camera
    that is not in free run, starting, stopping and starting again
    returns normally each time; the stop clears the running flag and
    ends the grab without a trigger, and the second start triggers
    again, so that two triggers are issued in all and the camera ends up
    grabbing in continuous mode with the flag set. *)
Theorem stop_free_run_rearms (c : Camera) (d : InstantCamera) :
  _driver c = Some d ->
  free_run_running c = false ->
  exists c1 c2 c3,
    start_free_run c = (Ok tt, c1)
    /\ stop_free_run c1 = (Ok tt, c2)
    /\ start_free_run c2 = (Ok tt, c3)
    /\ free_run_running c2 = false
    /\ grabbing <$> _driver c2 = Some false
    /\ triggers (sdk c2) = S (triggers (sdk c))
    /\ free_run_running c3 = true
    /\ grabbing <$> _driver c3 = Some true
    /\ _acquisition_mode c3 = VMode MODE_CONTINUOUS
    /\ triggers (sdk c3) = S (S (triggers (sdk c))).
Proof.
  intros H Hr.
  destruct (start_free_run_first c d H Hr) as (c1 & E1 & Ht1 & Hf1 & Hm1 & Hd1).
  destruct (stop_free_run_run c1 _ Hd1) as (c2 & E2 & Hd2 & Hf2 & Ht2 & Hm2).
  destruct (start_free_run_first c2 _ Hd2 Hf2) as (c3 & E3 & Ht3 & Hf3 & Hm3 & Hd3).
  exists c1, c2, c3. rewrite Hd2, Hd3, Ht3, Ht2, Ht1. auto 12.
Qed.

Lemma stop_free_run_rearms_witness :
  exists c1 c2 c3,
    start_free_run bench_camera = (Ok tt, c1)
    /\ stop_free_run c1 = (Ok tt, c2)
    /\ start_free_run c2 = (Ok tt, c3)
    /\ free_run_running c2 = false
    /\ grabbing <$> _driver c2 = Some false
    /\ triggers (sdk c2) = S (triggers (sdk bench_camera))
    /\ free_run_running c3 = true
    /\ grabbing <$> _driver c3 = Some true
    /\ _acquisition_mode c3 = VMode MODE_CONTINUOUS
    /\ triggers (sdk c3) = S (S (triggers (sdk bench_camera))).
Proof. exact (stop_free_run_rearms bench_camera bench_driver eq_refl eq_refl). Defined.

(** On a camera without a driver handle, [start_free_run] raises the
    attribute error of the first access to the handle, but only after
    it has set the running flag: the flag stays set although nothing
    was triggered. A second [start_free_run] then returns normally,
    adding a log entry and nothing else, and [stop_free_run] raises
    before it reaches the assignment that would clear the flag. *)
Theorem start_free_run_unconnected (c : Camera) :
  _driver c = None ->
  free_run_running c = false ->
  exists c1,
    start_free_run c = (Raise (AttributeError "'NoneType' object has no attribute"), c1)
    /\ free_run_running c1 = true
    /\ sdk c1 = sdk c
    /\ _acquisition_mode c1 = _acquisition_mode c
    /\ start_free_run c1 =
         (Ok tt, set_logger (logger c1 ++ [Info "Trying to start again the free acquisition of camera "]) c1)
    /\ stop_free_run c1 = (Raise (AttributeError "'NoneType' object has no attribute"), c1).
Proof.
  intros H Hr. destruct c. flat_all. subst.
  eexists. split.
  - unfold start_free_run. flat. do 3 go.
    erewrite bind_raise; [reflexivity|].
    rewrite assign_acquisition_mode_unfold.
    rewrite acquisition_mode_fset_unset by reflexivity. flat. reflexivity.
  - flat. repeat split.
Qed.

Lemma start_free_run_unconnected_witness :
  exists c1,
    start_free_run unconnected_camera = (Raise (AttributeError "'NoneType' object has no attribute"), c1)
    /\ free_run_running c1 = true
    /\ sdk c1 = sdk unconnected_camera
    /\ _acquisition_mode c1 = _acquisition_mode unconnected_camera
    /\ start_free_run c1 =
         (Ok tt, set_logger (logger c1 ++ [Info "Trying to start again the free acquisition of camera "]) c1)
    /\ stop_free_run c1 = (Raise (AttributeError "'NoneType' object has no attribute"), c1).
Proof. exact (start_free_run_unconnected unconnected_camera eq_refl eq_refl). Defined.

(** *** Triggers over a sequence of calls *)

Lemma start_free_run_no_driver (c : Camera) :
  _driver c = None ->
  free_run_running c = false ->
  exists c1,
    start_free_run c = (Raise (AttributeError "'NoneType' object has no attribute"), c1)
    /\ sdk c1 = sdk c /\ _driver c1 = None.
Proof.
  intros H Hr. destruct c. flat_all. subst.
  eexists. split.
  - unfold start_free_run. flat. do 3 go.
    erewrite bind_raise; [reflexivity|].
    rewrite assign_acquisition_mode_unfold.
    rewrite acquisition_mode_fset_unset by reflexivity. flat. reflexivity.
  - flat. split; reflexivity.
Qed.

(** What one call does to the number of triggers issued and to the
    device attached. *)
Lemma call_triggers (op : Call) (c : Camera) :
  (triggers (sdk c) <= triggers (sdk (snd (call op c)))
   /\ triggers (sdk (snd (call op c))) <= triggers (sdk c) + (if may_trigger op then 1 else 0))%nat
  /\ attached <$> _driver (snd (call op c)) = attached <$> _driver c.
Proof.
  destruct op as [v| | | |]; cbn [call may_trigger].
  - destruct (_driver c) as [d|] eqn:Hd.
    + destruct (assign_acquisition_mode_run v c d Hd) as (c1 & E & Hd1 & _ & Ht & _).
      rewrite E. cbn [snd]. rewrite Hd1, Ht. split; [lia|reflexivity].
    + rewrite assign_acquisition_mode_unfold, acquisition_mode_fset_unset by exact Hd.
      destruct c. flat_all. subst. cbn [snd]. flat. split; [lia|reflexivity].
  - destruct (free_run_running c) eqn:Hr.
    + rewrite start_free_run_running by exact Hr. destruct c. cbn [snd]. flat. split; [lia|reflexivity].
    + destruct (_driver c) as [d|] eqn:Hd.
      * destruct (start_free_run_first c d Hd Hr) as (c1 & E & Ht & _ & _ & Hd1).
        rewrite E. cbn [snd]. rewrite Hd1, Ht. destruct d. split; [lia|reflexivity].
      * destruct (start_free_run_no_driver c Hd Hr) as (c1 & E & Hs & Hd1).
        rewrite E. cbn [snd]. rewrite Hs, Hd1. split; [lia|reflexivity].
  - destruct (_driver c) as [d|] eqn:Hd.
    + destruct (stop_free_run_run c d Hd) as (c1 & E & Hd1 & _ & Ht & _).
      rewrite E. cbn [snd]. rewrite Hd1, Ht. destruct d. split; [lia|reflexivity].
    + destruct c. flat_all. subst. unfold stop_free_run.
      erewrite bind_raise by reflexivity. cbn [snd]. flat. split; [lia|reflexivity].
  - destruct (_driver c) as [d|] eqn:Hd.
    + destruct c, d. flat_all. subst. unfold stop_camera, StopGrabbing.
      do 2 go. unfold put_driver, modify. cbn [snd]. flat.
      rewrite triggers_snoc. cbn [is_trigger]. split; [lia|reflexivity].
    + destruct c. flat_all. subst. unfold stop_camera, StopGrabbing.
      erewrite bind_raise by reflexivity. cbn [snd]. flat. split; [lia|reflexivity].
  - destruct (_driver c) as [d|] eqn:Hd.
    + destruct (_acquisition_mode c) as [ |b|z|q|s|q u|m] eqn:Hm.
      7:{ destruct (trigger_camera_known c d m Hd Hm) as (c1 & E & Hd1 & Ht & _).
          rewrite E. cbn [snd]. rewrite Hd1, Ht. destruct d. split; [lia|reflexivity]. }
      all: destruct (trigger_camera_unknown c d Hd) as (c1 & E & Hd1 & Ht & _);
        [ intros m; rewrite Hm; discriminate
        | rewrite E; cbn [snd]; rewrite Hd1, Ht; destruct d; split; [lia|reflexivity] ].
    + destruct c. flat_all. subst. unfold trigger_camera.
      erewrite bind_raise by reflexivity. cbn [snd]. flat. split; [lia|reflexivity].
Qed.

(** Over any sequence of assignments to [acquisition_mode] and calls
    of [start_free_run], [stop_free_run], [stop_camera] and
    [trigger_camera], each made on the instance the one before left,
    also when it raised: the number of software triggers issued never
    goes down and grows by at most one per call of [start_free_run] or
    [trigger_camera], the other calls issuing none; and the driver
    handle stays attached to the same device, or stays unset. *)
Theorem triggers_bounded_by_calls (ops : list Call) (c : Camera) :
  (triggers (sdk c) <= triggers (sdk (run ops c))
   /\ triggers (sdk (run ops c))
      <= triggers (sdk c) + length (filter (fun op => may_trigger op = true) ops))%nat
  /\ attached <$> _driver (run ops c) = attached <$> _driver c.
Proof.
  revert c. induction ops as [|op ops IH]; intros c.
  - cbn. split; [lia|reflexivity].
  - unfold run. cbn [fold_left]. fold (run ops (snd (call op c))).
    destruct (IH (snd (call op c))) as [[H1 H2] H3].
    destruct (call_triggers op c) as [[H4 H5] H6].
    rewrite H3, H6. split; [|reflexivity].
    destruct (may_trigger op) eqn:Hm.
    + rewrite filter_cons_True by exact Hm. cbn [length]. lia.
    + rewrite filter_cons_False by (rewrite Hm; discriminate). lia.
Qed.

(** *** The timeout of a retrieval *)

(** With an exposure of a whole number [x] of its unit cached,
    [read_camera] waits for a frame 100 ms longer than the exposure in
    whole milliseconds, rounded towards zero: [x quot 1000 + 100] for
    microseconds, [x + 100] for milliseconds, [1000 x + 100] for
    seconds. The device is not asked. *)
Theorem retrieve_timeout_of_exposure (c : Camera) (x : Z) (u : TimeUnit) :
  config c !! "exposure" = Some (VQuantity (QArith_base.inject_Z x) u) ->
  retrieve_timeout c =
    (Ok (match u with
         | us => Z.quot x 1000
         | ms => x
         | sec => x * 1000
         end + 100)%Z,
     set_config (<["" := VQuantity (QArith_base.inject_Z x) u]> (config c)) c).
Proof.
  intros Hc. unfold retrieve_timeout.
  erewrite bind_ok.
  2:{ rewrite get_exposure_unfold, (exposure_fget_cached c _ Hc) by discriminate. reflexivity. }
  unfold m_as, py_int, ret.
  cbn [microseconds QArith_base.Qdiv QArith_base.Qmult QArith_base.Qinv QArith_base.inject_Z
       QArith_base.Qnum QArith_base.Qden].
  do 3 f_equal. destruct u; cbn.
  - now rewrite !Z.mul_1_r.
  - rewrite Z.mul_1_r. apply Z.quot_mul. discriminate.
  - rewrite Z.mul_1_r. replace (x * 1000000)%Z with ((x * 1000) * 1000)%Z by lia.
    apply Z.quot_mul. discriminate.
Qed.

Lemma retrieve_timeout_of_exposure_witness :
  retrieve_timeout (bench_camera_in MODE_SINGLE_SHOT) =
    (Ok (match us with
         | us => Z.quot 20000 1000
         | ms => 20000
         | sec => 20000 * 1000
         end + 100)%Z,
     set_config (<["" := VQuantity (QArith_base.inject_Z 20000) us]> (config (bench_camera_in MODE_SINGLE_SHOT)))
                (bench_camera_in MODE_SINGLE_SHOT)).
Proof.
  refine (retrieve_timeout_of_exposure (bench_camera_in MODE_SINGLE_SHOT) 20000 us _).
  vm_compute. reflexivity.
Defined.

(** *** Reading frames *)

Section Reading.

Variable transposed : Array -> Array.
Variable zeros : Z -> Z -> Dtype -> Array.
Variable fill : Array -> Array -> Array.

(** In single-shot and in "last" mode, with a driver handle and an
    exposure cached, [read_camera] returns normally after exactly one
    retrieval that returns on timeout: the list it returns holds the
    transposed frame of the next grab result when that grab succeeded
    and is empty otherwise (failed grab, or nothing within the
    timeout); the cached frame is replaced only in the first case; and
    the grab is stopped in single-shot mode, left as it was in "last"
    mode. *)
Theorem read_camera_single_frame (c : Camera) (d : InstantCamera) (m : Q) (u : TimeUnit) (mode : Mode) :
  _driver c = Some d ->
  _acquisition_mode c = VMode mode ->
  mode <> MODE_CONTINUOUS ->
  config c !! "exposure" = Some (VQuantity m u) ->
  exists c',
    read_camera transposed zeros fill c
      = (Ok (map transposed (delivered [hd NoResult (results (regs d))])), c')
    /\ temp_image c' = match hd NoResult (results (regs d)) with
                       | Delivered a => Some (transposed a)
                       | _ => temp_image c
                       end
    /\ retrievals (sdk c') = S (retrievals (sdk c))
    /\ triggers (sdk c') = triggers (sdk c)
    /\ grabbing <$> _driver c' = Some (match mode with MODE_SINGLE_SHOT => false | _ => grabbing d end)
    /\ (fun h => results (regs h)) <$> _driver c' = Some (tl (results (regs d))).
Proof.
  intros Hd Hm Hmode Hc. destruct c, d as [dev [et pf mnb nrb res] op g st sw]. flat_all. subst.
  unfold read_camera.
  destruct (retrieve_timeout_cached
              (mkCamera camera0 initial_config0 (<["" := VMode mode]> config0)
                 (Some (mkInstantCamera dev (mkRegisters et pf mnb nrb res) op g st sw))
                 friendly_name0 free_run_running0 keep_reading0 fps0 (VMode mode)
                 acquisition_mode_value0 current_dtype0 temp_image0 width0 height0
                 (logger0 ++ [Info "Grabbing mode: "]) sdk0) m u) as (t & Et).
  { flat. rewrite lookup_insert_ne by discriminate. exact Hc. }
  flat_all.
  destruct mode; [|congruence|];
  destruct res as [|[a| |] res];
    (eexists; split;
     [ go_by get_acquisition_mode_run;
       rewrite ?py_eq_refl, ?(py_eq_VMode MODE_LAST MODE_SINGLE_SHOT) by discriminate;
       cbn [orb]; do 2 go;
       erewrite bind_ok by exact Et; flat; go_by RetrieveResult_Return_run;
       cbn [hd tl results]; go;
       rewrite ?py_eq_refl, ?(py_eq_VMode MODE_LAST MODE_SINGLE_SHOT) by discriminate;
       cbv iota;
       try (do 3 go); try go; reflexivity
     | flat; rewrite ?retrievals_snoc, ?triggers_snoc; cbn [is_retrieval is_trigger fmap option_fmap option_map];
       flat; repeat split; lia ]).
Qed.

(** A retrieval that throws on timeout hands out the next grab result
    when there is one. *)
Lemma RetrieveResult_Throw_run (c : Camera) (d : InstantCamera) (t : Z) (o : GrabOutcome)
    (rest : list GrabOutcome) :
  _driver c = Some d ->
  results (regs d) = o :: rest ->
  o <> NoResult ->
  RetrieveResult t TimeoutHandling_ThrowException c =
    (Ok o,
     set_driver
       (Some (with_regs (mkRegisters (ExposureTime (regs d)) (PixelFormat (regs d))
                                     (MaxNumBuffer (regs d)) (NumReadyBuffers (regs d)) rest) d))
       (set_sdk (sdk c ++ [Call_RetrieveResult t TimeoutHandling_ThrowException]) c)).
Proof.
  intros H Hr Ho. destruct c, d as [dev [et pf mnb nrb res] op g st sw]. flat_all.
  cbn [results] in Hr. subst.
  unfold RetrieveResult. do 2 go. cbv zeta. flat. go. cbn [hd tl results].
  destruct o; [reflexivity|reflexivity|congruence].
Qed.

(** With nothing to hand out within the timeout, it raises. *)
Lemma RetrieveResult_Throw_timeout (c : Camera) (d : InstantCamera) (t : Z) :
  _driver c = Some d ->
  hd NoResult (results (regs d)) = NoResult ->
  RetrieveResult t TimeoutHandling_ThrowException c =
    (Raise TimeoutException,
     set_driver
       (Some (with_regs (mkRegisters (ExposureTime (regs d)) (PixelFormat (regs d))
                                     (MaxNumBuffer (regs d)) (NumReadyBuffers (regs d))
                                     (tl (results (regs d)))) d))
       (set_sdk (sdk c ++ [Call_RetrieveResult t TimeoutHandling_ThrowException]) c)).
Proof.
  intros H Hr. destruct c, d as [dev [et pf mnb nrb res] op g st sw]. flat_all.
  cbn [results] in Hr. subst.
  unfold RetrieveResult. do 2 go. cbv zeta. flat. go. cbn [results]. rewrite Hr. reflexivity.
Qed.

(** The loop of the continuous branch, over grab results none of which
    is a timeout: every successful grab is written into the one buffer,
    every failed grab is logged and skipped. *)
Lemma drain_run (m : Q) (u : TimeUnit) (outcomes rest : list GrabOutcome) :
  Forall (fun o => o <> NoResult) outcomes ->
  forall (buffer : Array) (k : nat) (c : Camera) (d : InstantCamera),
  _driver c = Some d ->
  results (regs d) = outcomes ++ rest ->
  config c !! "exposure" = Some (VQuantity m u) ->
  exists c',
    drain transposed fill (length outcomes) buffer k c
      = (Ok (written transposed fill (delivered outcomes) buffer, (k + length (delivered outcomes))%nat), c')
    /\ _driver c' = Some (with_regs (mkRegisters (ExposureTime (regs d)) (PixelFormat (regs d))
                                                 (MaxNumBuffer (regs d)) (NumReadyBuffers (regs d)) rest) d)
    /\ config c' !! "exposure" = Some (VQuantity m u)
    /\ retrievals (sdk c') = (retrievals (sdk c) + length outcomes)%nat
    /\ triggers (sdk c') = triggers (sdk c)
    /\ temp_image c' = temp_image c.
Proof.
  induction 1 as [|o outcomes Ho Hrest IH]; intros buffer k c d Hd Hr Hc.
  - exists c. cbn. rewrite !Nat.add_0_r.
    destruct d as [dev [et pf mnb nrb res] op g st sw]. flat_all. cbn [results app] in Hr. subst. auto 10.
  - cbn [length drain].
    destruct (retrieve_timeout_cached c m u Hc) as (t & Et).
    destruct c, d as [dev [et pf mnb nrb res] op g st sw]. flat_all. cbn [results] in Hr. subst.
    go. erewrite bind_ok by exact Et. flat.
    erewrite bind_ok
      by (eapply (RetrieveResult_Throw_run _ _ _ o (outcomes ++ rest)); [reflexivity|reflexivity|exact Ho]).
    flat. cbn [ExposureTime PixelFormat MaxNumBuffer NumReadyBuffers results].
    destruct o as [a| |]; [| |congruence]; go;
      (match goal with |- context [drain _ _ _ ?b ?k' ?s] =>
         destruct (IH b k' s (mkInstantCamera dev (mkRegisters et pf mnb nrb (outcomes ++ rest)) op g st sw))
           as (c' & E & H1 & H2 & H3 & H4 & H5);
         [ reflexivity | reflexivity
         | flat; rewrite lookup_insert_ne by discriminate; exact Hc | ] end);
      exists c'; flat_all; cbn [ExposureTime PixelFormat MaxNumBuffer NumReadyBuffers results] in *;
      rewrite E, H1, H2, H3, H4, H5;
      rewrite !retrievals_snoc, !triggers_snoc;
      cbn [is_retrieval is_trigger];
      (split; [|repeat split; lia]).
    + change (delivered (Delivered a :: outcomes)) with (a :: delivered outcomes).
      cbn [length]. do 3 f_equal. lia.
    + reflexivity.
Qed.

(** The same loop when a retrieval finds nothing within the timeout
    before all ready buffers are read: the timeout exception leaves the
    loop, after the grab results before it have been consumed. *)
Lemma drain_timeout (m : Q) (u : TimeUnit) (outcomes rest : list GrabOutcome) :
  Forall (fun o => o <> NoResult) outcomes ->
  hd NoResult rest = NoResult ->
  forall (j : nat) (buffer : Array) (k : nat) (c : Camera) (d : InstantCamera),
  _driver c = Some d ->
  results (regs d) = outcomes ++ rest ->
  config c !! "exposure" = Some (VQuantity m u) ->
  exists c',
    drain transposed fill (length outcomes + S j) buffer k c = (Raise TimeoutException, c')
    /\ _driver c' = Some (with_regs (mkRegisters (ExposureTime (regs d)) (PixelFormat (regs d))
                                                 (MaxNumBuffer (regs d)) (NumReadyBuffers (regs d))
                                                 (tl rest)) d)
    /\ retrievals (sdk c') = S (retrievals (sdk c) + length outcomes)
    /\ triggers (sdk c') = triggers (sdk c)
    /\ temp_image c' = temp_image c.
Proof.
  intros Hno Hrest. induction Hno as [|o outcomes Ho Hout IH]; intros j buffer k c d Hd Hr Hc.
  - cbn [length Nat.add drain app] in *.
    destruct (retrieve_timeout_cached c m u Hc) as (t & Et).
    destruct c, d as [dev [et pf mnb nrb res] op g st sw]. flat_all. cbn [results] in Hr. subst.
    eexists. split.
    + go. erewrite bind_ok by exact Et. flat.
      erewrite bind_raise by (eapply RetrieveResult_Throw_timeout; [reflexivity|exact Hrest]).
      reflexivity.
    + flat. cbn [ExposureTime PixelFormat MaxNumBuffer NumReadyBuffers results].
      rewrite !retrievals_snoc, !triggers_snoc. cbn [is_retrieval is_trigger]. repeat split; lia.
  - cbn [length Nat.add drain].
    destruct (retrieve_timeout_cached c m u Hc) as (t & Et).
    destruct c, d as [dev [et pf mnb nrb res] op g st sw]. flat_all. cbn [results] in Hr. subst.
    go. erewrite bind_ok by exact Et. flat.
    erewrite bind_ok
      by (eapply (RetrieveResult_Throw_run _ _ _ o (outcomes ++ rest)); [reflexivity|reflexivity|exact Ho]).
    flat. cbn [ExposureTime PixelFormat MaxNumBuffer NumReadyBuffers results].
    destruct o as [a| |]; [| |congruence]; go;
      (match goal with |- context [drain _ _ _ ?b ?k' ?s] =>
         destruct (IH j b k' s (mkInstantCamera dev (mkRegisters et pf mnb nrb (outcomes ++ rest)) op g st sw))
           as (c' & E & H1 & H3 & H4 & H5);
         [ reflexivity | reflexivity
         | flat; rewrite lookup_insert_ne by discriminate; exact Hc | ] end);
      exists c'; flat_all; cbn [ExposureTime PixelFormat MaxNumBuffer NumReadyBuffers results] in *;
      rewrite E, H1, H3, H4, H5;
      rewrite !retrievals_snoc, !triggers_snoc;
      cbn [is_retrieval is_trigger];
      repeat split; lia.
Qed.

Lemma last_replicate_S {A} (n : nat) (x : A) : last (replicate (S n) x) = Some x.
Proof.
  induction n as [|n IH]; [reflexivity|].
  change (replicate (S (S n)) x) with (x :: replicate (S n) x).
  now rewrite last_cons, IH.
Qed.

(** In a mode other than single-shot and "last", on a grabbing camera
    whose ready buffers all hold a grab result, [read_camera] retrieves
    once per ready buffer and returns one entry per successful grab.
    The entries are one and the same array, the buffer created before
    the loop, into which every frame was written in turn: whatever
    [fill] keeps of the earlier frames is all that is left of them.
    That array is also the cached frame afterwards; with no successful
    grab the result is empty and the cached frame is left alone. *)
Theorem read_camera_continuous (c : Camera) (d : InstantCamera) (m : Q) (u : TimeUnit)
    (outcomes rest : list GrabOutcome) (w h : Z) (t : Dtype) :
  _driver c = Some d ->
  grabbing d = true ->
  _acquisition_mode c <> VMode MODE_SINGLE_SHOT ->
  _acquisition_mode c <> VMode MODE_LAST ->
  config c !! "exposure" = Some (VQuantity m u) ->
  width c = Some w -> height c = Some h -> current_dtype c = Some t ->
  results (regs d) = outcomes ++ rest ->
  length outcomes = NumReadyBuffers (regs d) ->
  Forall (fun o => o <> NoResult) outcomes ->
  exists c',
    read_camera transposed zeros fill c
      = (Ok (replicate (length (delivered outcomes))
                       (written transposed fill (delivered outcomes) (zeros w h t))), c')
    /\ temp_image c' = match delivered outcomes with
                       | [] => temp_image c
                       | _ :: _ => Some (written transposed fill (delivered outcomes) (zeros w h t))
                       end
    /\ retrievals (sdk c') = (retrievals (sdk c) + length outcomes)%nat
    /\ triggers (sdk c') = triggers (sdk c)
    /\ (fun handle => results (regs handle)) <$> _driver c' = Some rest.
Proof.
  intros Hd Hg Hs Hl Hc Hw Hh Ht Hr Hn Hno.
  destruct c, d as [dev [et pf mnb nrb res] op g st sw]. flat_all.
  cbn [results NumReadyBuffers] in Hr, Hn. subst.
  unfold read_camera.
  go_by get_acquisition_mode_run.
  rewrite (proj2 (py_eq_mode_false _ _) Hs), (proj2 (py_eq_mode_false _ _) Hl). cbn [orb].
  do 4 go. cbn [NumReadyBuffers].
  destruct outcomes as [|o outcomes].
  - eexists. split; [cbn [length]; go; reflexivity|].
    flat. rewrite ?retrievals_snoc, ?triggers_snoc. cbn. repeat split; lia.
  - cbn [length]. change (S (length outcomes)) with (length (o :: outcomes)).
    match goal with |- context [bind _ _ ?s] =>
      destruct (drain_run m u (o :: outcomes) rest Hno (zeros w h t) 0 s
                  (mkInstantCamera dev (mkRegisters et pf mnb (length (o :: outcomes))
                                                    ((o :: outcomes) ++ rest)) op true st sw))
        as (c' & E & H1 & H2 & H3 & H4 & H5) end.
    { reflexivity. } { reflexivity. }
    { flat. rewrite lookup_insert_ne by discriminate. exact Hc. }
    flat_all. cbn [ExposureTime PixelFormat MaxNumBuffer NumReadyBuffers results] in *.
    erewrite bind_ok.
    2:{ cbn [length]. do 3 go. change (S (length outcomes)) with (length (o :: outcomes)).
        erewrite bind_ok by exact E. reflexivity. }
    cbn [fst snd]. rewrite Nat.add_0_l.
    destruct (delivered (o :: outcomes)) as [|a frames] eqn:Hdel.
    + exists c'. split; [reflexivity|]. rewrite H1, H3, H4, H5.
      rewrite ?retrievals_snoc, ?triggers_snoc. cbn. repeat split; lia.
    + cbn [length]. rewrite last_replicate_S. destruct c'. flat_all.
      eexists. split; [go; reflexivity|]. flat. subst.
      rewrite H3, H4. rewrite ?retrievals_snoc, ?triggers_snoc. cbn. repeat split; lia.
Qed.

(** When a retrieval of the continuous branch finds nothing within the
    timeout before all ready buffers are read, the timeout exception
    goes on to the caller: the grab results before it have been
    consumed from the device, but their frames are not returned and the
    cached frame is what it was. *)
Theorem read_camera_continuous_timeout (c : Camera) (d : InstantCamera) (m : Q) (u : TimeUnit)
    (outcomes rest : list GrabOutcome) (w h : Z) (t : Dtype) :
  _driver c = Some d ->
  grabbing d = true ->
  _acquisition_mode c <> VMode MODE_SINGLE_SHOT ->
  _acquisition_mode c <> VMode MODE_LAST ->
  config c !! "exposure" = Some (VQuantity m u) ->
  width c = Some w -> height c = Some h -> current_dtype c = Some t ->
  results (regs d) = outcomes ++ rest ->
  hd NoResult rest = NoResult ->
  length outcomes < NumReadyBuffers (regs d) ->
  Forall (fun o => o <> NoResult) outcomes ->
  exists c',
    read_camera transposed zeros fill c = (Raise TimeoutException, c')
    /\ temp_image c' = temp_image c
    /\ retrievals (sdk c') = S (retrievals (sdk c) + length outcomes)
    /\ triggers (sdk c') = triggers (sdk c)
    /\ (fun handle => results (regs handle)) <$> _driver c' = Some (tl rest).
Proof.
  intros Hd Hg Hs Hl Hc Hw Hh Ht Hr Hrest Hn Hno.
  destruct c, d as [dev [et pf mnb nrb res] op g st sw]. flat_all.
  cbn [results NumReadyBuffers] in Hr, Hn. subst.
  assert (Hj : exists j, nrb = (length outcomes + S j)%nat) by (exists (nrb - S (length outcomes))%nat; lia).
  destruct Hj as [j ->].
  unfold read_camera.
  go_by get_acquisition_mode_run.
  rewrite (proj2 (py_eq_mode_false _ _) Hs), (proj2 (py_eq_mode_false _ _) Hl). cbn [orb].
  do 4 go. cbn [NumReadyBuffers].
  match goal with |- context [bind _ _ ?s] =>
    destruct (drain_timeout m u outcomes rest Hno Hrest j (zeros w h t) 0 s
                (mkInstantCamera dev (mkRegisters et pf mnb (length outcomes + S j) (outcomes ++ rest))
                                 op true st sw))
      as (c' & E & H1 & H3 & H4 & H5) end.
  { reflexivity. } { reflexivity. }
  { flat. rewrite lookup_insert_ne by discriminate. exact Hc. }
  flat_all. cbn [ExposureTime PixelFormat MaxNumBuffer NumReadyBuffers results] in *.
  exists c'. split.
  - erewrite bind_raise; [reflexivity|].
    replace (length outcomes + S j)%nat with (S (length outcomes + j)) in * by lia.
    do 3 go. erewrite bind_raise by exact E. reflexivity.
  - rewrite H1, H3, H4, H5. rewrite ?retrievals_snoc, ?triggers_snoc. cbn. repeat split; lia.
Qed.

End Reading.

Lemma read_camera_single_frame_witness :
  exists c',
    read_camera rows_transposed rows_zeros rows_fill
                (set_acquisition_mode (VMode MODE_SINGLE_SHOT) streaming_camera)
      = (Ok (map rows_transposed (delivered [hd NoResult (results (regs streaming_driver))])), c')
    /\ temp_image c' = match hd NoResult (results (regs streaming_driver)) with
                       | Delivered a => Some (rows_transposed a)
                       | _ => temp_image (set_acquisition_mode (VMode MODE_SINGLE_SHOT) streaming_camera)
                       end
    /\ retrievals (sdk c')
       = S (retrievals (sdk (set_acquisition_mode (VMode MODE_SINGLE_SHOT) streaming_camera)))
    /\ triggers (sdk c') = triggers (sdk (set_acquisition_mode (VMode MODE_SINGLE_SHOT) streaming_camera))
    /\ grabbing <$> _driver c'
       = Some (match MODE_SINGLE_SHOT with MODE_SINGLE_SHOT => false | _ => grabbing streaming_driver end)
    /\ (fun h => results (regs h)) <$> _driver c' = Some (tl (results (regs streaming_driver))).
Proof.
  refine (read_camera_single_frame rows_transposed rows_zeros rows_fill
            (set_acquisition_mode (VMode MODE_SINGLE_SHOT) streaming_camera)
            streaming_driver (QArith_base.inject_Z 20000) us MODE_SINGLE_SHOT eq_refl eq_refl _ _).
  - discriminate.
  - vm_compute. reflexivity.
Defined.

Lemma read_camera_continuous_witness :
  exists c',
    read_camera rows_transposed rows_zeros rows_fill streaming_camera
      = (Ok (replicate (length (delivered [Delivered [[1; 2]; [3; 4]]; GrabFailed; Delivered [[5; 6]; [7; 8]]]%Z))
                       (written rows_transposed rows_fill
                                (delivered [Delivered [[1; 2]; [3; 4]]; GrabFailed; Delivered [[5; 6]; [7; 8]]]%Z)
                                (rows_zeros 2 2 uint8))), c')
    /\ temp_image c'
       = match delivered [Delivered [[1; 2]; [3; 4]]; GrabFailed; Delivered [[5; 6]; [7; 8]]]%Z with
         | [] => temp_image streaming_camera
         | _ :: _ => Some (written rows_transposed rows_fill
                             (delivered [Delivered [[1; 2]; [3; 4]]; GrabFailed; Delivered [[5; 6]; [7; 8]]]%Z)
                             (rows_zeros 2 2 uint8))
         end
    /\ retrievals (sdk c')
       = (retrievals (sdk streaming_camera)
          + length [Delivered [[1; 2]; [3; 4]]; GrabFailed; Delivered [[5; 6]; [7; 8]]]%Z)%nat
    /\ triggers (sdk c') = triggers (sdk streaming_camera)
    /\ (fun handle => results (regs handle)) <$> _driver c' = Some [Delivered [[9; 9]; [9; 9]]%Z].
Proof.
  refine (read_camera_continuous rows_transposed rows_zeros rows_fill streaming_camera streaming_driver
            (QArith_base.inject_Z 20000) us
            [Delivered [[1; 2]; [3; 4]]; GrabFailed; Delivered [[5; 6]; [7; 8]]]%Z
            [Delivered [[9; 9]; [9; 9]]%Z] 2 2 uint8
            eq_refl eq_refl _ _ _ eq_refl eq_refl eq_refl eq_refl eq_refl _).
  - discriminate.
  - discriminate.
  - vm_compute. reflexivity.
  - repeat constructor; discriminate.
Defined.

Lemma read_camera_continuous_timeout_witness :
  exists c',
    read_camera rows_transposed rows_zeros rows_fill
                (set_driver (Some (with_regs (mkRegisters (Value (QArith_base.inject_Z 10)) "Mono8" 10 3
                                                          [Delivered [[1; 2]; [3; 4]]%Z; NoResult; GrabFailed])
                                             streaming_driver))
                            streaming_camera)
      = (Raise TimeoutException, c')
    /\ temp_image c' = temp_image streaming_camera
    /\ retrievals (sdk c') = S (retrievals (sdk streaming_camera) + length [Delivered [[1; 2]; [3; 4]]%Z])
    /\ triggers (sdk c') = triggers (sdk streaming_camera)
    /\ (fun handle => results (regs handle)) <$> _driver c' = Some (tl [NoResult; GrabFailed]).
Proof.
  refine (read_camera_continuous_timeout rows_transposed rows_zeros rows_fill
            (set_driver (Some (with_regs (mkRegisters (Value (QArith_base.inject_Z 10)) "Mono8" 10 3
                                                      [Delivered [[1; 2]; [3; 4]]%Z; NoResult; GrabFailed])
                                         streaming_driver))
                        streaming_camera)
            (with_regs (mkRegisters (Value (QArith_base.inject_Z 10)) "Mono8" 10 3
                                    [Delivered [[1; 2]; [3; 4]]%Z; NoResult; GrabFailed])
                       streaming_driver)
            (QArith_base.inject_Z 20000) us
            [Delivered [[1; 2]; [3; 4]]%Z] [NoResult; GrabFailed] 2 2 uint8
            eq_refl eq_refl _ _ _ eq_refl eq_refl eq_refl eq_refl eq_refl _ _).
  - discriminate.
  - discriminate.
  - vm_compute. reflexivity.
  - cbn. lia.
  - repeat constructor; discriminate.
Defined.

End AcquisitionFacts.

(** ** Gain, auto modes and region of interest *)

Module ControlsFacts.

Import Props Controls PropsFacts.

Ltac pflat :=
  cbv beta iota zeta delta
      [set_config set_driver set_logger set_sdk set_X set_Y set_width set_height];
  cbn [_driver config logger sdk X Y width height].
Ltac pflat_all :=
  cbv beta iota zeta delta
      [set_config set_driver set_logger set_sdk set_X set_Y set_width set_height] in *;
  cbn [_driver config logger sdk X Y width height] in *.
Ltac pgo := erewrite BaslerFacts.bind_ok by reflexivity; pflat.

Section Facts.

Context {Dev : Type}.
Variable gain_value : Dev -> Basler.NodeRead Q.
Variable gain_set : PyVal -> Dev -> Basler.NodeRead Dev.
Variable auto_value : AutoNode -> Dev -> string.
Variable auto_set : AutoNode -> string -> Dev -> Dev.

(** *** Automatic modes *)

(** The setter function on an argument it accepts. *)
Lemma auto_fset_accepted (n : AutoNode) (mode : PyVal) (s : string) (p : Panel Dev) (d : Dev) :
  accepted mode = Some s ->
  _driver p = Some d ->
  auto_fset auto_set n mode p =
    (Ok tt, set_driver (Some (auto_set n s d)) (set_sdk (sdk p ++ [Call_Auto_SetValue n s]) p)).
Proof.
  intros Ha Hd. destruct p. pflat_all. subst. unfold auto_fset.
  destruct mode as [|[|]| | |s'| |]; try discriminate; cbn [accepted] in Ha.
  - injection Ha as <-. reflexivity.
  - injection Ha as <-. reflexivity.
  - destruct (in_modes s') eqn:Hs; [|discriminate]. injection Ha as <-.
    cbv zeta.
    rewrite !(proj2 (py_is_false _ _)) by discriminate.
    rewrite Hs. do 2 pgo. reflexivity.
Qed.

(** The setter function on any other argument. *)
Lemma auto_fset_refused (n : AutoNode) (mode : PyVal) (p : Panel Dev) :
  accepted mode = None ->
  auto_fset auto_set n mode p =
    (Raise (ValueError "Mode must be one of ('Off', 'Once', 'Continuous') and not "), p).
Proof.
  intros Ha. unfold auto_fset.
  destruct mode as [|[|]| | |s'| |]; try discriminate; try reflexivity.
  cbn [accepted] in Ha. destruct (in_modes s') eqn:Hs; [discriminate|].
  cbv zeta. rewrite !(proj2 (py_is_false _ _)) by discriminate. now rewrite Hs.
Qed.

Lemma accepted_in_modes (mode : PyVal) (s : string) : accepted mode = Some s -> In s modes.
Proof.
  destruct mode as [|[|]| | |s'| |]; try discriminate; cbn [accepted].
  - intros [= <-]. cbn. auto.
  - intros [= <-]. cbn. auto.
  - destruct (in_modes s') eqn:Hs; [|discriminate]. intros [= <-].
    unfold in_modes in Hs. apply existsb_exists in Hs as (x & Hx & He).
    apply String.eqb_eq in He. now subst.
Qed.

(** An assignment through the descriptor runs the setter function and,
    when it returned, caches and mirrors the value as it was given. *)
Lemma assign_auto_unfold (n : AutoNode) (cached mode : PyVal) (p : Panel Dev) :
  assign_auto auto_value auto_set n cached mode p =
    match auto_fset auto_set n mode p with
    | (Ok _, p1) =>
        (Ok tt, (auto_feature auto_value auto_set n mode, set_config (<["" := mode]> (config p1)) p1))
    | (Raise e, p1) => (Raise e, (auto_feature auto_value auto_set n cached, p1))
    end.
Proof.
  unfold assign_auto, Feature_set. cbn -[mirror auto_fset].
  destruct (auto_fset auto_set n mode p) as [[[]|e] p1]; [|reflexivity].
  now rewrite mirror_spec.
Qed.

Lemma auto_writes_app (n : AutoNode) (l1 l2 : list NodeCall) :
  auto_writes n (l1 ++ l2) = auto_writes n l1 ++ auto_writes n l2.
Proof. unfold auto_writes. apply omap_app. Qed.

(** An assignment on a connected camera, by what the setter function
    makes of its argument. *)
Lemma assign_auto_run (n : AutoNode) (cached mode : PyVal) (p : Panel Dev) (d : Dev) :
  _driver p = Some d ->
  assign_auto auto_value auto_set n cached mode p =
    match accepted mode with
    | Some s =>
        (Ok tt, (auto_feature auto_value auto_set n mode,
                 set_config (<["" := mode]> (config p))
                   (set_driver (Some (auto_set n s d))
                      (set_sdk (sdk p ++ [Call_Auto_SetValue n s]) p))))
    | None =>
        (Raise (ValueError "Mode must be one of ('Off', 'Once', 'Continuous') and not "),
         (auto_feature auto_value auto_set n cached, p))
    end.
Proof.
  intros Hd. rewrite assign_auto_unfold. destruct (accepted mode) as [s|] eqn:Ha.
  - rewrite (auto_fset_accepted n mode s p d Ha Hd). destruct p. reflexivity.
  - now rewrite (auto_fset_refused n mode p Ha).
Qed.

(** Assigning to [auto_exposure] or [auto_gain] on a connected camera.
    An argument the setter accepts, one of the three mode strings or a
    boolean, is sent to the node as a mode string, [False] as "Off" and
    [True] as "Once", in one call; the descriptor and the store then
    hold the argument as it was given, the boolean and not the string
    sent. Any other argument raises [ValueError] before the device is
    reached: no call is made, nothing is cached and the store is not
    written. *)
Theorem auto_mode_assignment (n : AutoNode) (cached mode : PyVal) (p : Panel Dev) (d : Dev) :
  _driver p = Some d ->
  match accepted mode with
  | Some s =>
      In s modes
      /\ assign_auto auto_value auto_set n cached mode p =
           (Ok tt, (auto_feature auto_value auto_set n mode,
                    set_config (<["" := mode]> (config p))
                      (set_driver (Some (auto_set n s d))
                         (set_sdk (sdk p ++ [Call_Auto_SetValue n s]) p))))
  | None =>
      assign_auto auto_value auto_set n cached mode p =
        (Raise (ValueError "Mode must be one of ('Off', 'Once', 'Continuous') and not "),
         (auto_feature auto_value auto_set n cached, p))
  end.
Proof.
  intros Hd. rewrite (assign_auto_run n cached mode p d Hd).
  destruct (accepted mode) as [s|] eqn:Ha; [|reflexivity].
  split; [now apply (accepted_in_modes mode)|reflexivity].
Qed.

(** Over any run of assignments to one auto-mode property of a
    connected camera, the node receives exactly the accepted arguments,
    in order and as mode strings, and nothing for a refused one; every
    string it receives is one of the three modes; and the other
    auto-mode node receives nothing. *)
Theorem auto_node_receives_modes_only (n : AutoNode) (values : list PyVal) (cached : PyVal)
    (p : Panel Dev) (d : Dev) :
  _driver p = Some d ->
  auto_writes n (sdk (assign_autos auto_value auto_set n cached values p))
    = auto_writes n (sdk p) ++ omap accepted values
  /\ Forall (fun s => In s modes) (omap accepted values)
  /\ forall n', n' <> n ->
       auto_writes n' (sdk (assign_autos auto_value auto_set n cached values p)) = auto_writes n' (sdk p).
Proof.
  revert cached p d. induction values as [|v values IH]; intros cached p d Hd.
  - cbn. rewrite app_nil_r. auto.
  - cbn [assign_autos]. pose proof (assign_auto_run n cached v p d Hd) as H.
    change (omap accepted (v :: values))
      with (match accepted v with Some s => s :: omap accepted values | None => omap accepted values end).
    destruct (accepted v) as [s|] eqn:Ha.
    + pose proof (accepted_in_modes v s Ha) as Hin. rewrite H.
      match goal with |- context [assign_autos _ _ _ _ _ ?q] =>
        destruct (IH (value (auto_feature auto_value auto_set n v)) q (auto_set n s d)) as (H1 & H2 & H3) end.
      { destruct p. reflexivity. }
      rewrite H1. destruct p. pflat_all. rewrite auto_writes_app.
      split; [|split].
      * rewrite <- app_assoc. f_equal. destruct n; reflexivity.
      * constructor; assumption.
      * intros n' Hn. rewrite (H3 n' Hn). pflat. rewrite auto_writes_app.
        destruct n, n'; try congruence; cbn; now rewrite app_nil_r.
    + rewrite H. apply (IH _ p d Hd).
Qed.

(** *** Gain *)

(** A timeout of the gain node never reaches the caller. A write
    returns normally whether the device took the value or timed out;
    in both cases the descriptor and the store record the value asked
    for, and a timeout leaves the device as it was and adds an error to
    the log. A read asks the device every time; when the node times out
    it logs the error and falls back on the store entry [gain], and
    raises [KeyError] when the store has none. *)
Theorem gain_timeouts_are_swallowed (cached v : PyVal) (p : Panel Dev) (d : Dev) :
  _driver p = Some d ->
  assign_gain gain_value gain_set cached v p =
    (Ok tt,
     (gain_feature gain_value gain_set v,
      set_config (<["" := v]> (config p))
        (set_driver (Some match gain_set v d with Basler.Value d' => d' | Basler.TimedOut => d end)
           (set_logger (logger p ++ [Info "Setting gain to "]
                                 ++ match gain_set v d with
                                    | Basler.Value _ => []
                                    | Basler.TimedOut => [Error "Problem setting the gain"]
                                    end)
              (set_sdk (sdk p ++ [Call_Gain_SetValue v]) p)))))
  /\ Feature_get config set_config (gain_feature gain_value gain_set cached) p =
       match gain_value d with
       | Basler.Value x =>
           (Ok (VFloat x),
            set_config (<["" := VFloat x]> (config p)) (set_sdk (sdk p ++ [Call_Gain_Value]) p))
       | Basler.TimedOut =>
           match config p !! "gain" with
           | Some g =>
               (Ok g,
                set_config (<["" := g]> (config p))
                  (set_logger (logger p ++ [Error "Timeout while reading the gain from the camera"])
                     (set_sdk (sdk p ++ [Call_Gain_Value]) p)))
           | None =>
               (Raise (KeyError "gain"),
                set_logger (logger p ++ [Error "Timeout while reading the gain from the camera"])
                  (set_sdk (sdk p ++ [Call_Gain_Value]) p))
           end
       end.
Proof.
  intros Hd. destruct p. pflat_all. subst. split.
  - unfold assign_gain, Feature_set. cbn -[mirror gain_fset].
    assert (E : gain_fset gain_set v
                  (mkPanel (Some d) config0 logger0 sdk0 X0 Y0 width0 height0)
                = (Ok tt, mkPanel (Some match gain_set v d with Basler.Value d' => d' | Basler.TimedOut => d end)
                                  config0
                                  (logger0 ++ [Info "Setting gain to "]
                                           ++ match gain_set v d with
                                              | Basler.Value _ => []
                                              | Basler.TimedOut => [Error "Problem setting the gain"]
                                              end)
                                  (sdk0 ++ [Call_Gain_SetValue v]) X0 Y0 width0 height0)).
    { unfold gain_fset. do 3 pgo. destruct (gain_set v d) as [d'|].
      - reflexivity.
      - unfold log, modify. pflat. rewrite <- app_assoc. reflexivity. }
    rewrite E. now rewrite mirror_spec.
  - unfold Feature_get. cbn -[mirror gain_fget]. unfold gain_fget.
    destruct (gain_value d) as [x|] eqn:Hg.
    + erewrite BaslerFacts.bind_ok by (do 2 pgo; rewrite Hg; reflexivity).
      erewrite BaslerFacts.bind_ok by apply mirror_spec. reflexivity.
    + destruct (config0 !! "gain") as [g|] eqn:Hc.
      * erewrite BaslerFacts.bind_ok
          by (do 2 pgo; rewrite Hg; pgo; unfold config_get, config_getitem; pflat; rewrite Hc; reflexivity).
        erewrite BaslerFacts.bind_ok by apply mirror_spec. reflexivity.
      * erewrite BaslerFacts.bind_raise; [reflexivity|].
        do 2 pgo. rewrite Hg. pgo. unfold config_get, config_getitem. pflat. now rewrite Hc.
Qed.

End Facts.

(** *** Region of interest *)

Section Geometry.

Context {Dev : Type}.
Variable geometry_value : GeometryNode -> Dev -> Z.
Variable geometry_max : GeometryNode -> Dev -> Z.
Variable geometry_set : GeometryNode -> Z -> Dev -> Dev.

Lemma SetValue_run (n : GeometryNode) (v : Z) (p : Panel Dev) (d : Dev) :
  _driver p = Some d ->
  SetValue geometry_set n v p =
    (Ok tt, set_driver (Some (geometry_set n v d)) (set_sdk (sdk p ++ [Call_Geometry_SetValue n v]) p)).
Proof. intros H. destruct p. pflat_all. subst. reflexivity. Qed.

Lemma Value_run (n : GeometryNode) (p : Panel Dev) (d : Dev) :
  _driver p = Some d ->
  Value geometry_value n p =
    (Ok (geometry_value n d), set_sdk (sdk p ++ [Call_Geometry_Value n]) p).
Proof. intros H. destruct p. pflat_all. subst. reflexivity. Qed.

(** A read of [ccd_width] or [ccd_height] asks the node for its
    maximum and mirrors the answer. *)
Lemma get_ccd_run (n : GeometryNode) (p : Panel Dev) (d : Dev) :
  _driver p = Some d ->
  get_ccd geometry_max n p =
    (Ok (geometry_max n d),
     set_config (<["" := VInt (geometry_max n d)]> (config p))
                (set_sdk (sdk p ++ [Call_Geometry_Max n]) p)).
Proof.
  intros H. destruct p. pflat_all. subst.
  unfold get_ccd, Feature_get. cbn -[mirror ccd_fget].
  erewrite BaslerFacts.bind_ok.
  2:{ erewrite BaslerFacts.bind_ok by (unfold ccd_fget; do 2 pgo; reflexivity).
      erewrite BaslerFacts.bind_ok by apply mirror_spec. reflexivity. }
  reflexivity.
Qed.

Lemma geometry_writes_app (l1 l2 : list NodeCall) :
  geometry_writes (l1 ++ l2) = geometry_writes l1 ++ geometry_writes l2.
Proof. unfold geometry_writes. apply omap_app. Qed.

Lemma aligned_bounds (step v : Z) :
  (0 < step)%Z ->
  (aligned step v mod step = 0 /\ v - step < aligned step v <= v)%Z.
Proof.
  intros Hs. unfold aligned. pose proof (Z.mod_pos_bound v step Hs) as Hb. split; [|lia].
  rewrite Zminus_mod, Zmod_mod, Z.sub_diag. apply Zmod_0_l.
Qed.

(** Writing a region of interest on a connected camera. The setter
    first resets both offsets and opens the sensor to the maxima the
    device reports, then writes width, height and the two offsets, each
    brought down to a multiple of 4 (horizontally) or of 2
    (vertically); the width is taken from the upper horizontal bound of
    the request alone, the height from the upper vertical bound alone.
    On a device that keeps what is written to these nodes, the
    attributes [width] and [height] then hold these sizes and a read of
    the region gives, in each direction, the aligned lower bound and
    that bound plus the size minus one. *)
Theorem ROI_write_then_read (x0 x1 y0 y1 : Z) (p : Panel Dev) (d : Dev) :
  _driver p = Some d ->
  (forall n v e, geometry_value n (geometry_set n v e) = v) ->
  (forall n n' v e, n <> n' -> geometry_value n (geometry_set n' v e) = geometry_value n e) ->
  exists p',
    ROI_fset geometry_value geometry_max geometry_set ((x0, x1), (y0, y1)) p = (Ok tt, p')
    /\ geometry_writes (sdk p') =
         geometry_writes (sdk p)
         ++ [(OffsetX, 0%Z); (OffsetY, 0%Z);
             (Width, geometry_max Width (geometry_set OffsetY 0 (geometry_set OffsetX 0 d)));
             (Height, geometry_max Height
                        (geometry_set Width
                           (geometry_max Width (geometry_set OffsetY 0 (geometry_set OffsetX 0 d)))
                           (geometry_set OffsetY 0 (geometry_set OffsetX 0 d))));
             (Width, aligned 4 x1); (Height, aligned 2 y1);
             (OffsetX, aligned 4 x0); (OffsetY, aligned 2 y0)]
    /\ X p' = Some (aligned 4 x0, aligned 4 x0 + aligned 4 x1)%Z
    /\ Y p' = Some (aligned 2 y0, aligned 2 y0 + aligned 2 y1)%Z
    /\ width p' = Some (aligned 4 x1)
    /\ height p' = Some (aligned 2 y1)
    /\ fst (ROI_fget geometry_value p') =
         Ok ((aligned 4 x0, aligned 4 x0 + (aligned 4 x1 - 1))%Z,
             (aligned 2 y0, aligned 2 y0 + (aligned 2 y1 - 1))%Z)
    /\ (aligned 4 x1 mod 4 = 0 /\ x1 - 4 < aligned 4 x1 <= x1)%Z
    /\ (aligned 4 x0 mod 4 = 0 /\ x0 - 4 < aligned 4 x0 <= x0)%Z
    /\ (aligned 2 y1 mod 2 = 0 /\ y1 - 2 < aligned 2 y1 <= y1)%Z
    /\ (aligned 2 y0 mod 2 = 0 /\ y0 - 2 < aligned 2 y0 <= y0)%Z.
Proof.
  intros Hd Hsame Hother. destruct p. pflat_all. subst.
  unfold ROI_fset. cbn [fst snd]. cbv zeta.
  fold (aligned 4 x1) (aligned 4 x0) (aligned 2 y1) (aligned 2 y0).
  pgo.
  do 2 (erewrite BaslerFacts.bind_ok by (eapply SetValue_run; reflexivity); pflat).
  pgo. erewrite BaslerFacts.bind_ok by (eapply get_ccd_run; reflexivity). pflat.
  erewrite BaslerFacts.bind_ok by (eapply SetValue_run; reflexivity). pflat.
  pgo. erewrite BaslerFacts.bind_ok by (eapply get_ccd_run; reflexivity). pflat.
  erewrite BaslerFacts.bind_ok by (eapply SetValue_run; reflexivity). pflat.
  do 4 (pgo; erewrite BaslerFacts.bind_ok by (eapply SetValue_run; reflexivity); pflat).
  do 2 pgo.
  erewrite BaslerFacts.bind_ok by (eapply Value_run; reflexivity). pflat. pgo.
  erewrite BaslerFacts.bind_ok by (eapply Value_run; reflexivity). pflat.
  eexists. split; [reflexivity|]. pflat.
  rewrite !geometry_writes_app. cbn [geometry_writes omap list_omap app].
  split; [rewrite <- !app_assoc; cbn; now rewrite ?app_nil_r|].
  split; [reflexivity|]. split; [reflexivity|].
  split. { f_equal. rewrite !Hother by discriminate. apply Hsame. }
  split. { f_equal. rewrite !Hother by discriminate. apply Hsame. }
  split.
  { unfold ROI_fget.
    do 4 (erewrite BaslerFacts.bind_ok by (eapply Value_run; reflexivity); pflat).
    cbn [fst ret]. do 3 f_equal.
    all: repeat first [rewrite Hsame | rewrite Hother by discriminate]; reflexivity. }
  repeat split; apply aligned_bounds; lia.
Qed.

End Geometry.

Lemma auto_mode_assignment_witness :
  In "Once" modes
  /\ assign_auto sensor_auto_value sensor_auto_set ExposureAuto VNone (VBool true) bench_panel =
       (Ok tt, (auto_feature sensor_auto_value sensor_auto_set ExposureAuto (VBool true),
                set_config (<["" := VBool true]> (config bench_panel))
                  (set_driver (Some (sensor_auto_set ExposureAuto "Once" bench_sensor))
                     (set_sdk (sdk bench_panel ++ [Call_Auto_SetValue ExposureAuto "Once"]) bench_panel)))).
Proof.
  exact (auto_mode_assignment sensor_auto_value sensor_auto_set ExposureAuto VNone (VBool true)
           bench_panel bench_sensor eq_refl).
Defined.

Lemma auto_node_receives_modes_only_witness :
  auto_writes GainAuto
      (sdk (assign_autos sensor_auto_value sensor_auto_set GainAuto VNone
              [VBool true; VStr "Auto"; VInt 1; VStr "Continuous"; VBool false] bench_panel))
    = auto_writes GainAuto (sdk bench_panel)
      ++ omap accepted [VBool true; VStr "Auto"; VInt 1; VStr "Continuous"; VBool false]
  /\ Forall (fun s => In s modes)
            (omap accepted [VBool true; VStr "Auto"; VInt 1; VStr "Continuous"; VBool false])
  /\ forall n', n' <> GainAuto ->
       auto_writes n'
         (sdk (assign_autos sensor_auto_value sensor_auto_set GainAuto VNone
                 [VBool true; VStr "Auto"; VInt 1; VStr "Continuous"; VBool false] bench_panel))
       = auto_writes n' (sdk bench_panel).
Proof.
  exact (auto_node_receives_modes_only sensor_auto_value sensor_auto_set GainAuto
           [VBool true; VStr "Auto"; VInt 1; VStr "Continuous"; VBool false] VNone
           bench_panel bench_sensor eq_refl).
Defined.

Lemma gain_timeouts_are_swallowed_witness :
  assign_gain sensor_gain_value sensor_gain_set VNone (VFloat (QArith_base.inject_Z 4))
              (set_driver (Some (mkSensor (QArith_base.inject_Z 1) true "Off" "Off" full_frame full_frame))
                          bench_panel)
    = (Ok tt,
       (gain_feature sensor_gain_value sensor_gain_set (VFloat (QArith_base.inject_Z 4)),
        mkPanel (Some (mkSensor (QArith_base.inject_Z 1) true "Off" "Off" full_frame full_frame))
                {["" := VFloat (QArith_base.inject_Z 4)]}
                [Info "Setting gain to "; Error "Problem setting the gain"]
                [Call_Gain_SetValue (VFloat (QArith_base.inject_Z 4))] None None None None))
  /\ Feature_get config set_config (gain_feature sensor_gain_value sensor_gain_set VNone)
                 (set_driver (Some (mkSensor (QArith_base.inject_Z 1) true "Off" "Off" full_frame full_frame))
                             bench_panel)
     = (Raise (KeyError "gain"),
        mkPanel (Some (mkSensor (QArith_base.inject_Z 1) true "Off" "Off" full_frame full_frame))
                ∅ [Error "Timeout while reading the gain from the camera"] [Call_Gain_Value]
                None None None None).
Proof.
  exact (gain_timeouts_are_swallowed sensor_gain_value sensor_gain_set VNone
           (VFloat (QArith_base.inject_Z 4))
           (set_driver (Some (mkSensor (QArith_base.inject_Z 1) true "Off" "Off" full_frame full_frame))
                       bench_panel)
           (mkSensor (QArith_base.inject_Z 1) true "Off" "Off" full_frame full_frame) eq_refl).
Defined.

Lemma ROI_write_then_read_witness :
  exists p',
    ROI_fset sensor_geometry_value sensor_geometry_max sensor_geometry_set
             ((16, 1199), (16, 799))%Z bench_panel = (Ok tt, p')
    /\ geometry_writes (sdk p') =
         geometry_writes (sdk bench_panel)
         ++ [(OffsetX, 0%Z); (OffsetY, 0%Z);
             (Width, sensor_geometry_max Width
                       (sensor_geometry_set OffsetY 0 (sensor_geometry_set OffsetX 0 bench_sensor)));
             (Height, sensor_geometry_max Height
                        (sensor_geometry_set Width
                           (sensor_geometry_max Width
                              (sensor_geometry_set OffsetY 0 (sensor_geometry_set OffsetX 0 bench_sensor)))
                           (sensor_geometry_set OffsetY 0 (sensor_geometry_set OffsetX 0 bench_sensor))));
             (Width, aligned 4 1199); (Height, aligned 2 799);
             (OffsetX, aligned 4 16); (OffsetY, aligned 2 16)]
    /\ X p' = Some (aligned 4 16, aligned 4 16 + aligned 4 1199)%Z
    /\ Y p' = Some (aligned 2 16, aligned 2 16 + aligned 2 799)%Z
    /\ width p' = Some (aligned 4 1199)
    /\ height p' = Some (aligned 2 799)
    /\ fst (ROI_fget sensor_geometry_value p') =
         Ok ((aligned 4 16, aligned 4 16 + (aligned 4 1199 - 1))%Z,
             (aligned 2 16, aligned 2 16 + (aligned 2 799 - 1))%Z)
    /\ (aligned 4 1199 mod 4 = 0 /\ 1199 - 4 < aligned 4 1199 <= 1199)%Z
    /\ (aligned 4 16 mod 4 = 0 /\ 16 - 4 < aligned 4 16 <= 16)%Z
    /\ (aligned 2 799 mod 2 = 0 /\ 799 - 2 < aligned 2 799 <= 799)%Z
    /\ (aligned 2 16 mod 2 = 0 /\ 16 - 2 < aligned 2 16 <= 16)%Z.
Proof.
  refine (ROI_write_then_read sensor_geometry_value sensor_geometry_max sensor_geometry_set
            16 1199 16 799 bench_panel bench_sensor eq_refl _ _).
  - intros n v e. unfold sensor_geometry_value, sensor_geometry_set. cbn.
    destruct (decide (n = n)); congruence.
  - intros n n' v e Hn. unfold sensor_geometry_value, sensor_geometry_set. cbn.
    destruct (decide (n = n')); congruence.
Defined.

End ControlsFacts.
